(** * GPU resource manager: attribution and reclamation of GPU processes

    A shallow embedding of [gpu_manager.py].  The script shells out to
    [squeue], [scontrol], [docker], [nvidia-smi], [ps] and [kill]; here the
    operating system is an abstract [Platform] that answers each command, and
    every function of the script is a computation that threads the state of
    the platform, may raise a Python exception, and emits the effects it
    performs (commands executed, sleeps, liveness probes, lines printed,
    tracebacks, text appended to [gpu_kills.log]) as a trace of events.

    Modelling boundary: strings are sequences of 8-bit characters and only
    ASCII white space is recognised; standard output and standard error
    accept what is written to them, so [print] and [traceback.print_exc]
    succeed; appending to the log file succeeds or fails as the platform
    decides; [json.loads] is the platform's decoder; the text Python
    produces for [str(e)] of an exception and for [str]/[repr] of lists,
    dictionaries and floats is supplied by the platform. *)

From Stdlib Require Import ZArith Ascii String DecimalString.
From Stdlib Require DecimalPos.
From stdpp Require Import base decidable option list list_numbers strings gmap.

Local Open Scope Z_scope.

(** ** Python string primitives *)

Module PyStr.

(** [c.isspace()] on the ASCII range. *)
Definition is_space (c : ascii) : bool :=
  let n := nat_of_ascii c in
  (Nat.leb 9 n && Nat.leb n 13) || (Nat.leb 28 n && Nat.leb n 32).

(** [sub in s]. *)
Fixpoint contains (sub s : string) : bool :=
  String.prefix sub s ||
  match s with
  | EmptyString => false
  | String _ s' => contains sub s'
  end.

(** [s.split(sep)] for a non-empty separator: leftmost, non-overlapping
    occurrences; [skip] counts the characters of a matched separator that
    are still to be passed over and [cur] is the piece being read. *)
Fixpoint split_go (sep : string) (skip : nat) (cur : string) (s : string)
  : list string :=
  match s with
  | EmptyString => [cur]
  | String c s' =>
      match skip with
      | S k => split_go sep k cur s'
      | O =>
          if String.prefix sep s
          then cur :: split_go sep (Nat.pred (String.length sep)) "" s'
          else split_go sep O (cur +:+ String c "") s'
      end
  end.

Definition split (sep s : string) : list string := split_go sep O "" s.

(** [s.split()]: pieces between runs of white space, none of them empty. *)
Definition flush (cur : string) : list string :=
  match cur with EmptyString => [] | _ => [cur] end.

Fixpoint split_ws_go (cur : string) (s : string) : list string :=
  match s with
  | EmptyString => flush cur
  | String c s' =>
      if is_space c then flush cur ++ split_ws_go "" s'
      else split_ws_go (cur +:+ String c "") s'
  end.

Definition split_ws (s : string) : list string := split_ws_go "" s.

(** Dropping the characters that satisfy [p] from both ends. *)
Fixpoint lstrip_by (p : ascii → bool) (s : string) : string :=
  match s with
  | EmptyString => ""
  | String c s' => if p c then lstrip_by p s' else s
  end.

Definition strip_by (p : ascii → bool) (s : string) : string :=
  String.rev (lstrip_by p (String.rev (lstrip_by p s))).

(** [s.strip()]. *)
Definition strip (s : string) : string := strip_by is_space s.

(** [sep.join(l)]. *)
Fixpoint join (sep : string) (l : list string) : string :=
  match l with
  | [] => ""
  | [x] => x
  | x :: l' => x +:+ sep +:+ join sep l'
  end.

(** [str(n)] for an integer. *)
Definition of_int (n : Z) : string := NilEmpty.string_of_int (Z.to_int n).

(** [int(s)] in base ten: surrounding blanks are dropped (the separators
    28 to 31 are not blanks here), one sign is allowed, and single
    underscores may separate digits.  [None] stands for [ValueError]. *)
Definition is_blank (c : ascii) : bool :=
  let n := nat_of_ascii c in
  (Nat.leb 9 n && Nat.leb n 13) || Nat.eqb n 32.

Definition digit (c : ascii) : option Z :=
  let n := nat_of_ascii c in
  if Nat.leb 48 n && Nat.leb n 57 then Some (Z.of_nat n - 48) else None.

(** [acc] is the value read so far; [prev] tells whether the previous
    character was a digit (an underscore is legal only between digits). *)
Fixpoint digits_go (acc : Z) (prev : bool) (s : string) : option Z :=
  match s with
  | EmptyString => if prev then Some acc else None
  | String c s' =>
      match digit c with
      | Some d => digits_go (10 * acc + d) true s'
      | None =>
          if (Ascii.eqb c "_" && prev)%bool then
            match s' with
            | String c' _ =>
                match digit c' with
                | Some _ => digits_go acc false s'
                | None => None
                end
            | EmptyString => None
            end
          else None
      end
  end.

Definition to_int (s : string) : option Z :=
  match strip_by is_blank s with
  | String "-" r => Z.opp <$> digits_go 0 false r
  | String "+" r => digits_go 0 false r
  | r => digits_go 0 false r
  end.

(** Truth value of a string: empty is false. *)
Definition truthy (s : string) : bool :=
  match s with EmptyString => false | _ => true end.

(** [s.splitlines()] over the ASCII line boundaries; a carriage return
    followed by a line feed is one boundary. *)
Definition is_linebreak (c : ascii) : bool :=
  let n := nat_of_ascii c in
  (Nat.leb 10 n && Nat.leb n 13) || (Nat.leb 28 n && Nat.leb n 30).

Fixpoint splitlines_go (cur : string) (s : string) : list string :=
  match s with
  | EmptyString => flush cur
  | String c s' =>
      if is_linebreak c then
        cur ::
        match s' with
        | String c' s'' =>
            if (Ascii.eqb c "013" && Ascii.eqb c' "010")%bool
            then splitlines_go "" s''
            else splitlines_go "" s'
        | EmptyString => []
        end
      else splitlines_go (cur +:+ String c "") s'
  end.

Definition splitlines (s : string) : list string := splitlines_go "" s.

End PyStr.

(** ** Python values, exceptions, commands *)

(** Values as [json.loads] produces them, with [None]; a float only shows
    whether it is zero, which is all the script can observe of it. *)
#[warnings="-register-all"]
Inductive pyval : Type :=
| PNone
| PBool (b : bool)
| PInt (n : Z)
| PFloat (nonzero : bool)
| PStr (s : string)
| PList (l : list pyval)
| PDict (kv : list (string * pyval)).

(** A command line given to [subprocess]: a shell line ([shell=True]) or an
    argument vector. *)
Inductive Cmd : Type :=
| Shell (line : string)
| Argv (args : list string).

Inductive PyExc : Type :=
| ValueError
| KeyError (key : string)
| IndexError
| TypeError
| AttributeError
| JSONDecodeError
| CalledProcessError (c : Cmd) (code : Z)
| SpawnError (c : Cmd)
| OSError.

(** What running a child process gives: it exited with a status and its
    captured output, or it could not be started. *)
Inductive ProcResult : Type :=
| Exited (code : Z) (out err : string)
| NotStarted.

Inductive Event : Type :=
| EvExec (c : Cmd) (r : ProcResult)
| EvSleep (seconds : Z)
| EvPidExists (pid : Z) (alive : bool)
| EvNow (stamp : string)
| EvPrint (line : string)
| EvTraceback (e : PyExc)
| EvLogAppend (text : string).

(** The operating system and the Python runtime as the script sees them. *)
Class Platform (World : Type) : Type := {
  os_run : Cmd → World → ProcResult * World;
  os_pid_exists : Z → World → bool * World;
  os_sleep : Z → World → World;
  os_now : World → string * World;
  os_log_append : string → World → bool * World;
  json_loads : string → option pyval;
  str_exc : PyExc → string;
  repr_val : pyval → string;
  repr_argv : list string → string;
}.

(** ** Computations: platform state, exceptions, trace of effects *)

Inductive Res (A : Type) : Type :=
| Ok (a : A)
| Raise (e : PyExc).
Arguments Ok {A} a.
Arguments Raise {A} e.

Record Out (W A : Type) : Type := MkOut {
  res : Res A;
  world : W;
  events : list Event;
}.
Arguments MkOut {W A} res world events.
Arguments res {W A} o.
Arguments world {W A} o.
Arguments events {W A} o.

Definition M (W A : Type) : Type := W → Out W A.

Definition ret {W A} (a : A) : M W A := λ w, MkOut (Ok a) w [].

Definition raise {W A} (e : PyExc) : M W A := λ w, MkOut (Raise e) w [].

Definition bind {W A B} (m : M W A) (k : A → M W B) : M W B := λ w,
  match m w with
  | MkOut (Ok a) w1 evs1 =>
      match k a w1 with
      | MkOut r w2 evs2 => MkOut r w2 (evs1 ++ evs2)
      end
  | MkOut (Raise e) w1 evs1 => MkOut (Raise e) w1 evs1
  end.

(** [try: m  except Exception as e: h e]. *)
Definition try_except {W A} (m : M W A) (h : PyExc → M W A) : M W A := λ w,
  match m w with
  | MkOut (Ok a) w1 evs1 => MkOut (Ok a) w1 evs1
  | MkOut (Raise e) w1 evs1 =>
      match h e w1 with
      | MkOut r w2 evs2 => MkOut r w2 (evs1 ++ evs2)
      end
  end.

Definition emit {W} (ev : Event) : M W unit := λ w, MkOut (Ok tt) w [ev].

Definition lift {W A} (r : Res A) : M W A := λ w, MkOut r w [].

Declare Scope py_scope.
Delimit Scope py_scope with py.
Notation "x <- m ;; k" := (bind m (λ x, k))
  (at level 20, m at level 99, k at level 200, only parsing) : py_scope.
Notation "' pat <- m ;; k" := (bind m (λ x, match x with pat => k end))
  (at level 20, pat pattern, m at level 99, k at level 200, only parsing)
  : py_scope.
Notation "m ;; k" := (bind m (λ _, k))
  (at level 100, k at level 200, only parsing, right associativity) : py_scope.
Local Open Scope py_scope.

(** [for x in l: body x], stopping at the first exception. *)
Fixpoint for_each {W A} (l : list A) (body : A → M W unit) : M W unit :=
  match l with
  | [] => ret tt
  | x :: l' => body x ;; for_each l' body
  end.

(** [print(line)] on a standard output that accepts the line. *)
Definition print {W} (line : string) : M W unit := emit (EvPrint line).

Definition nl : string := String (ascii_of_nat 10) "".
Definition dq : string := String (ascii_of_nat 34) "".

(** ** Dictionaries and dynamically typed values *)

(** A Python [dict] with string keys: iteration follows first insertion, and
    assigning to a key that is present replaces its value in place. *)
Definition dict (V : Type) : Type := list (string * V).

Fixpoint dict_get {V} (k : string) (d : dict V) : option V :=
  match d with
  | [] => None
  | (k', v) :: d' => if String.eqb k' k then Some v else dict_get k d'
  end.

Fixpoint dict_set {V} (k : string) (v : V) (d : dict V) : dict V :=
  match d with
  | [] => [(k, v)]
  | (k', v') :: d' =>
      if String.eqb k' k then (k, v) :: d' else (k', v') :: dict_set k v d'
  end.

Definition rbind {A B} (r : Res A) (k : A → Res B) : Res B :=
  match r with
  | Ok a => k a
  | Raise e => Raise e
  end.

Definition of_option {A} (e : PyExc) (o : option A) : Res A :=
  match o with
  | Some a => Ok a
  | None => Raise e
  end.

Module PyVal.

(** Truth value of [v] in a condition. *)
Definition truthy (v : pyval) : bool :=
  match v with
  | PNone => false
  | PBool b => b
  | PInt n => negb (n =? 0)
  | PFloat nonzero => nonzero
  | PStr s => PyStr.truthy s
  | PList l => match l with [] => false | _ => true end
  | PDict kv => match kv with [] => false | _ => true end
  end.

(** [v[0]]. *)
Definition index0 (v : pyval) : Res pyval :=
  match v with
  | PList (x :: _) => Ok x
  | PList [] => Raise IndexError
  | PStr (String c _) => Ok (PStr (String c ""))
  | PStr EmptyString => Raise IndexError
  | PDict _ => Raise (KeyError "0")
  | _ => Raise TypeError
  end.

(** [v[k]] for a string key. *)
Definition getitem (k : string) (v : pyval) : Res pyval :=
  match v with
  | PDict kv => of_option (KeyError k) (dict_get k kv)
  | _ => Raise TypeError
  end.

Definition is_str (k : string) (v : pyval) : bool :=
  match v with
  | PStr s => String.eqb s k
  | _ => false
  end.

(** [k in v] for a string [k]. *)
Definition contains (k : string) (v : pyval) : Res bool :=
  match v with
  | PDict kv => Ok (existsb (λ p, String.eqb p.1 k) kv)
  | PList l => Ok (existsb (is_str k) l)
  | PStr s => Ok (PyStr.contains k s)
  | _ => Raise TypeError
  end.

(** [v.split(sep)]: only strings have the method. *)
Definition split (sep : string) (v : pyval) : Res (list string) :=
  match v with
  | PStr s => Ok (PyStr.split sep s)
  | _ => Raise AttributeError
  end.

(** The items [sep.join(v)] iterates over: the elements of a list, the
    characters of a string, the keys of a dictionary. *)
Fixpoint chars (s : string) : list string :=
  match s with
  | EmptyString => []
  | String c s' => String c "" :: chars s'
  end.

Fixpoint strings (l : list pyval) : option (list string) :=
  match l with
  | [] => Some []
  | PStr s :: l' => cons s <$> strings l'
  | _ => None
  end.

Definition join (sep : string) (v : pyval) : Res string :=
  match v with
  | PList l => of_option TypeError (PyStr.join sep <$> strings l)
  | PStr s => Ok (PyStr.join sep (chars s))
  | PDict kv => Ok (PyStr.join sep (fst <$> kv))
  | _ => Raise TypeError
  end.

End PyVal.

(** ** Records of the collectors *)

Module Job.
Record t : Type := Make {
  user : string;
  job_name : string;
  state : string;
  node_list : string;
  gpu_indices : list Z;
  workdir : string;
  runtime : string;
}.
End Job.

Module Container.
Record t : Type := Make {
  name : pyval;
  mount_path : pyval;
  user : pyval;
  binds : pyval;
  source : pyval;
}.
End Container.

(** The dictionary handed to [kill_non_slurm_process]. *)
Module ProcessInfo.
Record t : Type := Make {
  memory : string;
  type : string;
  user : pyval;
  command : string;
  container_name : pyval;
  mount_source : pyval;
  container_binds : pyval;
}.
End ProcessInfo.

Fixpoint repeat_str (s : string) (n : nat) : string :=
  match n with
  | O => ""
  | S n' => s +:+ repeat_str s n'
  end.

(** *** Parsing the scheduler's job description *)

(** One comma-separated part holding a dash: [start, end = map(int,
    part.split('-'))] then [range(start, end + 1)]. *)
Definition parse_range (part : string) : Res (list Z) :=
  match PyStr.to_int <$> PyStr.split "-" part with
  | [Some start; Some stop] => Ok (seqZ start (stop + 1 - start))
  | _ => Raise ValueError
  end.

(** The loop over [idx_part.split(',')]; a part without a dash that is not
    an integer is skipped. *)
Fixpoint parse_parts (parts : list string) (gpu_indices : list Z)
  : Res (list Z) :=
  match parts with
  | [] => Ok gpu_indices
  | part :: rest =>
      if PyStr.contains "-" part then
        rbind (parse_range part) (λ r, parse_parts rest (gpu_indices ++ r))
      else
        match PyStr.to_int part with
        | Some n => parse_parts rest (gpu_indices ++ [n])
        | None => parse_parts rest gpu_indices
        end
  end.

Definition idx_part (scontrol_out : string) : Res string :=
  rbind (of_option IndexError (PyStr.split "IDX:" scontrol_out !! 1%nat))
    (λ after, of_option IndexError (PyStr.split ")" after !! 0%nat)).

Definition parse_gpu_indices (scontrol_out : string) : Res (list Z) :=
  if PyStr.contains "IDX:" scontrol_out then
    rbind (idx_part scontrol_out) (λ p, parse_parts (PyStr.split "," p) [])
  else Ok [].

(** [scontrol_out.split(key)[1].split()[0]]. *)
Definition field_after (key scontrol_out : string) : Res string :=
  rbind (of_option IndexError (PyStr.split key scontrol_out !! 1%nat))
    (λ after, of_option IndexError (PyStr.split_ws after !! 0%nat)).

Definition parse_workdir (scontrol_out : string) : Res string :=
  if PyStr.contains "WorkDir=" scontrol_out
  then field_after "WorkDir=" scontrol_out
  else Ok "".

Definition hms (t : string) : Res string :=
  match PyStr.split ":" t with
  | [hours; mins; secs] =>
      Ok (hours +:+ " hours, " +:+ mins +:+ " minutes, " +:+ secs +:+ " seconds")
  | _ => Raise ValueError
  end.

Definition parse_runtime (scontrol_out : string) : Res string :=
  if PyStr.contains "RunTime=" scontrol_out then
    rbind (field_after "RunTime=" scontrol_out) (λ runtime,
      if PyStr.contains "-" runtime then
        match PyStr.split "-" runtime with
        | [days; time] => rbind (hms time) (λ r, Ok (days +:+ " days, " +:+ r))
        | _ => Raise ValueError
        end
      else hms runtime)
  else Ok "".

(** *** Building a container record from [docker inspect] *)

Definition first_source (info : pyval) : Res pyval :=
  rbind (PyVal.getitem "Mounts" info) (λ mounts,
  rbind (PyVal.index0 mounts) (λ m0, PyVal.getitem "Source" m0)).

Definition has_mounts (info : pyval) : Res bool :=
  rbind (PyVal.getitem "Mounts" info) (λ mounts, Ok (PyVal.truthy mounts)).

(** ['mount_path'] and ['source']. *)
Definition mount_source (info : pyval) : Res pyval :=
  rbind (has_mounts info) (λ b, if b then first_source info else Ok (PStr "")).

(** ['user']. *)
Definition owner_user (info : pyval) : Res pyval :=
  rbind (has_mounts info) (λ b : bool,
    if b then
      rbind (first_source info) (λ src,
      rbind (PyVal.split "/" src) (λ parts,
        of_option IndexError (PStr <$> parts !! 2%nat)))
    else Ok (PStr "unknown")).

(** ['binds']. *)
Definition host_binds (info : pyval) : Res pyval :=
  rbind (PyVal.getitem "HostConfig" info) (λ hc,
  rbind (PyVal.contains "Binds" hc) (λ b : bool,
    if b then PyVal.getitem "Binds" hc else Ok (PList []))).

Definition container_record (info : pyval) : Res Container.t :=
  rbind (PyVal.getitem "Name" info) (λ name,
  rbind (mount_source info) (λ mount_path,
  rbind (owner_user info) (λ user,
  rbind (host_binds info) (λ binds,
  rbind (mount_source info) (λ source,
    Ok (Container.Make name mount_path user binds source)))))).

(** *** One line of the GPU process query *)

Fixpoint find_gpu (gpu_uuid : string) (idx : Z) (gpu_info : list string)
  : option Z :=
  match gpu_info with
  | [] => None
  | info :: rest =>
      if PyStr.contains gpu_uuid info then Some idx
      else find_gpu gpu_uuid (idx + 1) rest
  end.

(** [gpu_processes[idx]] on a [defaultdict(list)]: a key that is missing
    is entered with an empty list. *)
Definition touch (idx : Z) (gpu_processes : gmap Z (list (Z * string)))
  : gmap Z (list (Z * string)) :=
  match gpu_processes !! idx with
  | Some _ => gpu_processes
  | None => <[idx := []]> gpu_processes
  end.

(** The body of the loop over the lines of the query: the table after the
    line, and whether the line was read.  In
    [gpu_processes[idx].append((int(pid), memory))] the list is looked up,
    and entered when missing, before [int(pid)] is evaluated, so the key
    stays in the table when the conversion raises. *)
Definition add_gpu_line (gpu_info : list string) (line : string)
    (gpu_processes : gmap Z (list (Z * string)))
  : gmap Z (list (Z * string)) * Res unit :=
  if PyStr.truthy line then
    match PyStr.split ", " line with
    | [gpu_uuid; pid; memory] =>
        match find_gpu gpu_uuid 0 gpu_info with
        | Some idx =>
            let touched := touch idx gpu_processes in
            match PyStr.to_int pid with
            | Some p =>
                (<[idx := default [] (touched !! idx) ++ [(p, memory)]]>
                   touched,
                 Ok tt)
            | None => (touched, Raise ValueError)
            end
        | None => (gpu_processes, Ok tt)
        end
    | _ => (gpu_processes, Raise ValueError)
    end
  else (gpu_processes, Ok tt).

Section Script.
Context {World : Type} `{!Platform World}.

Abbreviation M := (M World).

(** [subprocess.run(c)] without [check]: the child's outcome. *)
Definition exec_cmd (c : Cmd) : M ProcResult := λ w,
  let '(r, w') := os_run c w in MkOut (Ok r) w' [EvExec c r].

(** [subprocess.run(c, check=True)]. *)
Definition run_checked (c : Cmd) : M unit :=
  r <- exec_cmd c ;;
  match r with
  | Exited code _ _ =>
      if code =? 0 then ret tt else raise (CalledProcessError c code)
  | NotStarted => raise (SpawnError c)
  end.

Definition time_sleep (seconds : Z) : M unit := λ w,
  MkOut (Ok tt) (os_sleep seconds w) [EvSleep seconds].

Definition psutil_pid_exists (pid : Z) : M bool := λ w,
  let '(b, w') := os_pid_exists pid w in MkOut (Ok b) w' [EvPidExists pid b].

(** [datetime.datetime.now().strftime(...)]. *)
Definition datetime_now : M string := λ w,
  let '(t, w') := os_now w in MkOut (Ok t) w' [EvNow t].

(** [traceback.print_exc()]. *)
Definition print_exc (e : PyExc) : M unit := emit (EvTraceback e).

(** [with open('gpu_kills.log', 'a') as f: f.write(text)]: the text is
    appended, or the file cannot be opened or written and [OSError] is
    raised. *)
Definition log_append (text : string) : M unit := λ w,
  let '(ok, w') := os_log_append text w in
  if ok : bool then MkOut (Ok tt) w' [EvLogAppend text]
  else MkOut (Raise OSError) w' [].

(** What an f-string shows for a command. *)
Definition cmd_str (c : Cmd) : string :=
  match c with
  | Shell line => line
  | Argv args => repr_argv args
  end.

(** [safe_subprocess_run]: the command's standard output, or the empty
    string after reporting a non-zero exit status or a failure to start. *)
Definition safe_subprocess_run (cmd : Cmd) : M string :=
  r <- exec_cmd cmd ;;
  match r with
  | Exited code out err =>
      if code =? 0 then ret out
      else
        print ("Command failed: " +:+ cmd_str cmd) ;;
        print ("Error: " +:+ err) ;;
        ret ""
  | NotStarted =>
      print ("Unexpected error running command " +:+ cmd_str cmd +:+ ": "
             +:+ str_exc (SpawnError cmd)) ;;
      ret ""
  end.

(** What [str(v)] and an f-string show for a value. *)
Definition py_str (v : pyval) : string :=
  match v with
  | PStr s => s
  | PNone => "None"
  | PBool true => "True"
  | PBool false => "False"
  | PInt n => PyStr.of_int n
  | _ => repr_val v
  end.

(** *** Process tree and ownership queries *)

Definition check_cmd (pid : Z) (jobid : string) : Cmd :=
  Shell ("ps -ef --forest | awk -v pid=" +:+ PyStr.of_int pid
    +:+ " -v jobid=" +:+ jobid +:+ " '" +:+ nl
    +:+ "        $0 ~ " +:+ dq +:+ "slurmstepd.*\\[" +:+ dq +:+ "jobid"
    +:+ dq +:+ ".batch\\]" +:+ dq +:+ " {print; p=NR; next}" +:+ nl
    +:+ "        (NR>=p) && (NR<=p+4) {" +:+ nl
    +:+ "            if ($2 == pid) found = 1;" +:+ nl
    +:+ "        }" +:+ nl
    +:+ "        END {" +:+ nl
    +:+ "            print " +:+ dq +:+ "\nPID " +:+ dq +:+ " pid " +:+ dq
    +:+ " belongs to job " +:+ dq +:+ " jobid " +:+ dq +:+ "?: " +:+ dq
    +:+ " (found ? " +:+ dq +:+ "TRUE" +:+ dq +:+ " : " +:+ dq +:+ "FALSE"
    +:+ dq +:+ ");" +:+ nl
    +:+ "            exit(!found)" +:+ nl
    +:+ "        }" +:+ nl
    +:+ "    ' | grep -v " +:+ dq +:+ "awk -v pid" +:+ dq +:+ " ").

(** [check_pid_belongs_to_slurm_job]: the pipeline's status is zero and
    its output holds the word TRUE; a failure to run it counts as no. *)
Definition check_pid_belongs_to_slurm_job (pid : Z) (jobid : string)
  : M bool :=
  r <- exec_cmd (check_cmd pid jobid) ;;
  ret match r with
      | Exited code out _ => (code =? 0) && PyStr.contains "TRUE" out
      | NotStarted => false
      end.

Definition hierarchy_cmd (job_id : string) : Cmd :=
  Shell ("ps -ef --forest | awk -v jobid=" +:+ job_id +:+ " '" +:+ nl
    +:+ "        $0 ~ " +:+ dq +:+ "slurmstepd.*\\[" +:+ dq +:+ "jobid"
    +:+ dq +:+ "\\.batch\\]" +:+ dq +:+ " {print; p=NR; next}" +:+ nl
    +:+ "        (NR>=p) && (NR<=p+4) {print}" +:+ nl
    +:+ "    ' | grep -v " +:+ dq +:+ "awk -v" +:+ dq +:+ " ").

Definition get_slurm_pid_hierarchy (job_id : string) : M string :=
  safe_subprocess_run (hierarchy_cmd job_id).

Definition user_cmd (pid : Z) : Cmd :=
  Argv (PyStr.split_ws ("ps -o user= -p " +:+ PyStr.of_int pid)).

(** [get_process_user]: the owner's name, or [None] on any failure. *)
Definition get_process_user (pid : Z) : M (option string) :=
  r <- exec_cmd (user_cmd pid) ;;
  ret match r with
      | Exited code out _ =>
          if code =? 0 then Some (PyStr.strip out) else None
      | NotStarted => None
      end.

(** *** Collectors *)

Definition lines_of (out : string) : list string :=
  PyStr.split nl (PyStr.strip out).

Definition inspect_container (cid : string) : M Container.t :=
  inspect <- safe_subprocess_run (Argv ["docker"; "inspect"; cid]) ;;
  lift (rbind (of_option JSONDecodeError (json_loads inspect)) (λ decoded,
        rbind (PyVal.index0 decoded) container_record)).

Fixpoint collect_containers (container_ids : list string)
    (containers : dict Container.t) : M (dict Container.t) :=
  match container_ids with
  | [] => ret containers
  | cid :: rest =>
      if PyStr.truthy cid then
        containers' <-
          try_except
            (c <- inspect_container cid ;; ret (dict_set cid c containers))
            (λ e, print ("Error inspecting container " +:+ cid +:+ ": "
                         +:+ str_exc e) ;;
                  ret containers) ;;
        collect_containers rest containers'
      else collect_containers rest containers
  end.

(** [get_container_info].  Nothing outside the per-container handler can
    raise, so the outer handler of the source is never entered. *)
Definition get_container_info : M (dict Container.t) :=
  out <- safe_subprocess_run
           (Argv ["docker"; "container"; "ls"; "--format"; "{{.ID}}"]) ;;
  collect_containers (lines_of out) [].

Definition scontrol_cmd (job_id : string) : Cmd :=
  Shell ("scontrol show job " +:+ job_id +:+ " -dd").

(** The body of the per-job [try]. *)
Definition read_job (job : string) (slurm_jobs : dict Job.t)
  : M (dict Job.t) :=
  match PyStr.split_ws job with
  | [job_id; user; job_name; state; node_list] =>
      scontrol_out <- safe_subprocess_run (scontrol_cmd job_id) ;;
      gpu_indices <- lift (parse_gpu_indices scontrol_out) ;;
      workdir <- lift (parse_workdir scontrol_out) ;;
      runtime <- lift (parse_runtime scontrol_out) ;;
      ret (dict_set job_id
             (Job.Make user job_name state node_list gpu_indices workdir
                runtime)
             slurm_jobs)
  | _ => raise ValueError
  end.

Definition process_job (job : string) (slurm_jobs : dict Job.t)
  : M (dict Job.t) :=
  try_except (read_job job slurm_jobs)
    (λ e, print ("Error processing job " +:+ job +:+ ": " +:+ str_exc e) ;;
          ret slurm_jobs).

Fixpoint collect_jobs (jobs : list string) (slurm_jobs : dict Job.t)
  : M (dict Job.t) :=
  match jobs with
  | [] => ret slurm_jobs
  | job :: rest =>
      slurm_jobs' <- process_job job slurm_jobs ;;
      collect_jobs rest slurm_jobs'
  end.

Definition squeue_cmd : Cmd := Shell "squeue -h -o '%i %u %j %T %R'".

(** [get_slurm_jobs].  The outer handler of the source is never entered:
    each job is read under its own handler. *)
Definition get_slurm_jobs : M (dict Job.t) :=
  out <- safe_subprocess_run squeue_cmd ;;
  collect_jobs (lines_of out) [].

(** The loop of [get_gpu_processes]; the function-wide handler reports
    the first failing line and returns what was gathered before it. *)
Fixpoint collect_gpu_lines (gpu_info lines : list string)
    (gpu_processes : gmap Z (list (Z * string)))
  : M (gmap Z (list (Z * string))) :=
  match lines with
  | [] => ret gpu_processes
  | line :: rest =>
      match add_gpu_line gpu_info line gpu_processes with
      | (gpu_processes', Ok _) =>
          collect_gpu_lines gpu_info rest gpu_processes'
      | (gpu_processes', Raise e) =>
          print ("Error getting GPU process information: " +:+ str_exc e) ;;
          ret gpu_processes'
      end
  end.

Definition smi_apps_cmd : Cmd :=
  Argv ["nvidia-smi"; "--query-compute-apps=gpu_uuid,pid,used_memory";
        "--format=csv,noheader,nounits"].

Definition smi_list_cmd : Cmd := Argv ["nvidia-smi"; "-L"].

Definition get_gpu_processes : M (gmap Z (list (Z * string))) :=
  smi_output <- safe_subprocess_run smi_apps_cmd ;;
  gpu_info <- safe_subprocess_run smi_list_cmd ;;
  collect_gpu_lines (lines_of gpu_info) (lines_of smi_output) ∅.

(** *** Reclamation *)

Definition kill_cmd (pid : Z) : Cmd := Argv ["sudo"; "kill"; PyStr.of_int pid].

Definition force_kill_cmd (pid : Z) : Cmd :=
  Argv ["sudo"; "kill"; "-9"; PyStr.of_int pid].

(** The record prepared before any signal is sent. *)
Definition kill_record (current_time : string) (pid : Z)
    (process_info : ProcessInfo.t) : string :=
  let memory := ProcessInfo.memory process_info in
  nl +:+ "Process killed at " +:+ current_time +:+ ":" +:+ nl
  +:+ "PID " +:+ PyStr.of_int pid +:+ " (Live GPU Memory: " +:+ memory
  +:+ " MiB):" +:+ nl
  +:+ "  - Execution Type: " +:+ ProcessInfo.type process_info +:+ nl
  +:+ "  - Resource Management: Non-SLURM" +:+ nl
  +:+ "  - Live GPU Memory Usage: " +:+ memory +:+ " MiB"
  +:+ (if String.eqb (ProcessInfo.type process_info) "Container" then
         nl +:+ "  - Container Name: "
         +:+ py_str (ProcessInfo.container_name process_info) +:+ nl
         +:+ "  - Container User: "
         +:+ py_str (ProcessInfo.user process_info) +:+ nl
         +:+ "  - Mount Source: "
         +:+ py_str (ProcessInfo.mount_source process_info) +:+ nl
         +:+ "  - Container Binds: "
         +:+ py_str (ProcessInfo.container_binds process_info)
       else
         nl +:+ "  - User: " +:+ py_str (ProcessInfo.user process_info))
  +:+ nl +:+ "  - Command: " +:+ ProcessInfo.command process_info +:+ nl
  +:+ "Killed PID " +:+ PyStr.of_int pid
  +:+ " successfully (Non-SLURM process)" +:+ nl
  +:+ repeat_str "-" 40 +:+ nl.

Definition force_marker : string := "Force kill was required" +:+ nl.

(** What is appended to the log when no signal failed. *)
Definition log_message (current_time : string) (pid : Z)
    (process_info : ProcessInfo.t) (forced : bool) : string :=
  kill_record current_time pid process_info
  +:+ (if forced then force_marker else "").

Definition error_msg (pid : Z) (e : PyExc) : string :=
  "Error killing PID " +:+ PyStr.of_int pid +:+ ": " +:+ str_exc e +:+ nl.

Definition kill_non_slurm_process (pid : Z) (process_info : ProcessInfo.t)
  : M unit :=
  try_except
    (current_time <- datetime_now ;;
     run_checked (kill_cmd pid) ;;
     time_sleep 5 ;;
     alive <- psutil_pid_exists pid ;;
     forced <- (if alive : bool
                then run_checked (force_kill_cmd pid) ;; ret true
                else ret false) ;;
     log_append (log_message current_time pid process_info forced) ;;
     print ("Successfully terminated PID " +:+ PyStr.of_int pid
            +:+ " - See gpu_kills.log for details"))
    (λ e, print (error_msg pid e) ;; log_append (error_msg pid e)).

(** *** Attribution *)

Definition top_cmd (cid : string) : Cmd := Argv ["docker"; "top"; cid].

(** The search for the container of a process: the first container, in
    the order of the table, whose process listing holds [str(pid)].  The
    test cannot raise, so the handler around it is never entered. *)
Fixpoint find_container (pid : Z) (containers : dict Container.t)
  : M (option Container.t) :=
  match containers with
  | [] => ret None
  | (cid, info) :: rest =>
      top <- safe_subprocess_run (top_cmd cid) ;;
      if PyStr.contains (PyStr.of_int pid) top then ret (Some info)
      else find_container pid rest
  end.

(** [v == s] for a string [s]. *)
Definition eq_str (v : pyval) (s : string) : bool :=
  match v with
  | PStr s' => String.eqb s' s
  | _ => false
  end.

Definition opt_eq_str (o : option string) (s : string) : bool :=
  match o with
  | Some s' => String.eqb s' s
  | None => false
  end.

(** The identity test applied once the process tree test has passed. *)
Definition user_matches (pid : Z) (container_info : option Container.t)
    (job_info : Job.t) : M bool :=
  match container_info with
  | Some c => ret (eq_str (Container.user c) (Job.user job_info))
  | None =>
      u <- get_process_user pid ;;
      ret (opt_eq_str u (Job.user job_info))
  end.

Fixpoint find_job (pid : Z) (container_info : option Container.t)
    (jobs : dict Job.t) : M (option string) :=
  match jobs with
  | [] => ret None
  | (job_id, job_info) :: rest =>
      belongs <- check_pid_belongs_to_slurm_job pid job_id ;;
      if belongs : bool then
        same <- user_matches pid container_info job_info ;;
        if same : bool then ret (Some job_id)
        else find_job pid container_info rest
      else find_job pid container_info rest
  end.

Definition gpu_specific_jobs (gpu_id : Z) (slurm_info : dict Job.t)
  : dict Job.t :=
  filter (λ p, gpu_id ∈ Job.gpu_indices p.2) slurm_info.

Definition slurm_status (slurm_job_id : option string) : string :=
  match slurm_job_id with
  | Some job_id =>
      if PyStr.truthy job_id then "SLURM & belongs to Jobid " +:+ job_id
      else "Non-SLURM"
  | None => "Non-SLURM"
  end.

Definition process_type (container_info : option Container.t) : string :=
  match container_info with
  | Some _ => "Container"
  | None => "Bare Metal"
  end.

Definition opt_val (o : option string) : pyval :=
  match o with
  | Some s => PStr s
  | None => PNone
  end.

Definition cmd_of (pid : Z) : Cmd :=
  Argv ["ps"; "-p"; PyStr.of_int pid; "-o"; "cmd="].

(** The argument built for [kill_non_slurm_process]; joining the binds
    can raise. *)
Definition process_info (pid : Z) (memory : string)
    (container_info : option Container.t) (cmd : string)
  : M ProcessInfo.t :=
  match container_info with
  | None =>
      u <- get_process_user pid ;;
      ret (ProcessInfo.Make memory (process_type container_info)
             (opt_val u) cmd PNone PNone PNone)
  | Some c =>
      container_binds <-
        (if PyVal.truthy (Container.binds c)
         then lift (rbind (PyVal.join ", " (Container.binds c))
                      (λ s, Ok (PStr s)))
         else ret PNone) ;;
      ret (ProcessInfo.Make memory (process_type container_info)
             (Container.user c) cmd (Container.name c)
             (Container.source c) container_binds)
  end.

(** The verdict on one process: its container, if any, and the job it is
    attributed to, if any. *)
Definition classify (pid : Z) (containers : dict Container.t)
    (jobs : dict Job.t) : M (option Container.t * option string) :=
  container_info <- find_container pid containers ;;
  slurm_job_id <- find_job pid container_info jobs ;;
  ret (container_info, slurm_job_id).

Definition print_owner (pid : Z) (container_info : option Container.t)
  : M unit :=
  match container_info with
  | Some c =>
      print ("  - Container Name: " +:+ py_str (Container.name c)) ;;
      print ("  - Container User: " +:+ py_str (Container.user c)) ;;
      print ("  - Mount Source: " +:+ py_str (Container.source c)) ;;
      if PyVal.truthy (Container.binds c) then
        joined <- lift (PyVal.join ", " (Container.binds c)) ;;
        print ("  - Container Binds: " +:+ joined)
      else ret tt
  | None =>
      u <- get_process_user pid ;;
      print ("  - User: " +:+ py_str (opt_val u))
  end.

Definition print_command (cmd : string) : M unit :=
  if PyStr.truthy cmd then print ("  - Command: " +:+ cmd)
  else print "  - Command: Unknown".

(** The body of the per-process [try] of [analyze_gpu_usage]; [jobs] are
    the jobs scheduled on the device of the process. *)
Definition examine_process (pid : Z) (memory : string)
    (containers : dict Container.t) (jobs : dict Job.t) : M unit :=
  verdict <- classify pid containers jobs ;;
  let container_info := verdict.1 in
  let status := slurm_status verdict.2 in
  cmd <- safe_subprocess_run (cmd_of pid) ;;
  (if String.eqb status "Non-SLURM" then
     info <- process_info pid memory container_info (PyStr.strip cmd) ;;
     kill_non_slurm_process pid info
   else ret tt) ;;
  print ("PID " +:+ PyStr.of_int pid +:+ " (Live GPU Memory: " +:+ memory
         +:+ " MiB):") ;;
  print ("  - Execution Type: " +:+ process_type container_info) ;;
  print ("  - Resource Management: " +:+ status) ;;
  print ("  - Live GPU Memory Usage: " +:+ memory +:+ " MiB") ;;
  print_owner pid container_info ;;
  cmd' <- safe_subprocess_run (cmd_of pid) ;;
  print_command (PyStr.strip cmd') ;;
  print "".

Definition report_process (containers : dict Container.t)
    (jobs : dict Job.t) (entry : Z * string) : M unit :=
  try_except (examine_process entry.1 entry.2 containers jobs)
    (λ e, print ("Error processing PID " +:+ PyStr.of_int entry.1 +:+ ": "
                 +:+ str_exc e)).

Definition print_job (item : string * Job.t) : M unit :=
  print (nl +:+ "SLURM Job ID: " +:+ item.1) ;;
  print ("  - User: " +:+ Job.user item.2) ;;
  print ("  - Job Name: " +:+ Job.job_name item.2) ;;
  print ("  - State: " +:+ Job.state item.2) ;;
  print ("  - Node List: " +:+ Job.node_list item.2) ;;
  print ("  - Working Directory: " +:+ Job.workdir item.2) ;;
  print ("  - Running Time: " +:+ Job.runtime item.2) ;;
  print "  - Slurm PID Hierarchy:" ;;
  hierarchy <- get_slurm_pid_hierarchy item.1 ;;
  for_each (PyStr.splitlines hierarchy) (λ line, print ("    " +:+ line)).

(** One round of the loop over device indices. *)
Definition report_gpu (slurm_info : dict Job.t)
    (containers : dict Container.t)
    (gpu_processes : gmap Z (list (Z * string))) (gpu_id : Z) : M unit :=
  print (nl +:+ "GPU " +:+ PyStr.of_int gpu_id +:+ ":") ;;
  print (repeat_str "-" 40) ;;
  let jobs := gpu_specific_jobs gpu_id slurm_info in
  match gpu_processes !! gpu_id with
  | Some entries => for_each entries (report_process containers jobs)
  | None => ret tt
  end ;;
  for_each jobs print_job.

Definition analyze_body : M unit :=
  print (nl +:+ "Collecting system information...") ;;
  slurm_info <- get_slurm_jobs ;;
  containers <- get_container_info ;;
  gpu_processes <- get_gpu_processes ;;
  print (nl +:+ "GPU Usage Analysis:") ;;
  print (repeat_str "=" 80) ;;
  listing <- safe_subprocess_run smi_list_cmd ;;
  let total_gpus := Z.of_nat (length (lines_of listing)) in
  for_each (seqZ 0 total_gpus)
    (report_gpu slurm_info containers gpu_processes).

(** The function-wide handler of [analyze_gpu_usage]. *)
Definition guarded (body : M unit) : M unit :=
  try_except body
    (λ e, print ("Fatal error in analyze_gpu_usage: " +:+ str_exc e) ;;
          print_exc e).

Definition analyze_gpu_usage : M unit := guarded analyze_body.

(** The script's entry point around a function [f]: the result is the
    exit status of the interpreter, 1 after [sys.exit(1)] in the handler
    and 0 when [f] returns. *)
Definition run_script (f : M unit) : M Z :=
  try_except (f ;; ret 0)
    (λ e, print ("Script execution failed: " +:+ str_exc e) ;;
          print_exc e ;;
          ret 1).

Definition main : M Z := run_script analyze_gpu_usage.

End Script.

(** ** A scripted platform

    Commands are answered from a fixed table, which indexes the type of
    machine states; a state is the set of live pids and the set of those
    that ignore the graceful signal, whether the log file can be written
    and whether [sudo] is granted.  It serves to run the script on
    concrete machines. *)

Module Sim.

Record world (table : list (Cmd * ProcResult)) : Type := Build {
  alive : list Z;
  stubborn : list Z;
  writable : bool;
  privileged : bool;
}.
Arguments alive {table} w.
Arguments stubborn {table} w.
Arguments writable {table} w.
Arguments privileged {table} w.

(** A machine with a writable log and [sudo] granted. *)
Definition MkWorld (table : list (Cmd * ProcResult)) (alive stubborn : list Z)
  : world table :=
  Build table alive stubborn true true.

(** The same machine with a log file that cannot be written, and with
    [sudo] refused. *)
Definition readonly {table} (w : world table) : world table :=
  Build table (alive w) (stubborn w) false (privileged w).

Definition unprivileged {table} (w : world table) : world table :=
  Build table (alive w) (stubborn w) (writable w) false.

Definition cmd_eqb (c1 c2 : Cmd) : bool :=
  match c1, c2 with
  | Shell l1, Shell l2 => String.eqb l1 l2
  | Argv a1, Argv a2 => bool_decide (a1 = a2)
  | _, _ => false
  end.

Fixpoint answer (table : list (Cmd * ProcResult)) (c : Cmd) : ProcResult :=
  match table with
  | [] => NotStarted
  | (c', r) :: rest => if cmd_eqb c' c then r else answer rest c
  end.

(** What [safe_subprocess_run] makes of the table's answer. *)
Definition stdout (table : list (Cmd * ProcResult)) (c : Cmd) : string :=
  match answer table c with
  | Exited code out _ => if code =? 0 then out else ""
  | NotStarted => ""
  end.

Definition remove (pid : Z) (l : list Z) : list Z :=
  filter (λ p, p ≠ pid) l.

Definition no_such_process : ProcResult := Exited 1 "" "No such process".

Definition not_permitted : ProcResult :=
  Exited 1 "" "a password is required".

Section Machine.
Context {table : list (Cmd * ProcResult)}.

(** [kill pid]: delivered to a live process, which exits unless it
    ignores the signal. *)
Definition graceful (pid : Z) (w : world table)
  : ProcResult * world table :=
  if bool_decide (pid ∈ alive w) then
    (Exited 0 "" "",
     if bool_decide (pid ∈ stubborn w) then w
     else Build table (remove pid (alive w)) (stubborn w) (writable w)
            (privileged w))
  else (no_such_process, w).

(** [kill -9 pid]. *)
Definition forced (pid : Z) (w : world table)
  : ProcResult * world table :=
  if bool_decide (pid ∈ alive w) then
    (Exited 0 "" "",
     Build table (remove pid (alive w)) (stubborn w) (writable w)
       (privileged w))
  else (no_such_process, w).

Definition run (c : Cmd) (w : world table) : ProcResult * world table :=
  match c with
  | Argv ["sudo"; "kill"; p] =>
      if privileged w then
        match PyStr.to_int p with
        | Some pid => graceful pid w
        | None => (Exited 1 "" "bad pid", w)
        end
      else (not_permitted, w)
  | Argv ["sudo"; "kill"; "-9"; p] =>
      if privileged w then
        match PyStr.to_int p with
        | Some pid => forced pid w
        | None => (Exited 1 "" "bad pid", w)
        end
      else (not_permitted, w)
  | _ => (answer table c, w)
  end.

End Machine.

(** The decoded form of the [docker inspect] texts used below. *)
Definition inspected (owner_path : string) : pyval :=
  PList [PDict [("Name", PStr "/c1");
                ("Mounts", PList [PDict [("Source", PStr owner_path)]]);
                ("HostConfig", PDict [("Binds", PNone)])]].

Definition loads (text : string) : option pyval :=
  if String.eqb text "carol.json" then Some (inspected "/home/carol/proj")
  else if String.eqb text "dave.json" then Some (inspected "/home/dave/proj")
  else if String.eqb text "bare.json" then
    Some (PList [PDict [("Name", PStr "/c0"); ("Mounts", PList []);
                        ("HostConfig", PDict [])]])
  else None.

Definition exc_name (e : PyExc) : string :=
  match e with
  | ValueError => "ValueError"
  | KeyError k => "KeyError: " +:+ k
  | IndexError => "IndexError"
  | TypeError => "TypeError"
  | AttributeError => "AttributeError"
  | JSONDecodeError => "JSONDecodeError"
  | CalledProcessError _ code =>
      "non-zero exit status " +:+ PyStr.of_int code
  | SpawnError _ => "No such file or directory"
  | OSError => "[Errno 13] Permission denied: 'gpu_kills.log'"
  end.

#[global] Instance platform table : Platform (world table) := {|
  os_run := run;
  os_pid_exists pid w := (bool_decide (pid ∈ alive w), w);
  os_sleep _ w := w;
  os_now w := ("2024-01-01 00:00:00", w);
  os_log_append _ w := (writable w, w);
  json_loads := loads;
  str_exc := exc_name;
  repr_val _ := "<value>";
  repr_argv args := PyStr.join " " args;
|}.

Definition ok (out : string) : ProcResult := Exited 0 out "".

End Sim.

(** ** Vocabulary of the specification *)

Inductive Classification : Type :=
| SCHEDULER_OWNED
| CONTAINER_SCHEDULER_OWNED
| ORPHAN.

(** The verdict the report shows: the status line tells whether a job owns
    the process, the execution type tells whether it runs in a container. *)
Definition classification (verdict : option Container.t * option string)
  : Classification :=
  if String.eqb (slurm_status verdict.2) "Non-SLURM" then ORPHAN
  else match verdict.1 with
       | Some _ => CONTAINER_SCHEDULER_OWNED
       | None => SCHEDULER_OWNED
       end.

(** A termination signal: any [sudo kill] command. *)
Definition is_signal (ev : Event) : bool :=
  match ev with
  | EvExec (Argv ("sudo" :: "kill" :: _)) _ => true
  | _ => false
  end.

(** The signals a pid can receive from the script. *)
Definition signals (pid : Z) (ev : Event) : Prop :=
  ∃ r, ev = EvExec (kill_cmd pid) r ∨ ev = EvExec (force_kill_cmd pid) r.

(** The child exited with status zero. *)
Definition succeeded (r : ProcResult) : bool :=
  match r with
  | Exited code _ _ => code =? 0
  | NotStarted => false
  end.

(** What [check=True] raises for a child that did not succeed. *)
Definition failure (c : Cmd) (r : ProcResult) : PyExc :=
  match r with
  | Exited code _ _ => CalledProcessError c code
  | NotStarted => SpawnError c
  end.

Definition success_line (pid : Z) : string :=
  "Successfully terminated PID " +:+ PyStr.of_int pid
  +:+ " - See gpu_kills.log for details".

Section Protocol.
Context {World : Type} `{!Platform World}.

(** What appending [text] leaves in the trace on machine state [w]: the
    entry, or nothing when the log cannot be written. *)
Definition appended (text : string) (w : World) : list Event :=
  if (os_log_append text w).1 then [EvLogAppend text] else [].

(** The end of an attempt that met failure [e] in state [w]: the error is
    printed, then entered in the log. *)
Definition error_trail (pid : Z) (e : PyExc) (w : World) : list Event :=
  EvPrint (error_msg pid e) :: appended (error_msg pid e) w.

(** The end of an attempt whose signals were all delivered, reached in
    state [w]: the record of the kill is entered in the log and the
    success is printed; when the record cannot be entered, that failure
    is the error the attempt ends with. *)
Definition record_trail (stamp : string) (pid : Z) (info : ProcessInfo.t)
    (forced : bool) (w : World) : list Event :=
  if (os_log_append (log_message stamp pid info forced) w).1
  then [EvLogAppend (log_message stamp pid info forced);
        EvPrint (success_line pid)]
  else error_trail pid OSError
         (os_log_append (log_message stamp pid info forced) w).2.

(** The shapes the outcome of an attempt can have: its result and its
    trace. *)
Inductive error_end (pid : Z) (e : PyExc) : Res unit → list Event → Prop :=
| error_logged :
    error_end pid e (Ok tt)
      [EvPrint (error_msg pid e); EvLogAppend (error_msg pid e)]
| error_unlogged :
    error_end pid e (Raise OSError) [EvPrint (error_msg pid e)].

Inductive record_end (stamp : string) (pid : Z) (info : ProcessInfo.t)
    (forced : bool) : Res unit → list Event → Prop :=
| kill_logged :
    record_end stamp pid info forced (Ok tt)
      [EvLogAppend (log_message stamp pid info forced);
       EvPrint (success_line pid)]
| kill_unlogged r evs :
    error_end pid OSError r evs → record_end stamp pid info forced r evs.

Inductive attempt (pid : Z) (info : ProcessInfo.t)
  : Res unit → list Event → Prop :=
| graceful_failed stamp r res evs :
    succeeded r = false →
    error_end pid (failure (kill_cmd pid) r) res evs →
    attempt pid info res (EvNow stamp :: EvExec (kill_cmd pid) r :: evs)
| terminated_graceful stamp r res evs :
    succeeded r = true →
    record_end stamp pid info false res evs →
    attempt pid info res
      (EvNow stamp :: EvExec (kill_cmd pid) r :: EvSleep 5
       :: EvPidExists pid false :: evs)
| terminated_forced stamp r r' res evs :
    succeeded r = true →
    succeeded r' = true →
    record_end stamp pid info true res evs →
    attempt pid info res
      (EvNow stamp :: EvExec (kill_cmd pid) r :: EvSleep 5
       :: EvPidExists pid true :: EvExec (force_kill_cmd pid) r' :: evs)
| force_failed stamp r r' res evs :
    succeeded r = true →
    succeeded r' = false →
    error_end pid (failure (force_kill_cmd pid) r') res evs →
    attempt pid info res
      (EvNow stamp :: EvExec (kill_cmd pid) r :: EvSleep 5
       :: EvPidExists pid true :: EvExec (force_kill_cmd pid) r' :: evs).

End Protocol.

(** A computation that never raises. *)
Definition total {W A} (m : M W A) : Prop := ∀ w, ∃ a, res (m w) = Ok a.

(** Where a record of the container table comes from: the first element of
    the decoded [docker inspect] output of some container. *)
Definition inspected_as {World : Type} `{!Platform World}
    (c : Container.t) (info : pyval) : Prop :=
  (∃ text decoded, json_loads text = Some decoded
                   ∧ PyVal.index0 decoded = Ok info)
  ∧ container_record info = Ok c.

(** A part of an index specification that holds a dash but is not two
    integers around one dash, such as [abc-4]. *)
Definition malformed_range (part : string) : bool :=
  PyStr.contains "-" part &&
  match parse_range part with
  | Ok _ => false
  | Raise _ => true
  end.

Definition has_malformed_range (spec : string) : bool :=
  existsb malformed_range (PyStr.split "," spec).

(** The indices a part of an index specification stands for: those of a
    range, the integer of a part without a dash, and none for a part that
    is neither. *)
Definition part_indices (part : string) : list Z :=
  if PyStr.contains "-" part then
    match parse_range part with
    | Ok r => r
    | Raise _ => []
    end
  else
    match PyStr.to_int part with
    | Some n => [n]
    | None => []
    end.

(** The indices of a specification: those of its parts, in order. *)
Definition spec_indices (spec : string) : list Z :=
  concat (part_indices <$> PyStr.split "," spec).

(** The event of a [docker top] that succeeded with a given listing. *)
Definition top_event (listing : string → string) (c : string * Container.t)
  : Event :=
  EvExec (top_cmd c.1) (Exited 0 (listing c.1) "").

(** The substring test that decides whether a container claims a pid. *)
Definition claims (listing : string → string) (pid : Z)
    (c : string * Container.t) : bool :=
  PyStr.contains (PyStr.of_int pid) (listing c.1).

(** Every event of a computation satisfies [P], whatever the machine. *)
Definition emits {W A} (P : Event → Prop) (m : M W A) : Prop :=
  ∀ w, Forall P (events (m w)).

(** Not a termination signal. *)
Definition quiet (ev : Event) : Prop := is_signal ev = false.

(** The comparison [user_matches] computes, for a process whose owner
    query answers [owner]. *)
Definition identity_ok (container_info : option Container.t)
    (owner : option string) (job_info : Job.t) : bool :=
  match container_info with
  | Some c => eq_str (Container.user c) (Job.user job_info)
  | None => opt_eq_str owner (Job.user job_info)
  end.

(** What the search of [find_job] computes for a candidate: the answer
    of the process tree test, then that comparison. *)
Definition accepted (tree : string → bool)
    (container_info : option Container.t) (owner : option string)
    (item : string * Job.t) : bool :=
  tree item.1 && identity_ok container_info owner item.2.

(** The identity the specification asks for: the owner of the container,
    for a process in a container, and the owner of the process otherwise,
    is the user of the job. *)
Definition identity_matches (container_info : option Container.t)
    (owner : option string) (job_info : Job.t) : Prop :=
  match container_info with
  | Some c => Container.user c = PStr (Job.user job_info)
  | None => owner = Some (Job.user job_info)
  end.

(** A candidate satisfies both conditions of the specification. *)
Definition accepts (tree : string → bool)
    (container_info : option Container.t) (owner : option string)
    (item : string * Job.t) : Prop :=
  tree item.1 = true ∧ identity_matches container_info owner item.2.

(** Keys of a table built by the scheduler collector: distinct and not
    empty. *)
Definition well_keyed {V} (d : dict V) : Prop :=
  NoDup d.*1 ∧ Forall (λ p, PyStr.truthy p.1 = true) d.

(** The process is an orphan when classified on machine state [w]. *)
Definition orphan_at {World : Type} `{!Platform World} (pid : Z)
    (containers : dict Container.t) (jobs : dict Job.t) (w : World) : Prop :=
  ∃ verdict, res (classify pid containers jobs w) = Ok verdict
             ∧ classification verdict = ORPHAN.

(** The signals in a trace, and the lines of the report that name a
    process or give its verdict. *)
Definition signals_sent (evs : list Event) : list Event :=
  List.filter is_signal evs.

Definition verdict_line (ev : Event) : bool :=
  match ev with
  | EvPrint line =>
      String.prefix "PID " line
      || String.prefix "  - Resource Management: " line
  | _ => false
  end.

Definition verdict_lines (evs : list Event) : list Event :=
  List.filter verdict_line evs.

(** The machine state in which the GPU collector starts: the one the
    scheduler and container collectors leave behind. *)
Definition gpu_query_state {World : Type} `{!Platform World} (w : World)
  : World :=
  world (get_container_info (world (get_slurm_jobs w))).

(** The machine state in which the analysis counts the devices: the one
    the three collectors leave behind. *)
Definition counting_state {World : Type} `{!Platform World} (w : World)
  : World :=
  world (get_gpu_processes
           (world (get_container_info (world (get_slurm_jobs w))))).

(** Where an entry of the GPU process table comes from: a line of the
    process query with three fields, whose identifier occurs in the device
    line of index [gpu_id] and in no earlier one. *)
Definition gpu_entry_from (gpu_info lines : list string) (gpu_id : Z)
    (entry : Z * string) : Prop :=
  ∃ line gpu_uuid pid,
    line ∈ lines
    ∧ PyStr.split ", " line = [gpu_uuid; pid; entry.2]
    ∧ PyStr.to_int pid = Some entry.1
    ∧ find_gpu gpu_uuid 0 gpu_info = Some gpu_id.

(** A line of the process query that names device [gpu_id] and whose pid
    is not an integer. *)
Definition gpu_line_unread (gpu_info lines : list string) (gpu_id : Z)
  : Prop :=
  ∃ line gpu_uuid pid memory,
    line ∈ lines
    ∧ PyStr.split ", " line = [gpu_uuid; pid; memory]
    ∧ PyStr.to_int pid = None
    ∧ find_gpu gpu_uuid 0 gpu_info = Some gpu_id.

(** Where an entry of the scheduler table comes from: a line of the queue
    listing with five fields, and the description the scheduler gave of
    the job in some state of the machine. *)
Definition job_entry_from {World : Type} `{!Platform World}
    (lines : list string) (item : string * Job.t) : Prop :=
  ∃ line (w : World) scontrol_out,
    line ∈ lines
    ∧ PyStr.split_ws line
      = [item.1; Job.user item.2; Job.job_name item.2; Job.state item.2;
         Job.node_list item.2]
    ∧ res (safe_subprocess_run (scontrol_cmd item.1) w) = Ok scontrol_out
    ∧ parse_gpu_indices scontrol_out = Ok (Job.gpu_indices item.2)
    ∧ parse_workdir scontrol_out = Ok (Job.workdir item.2)
    ∧ parse_runtime scontrol_out = Ok (Job.runtime item.2).

(** A container whose binds are set but cannot be joined into a line. *)
Definition unjoinable (c : Container.t) : bool :=
  PyVal.truthy (Container.binds c) &&
  match PyVal.join ", " (Container.binds c) with
  | Ok _ => false
  | Raise _ => true
  end.

Definition is_log_entry (ev : Event) : bool :=
  match ev with
  | EvLogAppend _ => true
  | _ => false
  end.

(** The first line of the report on a process, and the line that
    replaces the rest of the report when examining it fails. *)
Definition pid_line (pid : Z) (memory : string) : string :=
  "PID " +:+ PyStr.of_int pid +:+ " (Live GPU Memory: " +:+ memory
  +:+ " MiB):".

Definition pid_error_line {World : Type} `{!Platform World} (pid : Z)
    (e : PyExc) : string :=
  "Error processing PID " +:+ PyStr.of_int pid +:+ ": " +:+ str_exc e.

(** The log can refuse an entry on this platform. *)
Definition log_refused {World : Type} `{!Platform World} : Prop :=
  ∃ text (w : World), (os_log_append text w).1 = false.

(** What a command gave when [safe_subprocess_run] has nothing to return:
    it failed, or it succeeded without printing anything. *)
Definition gave_nothing (r : ProcResult) : Prop :=
  succeeded r = false ∨ ∃ err, r = Exited 0 "" err.

(** ** Concrete machines *)

(** A bare-metal orphan as [analyze_gpu_usage] describes it. *)
Definition orphan_info : ProcessInfo.t :=
  ProcessInfo.Make "300" "Bare Metal" (PStr "bob") "python train.py"
    PNone PNone PNone.

(** A machine on which pid 8000 is gone and pid 6000 runs. *)
Definition gone_world : Sim.world [] := Sim.MkWorld [] [6000] [].

(** Two containers: one mounted from carol's home, one without mounts. *)
Definition docker_table : list (Cmd * ProcResult) :=
  [(Argv ["docker"; "container"; "ls"; "--format"; "{{.ID}}"],
    Sim.ok ("c1" +:+ nl +:+ "c0" +:+ nl));
   (Argv ["docker"; "inspect"; "c1"], Sim.ok "carol.json");
   (Argv ["docker"; "inspect"; "c0"], Sim.ok "bare.json")].

Definition docker_world : Sim.world docker_table := Sim.MkWorld _ [] [].

Definition carol_container : Container.t :=
  Container.Make (PStr "/c1") (PStr "/home/carol/proj") (PStr "carol") PNone
    (PStr "/home/carol/proj").

Definition bare_container : Container.t :=
  Container.Make (PStr "/c0") (PStr "") (PStr "unknown") (PList [])
    (PStr "").

(** Two jobs; the index specification of job 1 is [0,abc-4]. *)
Definition malformed_table : list (Cmd * ProcResult) :=
  [(squeue_cmd,
    Sim.ok ("1 alice train RUNNING dgx1" +:+ nl
            +:+ "2 bob fit RUNNING dgx1" +:+ nl));
   (scontrol_cmd "1", Sim.ok "JobId=1 GRES=gpu:2(IDX:0,abc-4) ");
   (scontrol_cmd "2", Sim.ok "JobId=2 GRES=gpu:1(IDX:1) ")].

Definition malformed_world : Sim.world malformed_table :=
  Sim.MkWorld _ [] [].

(** A machine on which no command can be run at all. *)
Definition dead_world : Sim.world [] := Sim.MkWorld [] [] [].

Definition dave_container : Container.t :=
  Container.Make (PStr "/c1") (PStr "/home/dave/proj") (PStr "dave") PNone
    (PStr "/home/dave/proj").

(** Both containers list pid 7000. *)
Definition claim_table : list (Cmd * ProcResult) :=
  [(top_cmd "c1", Sim.ok ("UID PID PPID" +:+ nl +:+ "root 7000 1"));
   (top_cmd "c2", Sim.ok ("UID PID PPID" +:+ nl +:+ "root 7000 1"))].

Definition claim_world : Sim.world claim_table := Sim.MkWorld _ [7000] [].

(** The only container lists pid 5123 alone. *)
Definition digits_table : list (Cmd * ProcResult) :=
  [(top_cmd "c1", Sim.ok ("UID PID PPID" +:+ nl +:+ "root 5123 1"))].

Definition digits_world : Sim.world digits_table := Sim.MkWorld _ [12; 5123] [].

(** Job 123 of alice holds device 0 only; her process 5000 computes on
    devices 0 and 1. *)
Definition two_gpu_table : list (Cmd * ProcResult) :=
  [(squeue_cmd, Sim.ok ("123 alice train RUNNING dgx1" +:+ nl));
   (scontrol_cmd "123", Sim.ok "JobId=123 GRES=gpu:1(IDX:0) ");
   (smi_apps_cmd,
    Sim.ok ("GPU-aaa, 5000, 100" +:+ nl +:+ "GPU-bbb, 5000, 100" +:+ nl));
   (smi_list_cmd,
    Sim.ok ("GPU 0: A100 (UUID: GPU-aaa)" +:+ nl
            +:+ "GPU 1: A100 (UUID: GPU-bbb)" +:+ nl));
   (check_cmd 5000 "123", Sim.ok "PID 5000 belongs to job 123?: TRUE");
   (user_cmd 5000, Sim.ok ("alice" +:+ nl));
   (cmd_of 5000, Sim.ok ("python train.py" +:+ nl))].

Definition two_gpu_world : Sim.world two_gpu_table := Sim.MkWorld _ [5000] [].

Definition job_123 : Job.t := Job.Make "alice" "train" "RUNNING" "dgx1" [0] "" "".

Definition two_gpu_processes : gmap Z (list (Z * string)) :=
  <[1 := [(5000, "100")]]> (<[0 := [(5000, "100")]]> ∅).

(** Two jobs; the index specification of job 1 is [0,abc]. *)
Definition skipped_table : list (Cmd * ProcResult) :=
  [(squeue_cmd,
    Sim.ok ("1 alice train RUNNING dgx1" +:+ nl
            +:+ "2 bob fit RUNNING dgx1" +:+ nl));
   (scontrol_cmd "1", Sim.ok "JobId=1 GRES=gpu:2(IDX:0,abc) ");
   (scontrol_cmd "2", Sim.ok "JobId=2 GRES=gpu:1(IDX:1) ")].

Definition skipped_world : Sim.world skipped_table := Sim.MkWorld _ [] [].

(** The machine of the specification's scenarios: job 123 of alice on
    devices 0 and 1 with her process 5000, job 456 of carol on device 1
    with process 7000 inside carol's container, and process 6000 of bob
    on device 2, which no job holds. *)
Definition scenario_table : list (Cmd * ProcResult) :=
  [(squeue_cmd,
    Sim.ok ("123 alice train RUNNING dgx1" +:+ nl
            +:+ "456 carol fit RUNNING dgx1" +:+ nl));
   (scontrol_cmd "123",
    Sim.ok "JobId=123 RunTime=1-02:03:04 WorkDir=/home/alice/x (IDX:0-1) ");
   (scontrol_cmd "456",
    Sim.ok "JobId=456 RunTime=02:03:04 WorkDir=/home/carol (IDX:1) ");
   (Argv ["docker"; "container"; "ls"; "--format"; "{{.ID}}"],
    Sim.ok ("c1" +:+ nl));
   (Argv ["docker"; "inspect"; "c1"], Sim.ok "carol.json");
   (top_cmd "c1", Sim.ok ("UID PID PPID" +:+ nl +:+ "root 7000 1"));
   (smi_apps_cmd,
    Sim.ok ("GPU-aaa, 5000, 100" +:+ nl +:+ "GPU-bbb, 7000, 200" +:+ nl
            +:+ "GPU-ccc, 6000, 300" +:+ nl));
   (smi_list_cmd,
    Sim.ok ("GPU 0: A100 (UUID: GPU-aaa)" +:+ nl
            +:+ "GPU 1: A100 (UUID: GPU-bbb)" +:+ nl
            +:+ "GPU 2: A100 (UUID: GPU-ccc)" +:+ nl));
   (check_cmd 5000 "123", Sim.ok "PID 5000 belongs to job 123?: TRUE");
   (check_cmd 7000 "123", Sim.ok "PID 7000 belongs to job 123?: FALSE");
   (check_cmd 7000 "456", Sim.ok "PID 7000 belongs to job 456?: TRUE");
   (user_cmd 5000, Sim.ok ("alice" +:+ nl));
   (user_cmd 6000, Sim.ok ("bob" +:+ nl));
   (cmd_of 6000, Sim.ok ("python train.py" +:+ nl))].

Definition scenario_world : Sim.world scenario_table :=
  Sim.MkWorld _ [5000; 6000; 7000] [].

Definition scenario_jobs : dict Job.t :=
  [("123", Job.Make "alice" "train" "RUNNING" "dgx1" [0; 1] "/home/alice/x"
             "1 days, 02 hours, 03 minutes, 04 seconds");
   ("456", Job.Make "carol" "fit" "RUNNING" "dgx1" [1] "/home/carol"
             "02 hours, 03 minutes, 04 seconds")].

(** The scenario machine with a rival: process 7000, in carol's
    container, also passes the process tree test of job 123 of alice,
    which comes first in the scheduler table. *)
Definition rival_table : list (Cmd * ProcResult) :=
  [(squeue_cmd,
    Sim.ok ("123 alice train RUNNING dgx1" +:+ nl
            +:+ "456 carol fit RUNNING dgx1" +:+ nl));
   (scontrol_cmd "123",
    Sim.ok "JobId=123 RunTime=1-02:03:04 WorkDir=/home/alice/x (IDX:0-1) ");
   (scontrol_cmd "456",
    Sim.ok "JobId=456 RunTime=02:03:04 WorkDir=/home/carol (IDX:1) ");
   (top_cmd "c1", Sim.ok ("UID PID PPID" +:+ nl +:+ "root 7000 1"));
   (check_cmd 7000 "123", Sim.ok "PID 7000 belongs to job 123?: TRUE");
   (check_cmd 7000 "456", Sim.ok "PID 7000 belongs to job 456?: TRUE")].

Definition rival_world : Sim.world rival_table := Sim.MkWorld _ [7000] [].

(** What the process tree test of process 7000 answers on that
    machine. *)
Definition rival_tree (job_id : string) : bool :=
  match Sim.answer rival_table (check_cmd 7000 job_id) with
  | Exited code out _ => (code =? 0) && PyStr.contains "TRUE" out
  | NotStarted => false
  end.

(** The listing of two devices. *)
Definition two_devices : list string :=
  ["GPU 0: A100 (UUID: GPU-aaa)"; "GPU 1: A100 (UUID: GPU-bbb)"].

(** A machine whose container c1 is stopped: its processes cannot be
    listed. *)
Definition stopped_table : list (Cmd * ProcResult) :=
  [(top_cmd "c1", Exited 1 "" "Error response from daemon: not running")].

Definition stopped_world : Sim.world stopped_table := Sim.MkWorld _ [7000] [].

(** A machine on which process 5000 passes the process tree test of job
    123 and the owner of no process can be queried. *)
Definition ownerless_table : list (Cmd * ProcResult) :=
  [(check_cmd 5000 "123", Sim.ok "PID 5000 belongs to job 123?: TRUE")].

Definition ownerless_world : Sim.world ownerless_table :=
  Sim.MkWorld _ [5000] [].

(** The table after the line of process 5000 on device 0. *)
Definition one_process : gmap Z (list (Z * string)) :=
  <[0 := [(5000, "100")]]> ∅.

(** A machine whose process query names device 1 with a pid that is not
    an integer. *)
Definition unread_table : list (Cmd * ProcResult) :=
  [(smi_apps_cmd,
    Sim.ok ("GPU-aaa, 5000, 100" +:+ nl +:+ "GPU-bbb, n/a, 7" +:+ nl));
   (smi_list_cmd,
    Sim.ok ("GPU 0: A100 (UUID: GPU-aaa)" +:+ nl
            +:+ "GPU 1: A100 (UUID: GPU-bbb)" +:+ nl))].

Definition unread_world : Sim.world unread_table := Sim.MkWorld _ [5000] [].

(** A machine on which process 6000 runs and [sudo] is refused. *)
Definition refused_world : Sim.world [] :=
  Sim.unprivileged (Sim.MkWorld [] [6000] []).

(** A machine on which process 6000 ignores the graceful signal. *)
Definition stubborn_world : Sim.world [] := Sim.MkWorld [] [6000] [6000].

(** A queue of one job whose name holds a space, and an empty queue. *)
Definition spaced_table : list (Cmd * ProcResult) :=
  [(squeue_cmd, Sim.ok ("7 alice my job RUNNING dgx1" +:+ nl))].

Definition spaced_world : Sim.world spaced_table := Sim.MkWorld _ [] [].

Definition idle_table : list (Cmd * ProcResult) :=
  [(squeue_cmd, Sim.ok "");
   (Argv ["docker"; "container"; "ls"; "--format"; "{{.ID}}"], Sim.ok nl);
   (smi_apps_cmd, Sim.ok "");
   (smi_list_cmd, Sim.ok ("GPU 0: A100 (UUID: GPU-aaa)" +:+ nl))].

Definition idle_world : Sim.world idle_table := Sim.MkWorld _ [] [].

(** A queue of one job that the scheduler cannot describe. *)
Definition undescribed_table : list (Cmd * ProcResult) :=
  [(squeue_cmd, Sim.ok ("9 erin sim RUNNING dgx1" +:+ nl));
   (scontrol_cmd "9", Exited 1 "" "slurm_load_jobs error")].

Definition undescribed_world : Sim.world undescribed_table :=
  Sim.MkWorld _ [] [].

(** A container whose binds decode to a number. *)
Definition odd_container : Container.t :=
  Container.Make (PStr "/c1") (PStr "/home/carol/proj") (PStr "carol")
    (PInt 5) (PStr "/home/carol/proj").

(** * Properties *)

(** ** The string primitives on examples *)

Example split_idx : PyStr.split "," "0,abc-4" = ["0"; "abc-4"].
Proof. reflexivity. Qed.

Example split_multi :
  PyStr.split "IDX:" "a(IDX:0-3) b(IDX:5)" = ["a("; "0-3) b("; "5)"].
Proof. reflexivity. Qed.

Example split_path :
  PyStr.split "/" "/home/carol/x" = [""; "home"; "carol"; "x"].
Proof. reflexivity. Qed.

Example split_ws_fields :
  PyStr.split_ws "  12 alice  train RUNNING dgx1 "
  = ["12"; "alice"; "train"; "RUNNING"; "dgx1"].
Proof. reflexivity. Qed.

Example strip_both : PyStr.strip ("  a b" +:+ nl) = "a b".
Proof. reflexivity. Qed.

Example to_int_cases :
  (PyStr.to_int " 42 ", PyStr.to_int "abc", PyStr.to_int "-7",
   PyStr.to_int "1_0", PyStr.to_int "", PyStr.to_int "1__0",
   PyStr.to_int "_1", PyStr.to_int "007")
  = (Some 42, None, Some (-7), Some 10, None, None, None, Some 7).
Proof. reflexivity. Qed.

Example of_int_cases :
  (PyStr.of_int 0, PyStr.of_int 5000, PyStr.of_int (-3)) = ("0", "5000", "-3").
Proof. reflexivity. Qed.

Example contains_cases :
  (PyStr.contains "12" "5123", PyStr.contains "" "", PyStr.contains "ab" "a b")
  = (true, true, false).
Proof. reflexivity. Qed.

Example splitlines_cases :
  (PyStr.splitlines ("a" +:+ nl +:+ nl +:+ "b" +:+ nl), PyStr.splitlines "")
  = (["a"; ""; "b"], []).
Proof. reflexivity. Qed.

Example parse_range_cases :
  (parse_range "2-4", parse_range "abc-4", parse_range "1-2-3",
   parse_range "4-2")
  = (Ok [2; 3; 4], Raise ValueError, Raise ValueError, Ok []).
Proof. reflexivity. Qed.

(** ** Computations *)

Section Laws.
Context {W : Type}.

Lemma res_bind {A B} (m : M W A) (k : A → M W B) w :
  res (bind m k w) =
  match res (m w) with
  | Ok a => res (k a (world (m w)))
  | Raise e => Raise e
  end.
Proof.
  unfold bind. destruct (m w) as [[a|e] w1 evs1]; [|done].
  cbn [res world]. by destruct (k a w1).
Qed.

Lemma events_bind {A B} (m : M W A) (k : A → M W B) w :
  events (bind m k w) =
  events (m w) ++
  match res (m w) with
  | Ok a => events (k a (world (m w)))
  | Raise e => []
  end.
Proof.
  unfold bind. destruct (m w) as [[a|e] w1 evs1]; cbn [res world events].
  - by destruct (k a w1).
  - by rewrite app_nil_r.
Qed.

Lemma world_bind {A B} (m : M W A) (k : A → M W B) w :
  world (bind m k w) =
  match res (m w) with
  | Ok a => world (k a (world (m w)))
  | Raise e => world (m w)
  end.
Proof.
  unfold bind. destruct (m w) as [[a|e] w1 evs1]; [|done].
  cbn [res world]. by destruct (k a w1).
Qed.

Lemma res_try_except {A} (m : M W A) h w :
  res (try_except m h w) =
  match res (m w) with
  | Ok a => Ok a
  | Raise e => res (h e (world (m w)))
  end.
Proof.
  unfold try_except. destruct (m w) as [[a|e] w1 evs1]; [done|].
  cbn [res world]. by destruct (h e w1).
Qed.

Lemma events_try_except {A} (m : M W A) h w :
  events (try_except m h w) =
  events (m w) ++
  match res (m w) with
  | Ok a => []
  | Raise e => events (h e (world (m w)))
  end.
Proof.
  unfold try_except.
  destruct (m w) as [[a|e] w1 evs1]; cbn [res world events].
  - by rewrite app_nil_r.
  - by destruct (h e w1).
Qed.

Lemma world_try_except {A} (m : M W A) h w :
  world (try_except m h w) =
  match res (m w) with
  | Ok a => world (m w)
  | Raise e => world (h e (world (m w)))
  end.
Proof.
  unfold try_except. destruct (m w) as [[a|e] w1 evs1]; [done|].
  cbn [res world]. by destruct (h e w1).
Qed.

Lemma total_ret {A} (a : A) : total (@ret W A a).
Proof. intros w. by exists a. Qed.

Lemma total_emit ev : total (@emit W ev).
Proof. intros w. by exists tt. Qed.

Lemma total_bind {A B} (m : M W A) (k : A → M W B) :
  total m → (∀ a, total (k a)) → total (bind m k).
Proof.
  intros Hm Hk w. rewrite res_bind. destruct (Hm w) as [a ->]. apply Hk.
Qed.

Lemma total_try_except {A} (m : M W A) h :
  (∀ e, total (h e)) → total (try_except m h).
Proof.
  intros Hh w. rewrite res_try_except.
  destruct (res (m w)) as [a|e]; [by exists a | apply Hh].
Qed.

Lemma total_for_each {A} (l : list A) (body : A → M W unit) :
  (∀ x, total (body x)) → total (for_each l body).
Proof.
  intros Hb. induction l as [|x l IH]; simpl.
  - apply total_ret.
  - apply total_bind; [apply Hb | intros _; apply IH].
Qed.

End Laws.

(** ** Strings *)

Lemma str_app_cons c s t : String c s +:+ t = String c (s +:+ t).
Proof. reflexivity. Qed.

Lemma str_app_nil_r s : s +:+ "" = s.
Proof. induction s as [|c s IH]; [done|]. by rewrite str_app_cons, IH. Qed.

Lemma str_length_app s t :
  String.length (s +:+ t) = (String.length s + String.length t)%nat.
Proof.
  induction s as [|c s IH]; [done|]. rewrite str_app_cons. simpl. by rewrite IH.
Qed.

(** Cancellation of a common suffix. *)
Lemma str_app_inj_r s1 s2 t : s1 +:+ t = s2 +:+ t → s1 = s2.
Proof.
  revert s2. induction s1 as [|c s1 IH]; intros [|c2 s2] Heq.
  - done.
  - apply (f_equal String.length) in Heq.
    rewrite !str_length_app in Heq. simpl in Heq. lia.
  - apply (f_equal String.length) in Heq.
    rewrite !str_length_app in Heq. simpl in Heq. lia.
  - rewrite !str_app_cons in Heq. injection Heq as -> Heq.
    f_equal. by apply IH.
Qed.

(** ** Reclamation *)

Section Reclamation.
Context {World : Type} `{!Platform World}.

Ltac run := cbn [res world events app fst snd succeeded failure].

Ltac unfold_kill :=
  unfold kill_non_slurm_process, try_except, bind, datetime_now,
    run_checked, bind, exec_cmd, time_sleep, psutil_pid_exists,
    print, emit, raise, ret.

Lemma log_append_out text (w : World) :
  log_append text w
  = MkOut (if (os_log_append text w).1 then Ok tt else Raise OSError)
      (os_log_append text w).2 (appended text w).
Proof.
  unfold log_append, appended. by destruct (os_log_append text w) as [[|] w'].
Qed.

(** Settles the outcome of every append to the log, one after the
    other. *)
Ltac settle :=
  repeat first
    [ rewrite log_append_out; unfold appended; run
    | match goal with
      | |- context [os_log_append ?t ?w] =>
          destruct (os_log_append t w) as [[|] ?]; cbn [fst snd]; run
      end ].

Ltac ends :=
  first [ apply error_logged | apply error_unlogged | apply kill_logged
        | apply kill_unlogged, error_logged
        | apply kill_unlogged, error_unlogged ].

(** The result and the trace of an attempt have one of the shapes of
    [attempt]. *)
Lemma kill_trace pid info w :
  attempt pid info (res (kill_non_slurm_process pid info w))
    (events (kill_non_slurm_process pid info w)).
Proof.
  unfold_kill.
  destruct (os_now w) as [stamp w1]; run.
  destruct (os_run (kill_cmd pid) w1) as [r w2] eqn:Hr; run.
  destruct r as [code out err|]; run.
  - destruct (code =? 0) eqn:Hc; run.
    + destruct (os_pid_exists pid (os_sleep 5 w2)) as [alive w3]; run.
      destruct alive; run.
      * destruct (os_run (force_kill_cmd pid) w3) as [r' w4]; run.
        destruct r' as [code' out' err'|]; run.
        -- destruct (code' =? 0) eqn:Hc'; run; settle.
           all: first
             [ apply (terminated_forced _ _ _ (Exited code out err)
                        (Exited code' out' err')); [done..|ends]
             | apply (force_failed _ _ _ (Exited code out err)
                        (Exited code' out' err')); [done..|ends] ].
        -- settle;
             (apply (force_failed _ _ _ (Exited code out err) NotStarted);
              [done..|ends]).
      * settle;
          (apply (terminated_graceful _ _ _ (Exited code out err));
           [done|ends]).
    + settle;
        (apply (graceful_failed _ _ _ (Exited code out err)); [done|ends]).
  - settle; (apply (graceful_failed _ _ _ NotStarted); [done|ends]).
Qed.

(** The trace of an attempt, from the answers of the platform. *)
Lemma kill_events pid info w stamp w1 r w2 alive w4 r' w5 :
  os_now w = (stamp, w1) →
  os_run (kill_cmd pid) w1 = (r, w2) →
  os_pid_exists pid (os_sleep 5 w2) = (alive, w4) →
  os_run (force_kill_cmd pid) w4 = (r', w5) →
  events (kill_non_slurm_process pid info w)
  = EvNow stamp :: EvExec (kill_cmd pid) r
    :: (if succeeded r then
          EvSleep 5 :: EvPidExists pid alive
          :: (if alive then
                EvExec (force_kill_cmd pid) r'
                :: (if succeeded r'
                    then record_trail stamp pid info true w5
                    else error_trail pid (failure (force_kill_cmd pid) r')
                           w5)
              else record_trail stamp pid info false w4)
        else error_trail pid (failure (kill_cmd pid) r) w2).
Proof.
  intros Hnow Hkill Halive Hforce.
  unfold_kill. unfold record_trail, error_trail, appended.
  rewrite Hnow; run. rewrite Hkill; run.
  destruct r as [code out err|]; run.
  - destruct (code =? 0) eqn:Hc; run.
    + rewrite Halive; run. destruct alive; run.
      * rewrite Hforce; run. destruct r' as [code' out' err'|]; run.
        -- destruct (code' =? 0) eqn:Hc'; run; by settle.
        -- by settle.
      * by settle.
    + by settle.
  - by settle.
Qed.

(** An attempt raises only when an append to the log failed. *)
Lemma kill_raises pid info w e :
  res (kill_non_slurm_process pid info w) = Raise e →
  e = OSError ∧ ∃ text w', (os_log_append text w').1 = false.
Proof.
  unfold kill_non_slurm_process. rewrite res_try_except.
  match goal with
  | |- match res ?m with _ => _ end = _ → _ =>
      destruct (res m) as [a|e0]; [done|]
  end.
  rewrite res_bind. cbn [print emit res world].
  rewrite log_append_out. cbn [res].
  destruct (os_log_append _ _).1 eqn:Hfail; [done|].
  intros [= <-]. split; [done|]. by eexists _, _.
Qed.

(** C7, as the code has it.  Every attempt to reclaim a process starts
    by sending the graceful signal.  When that signal is delivered, the
    policy sleeps 5 seconds, its only wait, probes the liveness of the
    process in the state the wait leaves, and sends the forced signal
    exactly when the probe finds the process alive.  When a signal cannot
    be delivered the attempt ends there with an error, without any wait
    or probe after it.  When every signal sent was delivered and the log
    can be written, the attempt enters exactly one entry in the log, the
    record of the kill, and the record carries the forced-kill marker
    exactly when the forced signal was sent. *)
Theorem reclamation_protocol pid info w stamp w1 r w2 alive w4 r' w5 :
  os_now w = (stamp, w1) →
  os_run (kill_cmd pid) w1 = (r, w2) →
  os_pid_exists pid (os_sleep 5 w2) = (alive, w4) →
  os_run (force_kill_cmd pid) w4 = (r', w5) →
  events (kill_non_slurm_process pid info w)
  = EvNow stamp :: EvExec (kill_cmd pid) r
    :: (if succeeded r then
          EvSleep 5 :: EvPidExists pid alive
          :: (if alive then
                EvExec (force_kill_cmd pid) r'
                :: (if succeeded r'
                    then record_trail stamp pid info true w5
                    else error_trail pid (failure (force_kill_cmd pid) r')
                           w5)
              else record_trail stamp pid info false w4)
        else error_trail pid (failure (kill_cmd pid) r) w2)
  ∧ (succeeded r = true →
     (alive = true → succeeded r' = true) →
     (os_log_append (log_message stamp pid info alive)
        (if alive then w5 else w4)).1 = true →
     List.filter is_log_entry (events (kill_non_slurm_process pid info w))
     = [EvLogAppend (kill_record stamp pid info
                     +:+ (if alive then force_marker else ""))]).
Proof.
  intros Hnow Hkill Halive Hforce.
  pose proof (kill_events pid info w _ _ _ _ _ _ _ _ Hnow Hkill Halive Hforce)
    as Hev.
  split; [done|].
  intros Hr Hr' Hlog. rewrite Hev, Hr. unfold record_trail.
  destruct alive.
  - rewrite (Hr' eq_refl), Hlog. reflexivity.
  - rewrite Hlog. reflexivity.
Qed.

(** C1, as the code has it.  When the graceful signal cannot be delivered
    (the process has already exited, so [kill] does not succeed), the
    failure is printed and entered in the log as an error; no record of
    a kill is written and nothing else is sent.  The entry is missing
    only when the log cannot be written. *)
Theorem exited_process_is_error pid info w r :
  (os_run (kill_cmd pid) (os_now w).2).1 = r →
  succeeded r = false →
  events (kill_non_slurm_process pid info w)
  = [EvNow (os_now w).1; EvExec (kill_cmd pid) r;
     EvPrint (error_msg pid (failure (kill_cmd pid) r))]
    ++ appended (error_msg pid (failure (kill_cmd pid) r))
         (os_run (kill_cmd pid) (os_now w).2).2
  ∧ ((os_log_append (error_msg pid (failure (kill_cmd pid) r))
        (os_run (kill_cmd pid) (os_now w).2).2).1 = true →
     events (kill_non_slurm_process pid info w)
     = [EvNow (os_now w).1; EvExec (kill_cmd pid) r;
        EvPrint (error_msg pid (failure (kill_cmd pid) r));
        EvLogAppend (error_msg pid (failure (kill_cmd pid) r))]).
Proof.
  intros Hr Hfail.
  assert (Hev : events (kill_non_slurm_process pid info w)
    = [EvNow (os_now w).1; EvExec (kill_cmd pid) r;
       EvPrint (error_msg pid (failure (kill_cmd pid) r))]
      ++ appended (error_msg pid (failure (kill_cmd pid) r))
           (os_run (kill_cmd pid) (os_now w).2).2).
  { destruct (os_now w) as [stamp w1] eqn:Hnow. cbn [fst snd] in *.
    destruct (os_run (kill_cmd pid) w1) as [r0 w2] eqn:Hkill.
    cbn [fst snd] in *. subst r0.
    destruct (os_pid_exists pid (os_sleep 5 w2)) as [alive w4] eqn:Halive.
    destruct (os_run (force_kill_cmd pid) w4) as [r' w5] eqn:Hforce.
    rewrite (kill_events pid info w _ _ _ _ _ _ _ _ Hnow Hkill Halive Hforce).
    by rewrite Hfail. }
  split; [done|].
  intros Hlog. rewrite Hev. unfold appended. by rewrite Hlog.
Qed.

End Reclamation.

Lemma reclamation_protocol_witness :
  events (kill_non_slurm_process 6000 orphan_info stubborn_world)
  = [EvNow "2024-01-01 00:00:00";
     EvExec (kill_cmd 6000) (Exited 0 "" "");
     EvSleep 5;
     EvPidExists 6000 true;
     EvExec (force_kill_cmd 6000) (Exited 0 "" "");
     EvLogAppend (kill_record (World := Sim.world [])
                    "2024-01-01 00:00:00" 6000 orphan_info
                  +:+ force_marker);
     EvPrint (success_line 6000)]
  ∧ List.filter is_log_entry
      (events (kill_non_slurm_process 6000 orphan_info stubborn_world))
    = [EvLogAppend (kill_record (World := Sim.world [])
                      "2024-01-01 00:00:00" 6000 orphan_info
                    +:+ force_marker)].
Proof.
  destruct (reclamation_protocol 6000 orphan_info stubborn_world
              "2024-01-01 00:00:00" stubborn_world (Exited 0 "" "")
              stubborn_world true stubborn_world (Exited 0 "" "")
              (Sim.MkWorld [] [] [6000])) as [Hrun Hrecord];
    [reflexivity..|].
  split.
  - rewrite Hrun. vm_compute. reflexivity.
  - rewrite Hrecord by reflexivity. reflexivity.
Defined.

(** C7 fails as stated: process 6000 is alive, but [sudo] is refused and
    the graceful signal is not delivered; the attempt ends with an error
    entry, without the wait and without the liveness probe.  And on a
    machine whose log cannot be written, the process is terminated by
    the forced signal and no record enters the log. *)
Lemma undelivered_signal_counterexample :
  events (kill_non_slurm_process 6000 orphan_info refused_world)
  = [EvNow "2024-01-01 00:00:00";
     EvExec (kill_cmd 6000) (Exited 1 "" "a password is required");
     EvPrint ("Error killing PID 6000: non-zero exit status 1" +:+ nl);
     EvLogAppend ("Error killing PID 6000: non-zero exit status 1" +:+ nl)]
  ∧ (EvSleep 5
     ∉ events (kill_non_slurm_process 6000 orphan_info refused_world))
  ∧ (∀ alive,
       EvPidExists 6000 alive
       ∉ events (kill_non_slurm_process 6000 orphan_info refused_world))
  ∧ signals_sent
      (events (kill_non_slurm_process 6000 orphan_info
                 (Sim.readonly stubborn_world)))
    = [EvExec (kill_cmd 6000) (Exited 0 "" "");
       EvExec (force_kill_cmd 6000) (Exited 0 "" "")]
  ∧ List.filter is_log_entry
      (events (kill_non_slurm_process 6000 orphan_info
                 (Sim.readonly stubborn_world))) = [].
Proof.
  assert (Hev : events (kill_non_slurm_process 6000 orphan_info refused_world)
    = [EvNow "2024-01-01 00:00:00";
       EvExec (kill_cmd 6000) (Exited 1 "" "a password is required");
       EvPrint ("Error killing PID 6000: non-zero exit status 1" +:+ nl);
       EvLogAppend ("Error killing PID 6000: non-zero exit status 1" +:+ nl)])
    by (vm_compute; reflexivity).
  rewrite Hev. split; [done|]. split; [|split; [|split]].
  - intros Hin. repeat (apply elem_of_cons in Hin as [Hin|Hin]; [done|]).
    by apply elem_of_nil in Hin.
  - intros alive Hin.
    repeat (apply elem_of_cons in Hin as [Hin|Hin]; [done|]).
    by apply elem_of_nil in Hin.
  - vm_compute. reflexivity.
  - vm_compute. reflexivity.
Qed.

Lemma exited_process_is_error_witness :
  events (kill_non_slurm_process 8000 orphan_info gone_world)
  = [EvNow "2024-01-01 00:00:00";
     EvExec (kill_cmd 8000) Sim.no_such_process;
     EvPrint ("Error killing PID 8000: non-zero exit status 1" +:+ nl);
     EvLogAppend ("Error killing PID 8000: non-zero exit status 1" +:+ nl)].
Proof.
  destruct (exited_process_is_error 8000 orphan_info gone_world
              Sim.no_such_process) as [_ Hlogged]; [reflexivity..|].
  rewrite Hlogged by reflexivity.
  vm_compute. reflexivity.
Defined.

(** C1 fails as stated: for pid 8000, already gone, the log receives an
    error entry and no record of a termination. *)
Lemma exited_process_counterexample :
  events (kill_non_slurm_process 8000 orphan_info gone_world)
  = [EvNow "2024-01-01 00:00:00";
     EvExec (Argv ["sudo"; "kill"; "8000"]) (Exited 1 "" "No such process");
     EvPrint ("Error killing PID 8000: non-zero exit status 1" +:+ nl);
     EvLogAppend ("Error killing PID 8000: non-zero exit status 1" +:+ nl)].
Proof. vm_compute. reflexivity. Qed.

(** ** Container records *)

Lemma dict_get_set {V} (k k' : string) (v : V) (d : dict V) :
  dict_get k' (dict_set k v d)
  = if String.eqb k k' then Some v else dict_get k' d.
Proof.
  induction d as [|[k0 v0] d IH]; simpl.
  - done.
  - destruct (String.eqb k0 k) eqn:E0; simpl.
    + apply String.eqb_eq in E0 as ->. by destruct (String.eqb k k').
    + destruct (String.eqb k0 k') eqn:E1.
      * apply String.eqb_eq in E1 as ->.
        by rewrite String.eqb_sym, E0.
      * exact IH.
Qed.

Ltac rbind_inv H :=
  repeat match type of H with
  | rbind ?r _ = Ok _ =>
      let E := fresh "E" in
      destruct r eqn:E; simpl in H; [|discriminate H]
  | (if ?b then _ else _) = Ok _ =>
      let E := fresh "E" in
      destruct b eqn:E; simpl in H
  end.

(** The owner of a record is decided by the first mount alone. *)
Lemma container_record_user info c :
  container_record info = Ok c → owner_user info = Ok (Container.user c).
Proof.
  unfold container_record. intros H. rbind_inv H. by injection H as <-.
Qed.

Lemma owner_user_mounts info u m0 rest :
  owner_user info = Ok u →
  PyVal.getitem "Mounts" info = Ok (PList (m0 :: rest)) →
  ∃ src seg, PyVal.getitem "Source" m0 = Ok (PStr src)
             ∧ PyStr.split "/" src !! 2%nat = Some seg ∧ u = PStr seg.
Proof.
  unfold owner_user, has_mounts, first_source. intros H Hm.
  rewrite Hm in H. simpl in H.
  destruct (PyVal.getitem "Source" m0) as [src|] eqn:Hs; [|done]. simpl in H.
  destruct src as [| | | |s| |]; simpl in H; try done.
  destruct (PyStr.split "/" s !! 2%nat) as [seg|] eqn:Hseg; [|done].
  simpl in H. injection H as <-. by exists s, seg.
Qed.

Lemma owner_user_no_mounts info u :
  owner_user info = Ok u →
  PyVal.getitem "Mounts" info = Ok (PList []) → u = PStr "unknown".
Proof.
  unfold owner_user, has_mounts. intros H Hm. rewrite Hm in H. simpl in H.
  by injection H as <-.
Qed.

Lemma owner_user_is_str info u : owner_user info = Ok u → ∃ s, u = PStr s.
Proof.
  unfold owner_user. intros H.
  destruct (has_mounts info) as [[|]|]; simpl in H; [| |done].
  - destruct (first_source info) as [src|]; [|done]. simpl in H.
    destruct (PyVal.split "/" src) as [parts|]; [|done]. simpl in H.
    destruct (parts !! 2%nat) as [seg|]; [|done]. simpl in H.
    injection H as <-. by eexists.
  - injection H as <-. by eexists.
Qed.

Section Containers.
Context {World : Type} `{!Platform World}.

Lemma inspect_container_record cid w c :
  res (inspect_container cid w) = Ok c → ∃ info, inspected_as c info.
Proof.
  unfold inspect_container. rewrite res_bind.
  destruct (res (safe_subprocess_run _ w)) as [text|]; [|done].
  unfold lift. simpl.
  destruct (json_loads text) as [decoded|] eqn:Hd; [|done]. simpl.
  destruct (PyVal.index0 decoded) as [info|] eqn:Hi; [|done]. simpl.
  intros Hc. exists info. split; [by exists text, decoded | done].
Qed.

Lemma collect_containers_records ids :
  ∀ containers w table,
    (∀ cid c, dict_get cid containers = Some c → ∃ info, inspected_as c info) →
    res (collect_containers ids containers w) = Ok table →
    ∀ cid c, dict_get cid table = Some c → ∃ info, inspected_as c info.
Proof.
  induction ids as [|id ids IH]; intros containers w table Hinv Hres.
  - simpl in Hres. injection Hres as <-. exact Hinv.
  - simpl in Hres. destruct (PyStr.truthy id); [|by eapply IH].
    rewrite res_bind, res_try_except, res_bind in Hres.
    destruct (res (inspect_container id w)) as [c0|e] eqn:Hc0.
    + simpl in Hres. eapply IH; [|exact Hres].
      intros cid c. rewrite dict_get_set.
      destruct (String.eqb id cid).
      * intros [= <-]. by eapply inspect_container_record.
      * apply Hinv.
    + rewrite res_bind in Hres. simpl in Hres. by eapply IH.
Qed.

(** C9.  Every record of the container table was built from the decoded
    inspection of a container, and its owner is the element of index 2
    of the first mount's source path split at slashes (the segment after
    [/home/] in [/home/carol/...]) when the container has a mount, the
    string [unknown] when it has none; it is always a string. *)
Theorem owner_user_rule w table cid c :
  res (get_container_info w) = Ok table →
  dict_get cid table = Some c →
  ∃ info, inspected_as c info
    ∧ (∀ m0 rest, PyVal.getitem "Mounts" info = Ok (PList (m0 :: rest)) →
         ∃ src seg, PyVal.getitem "Source" m0 = Ok (PStr src)
                    ∧ PyStr.split "/" src !! 2%nat = Some seg
                    ∧ Container.user c = PStr seg)
    ∧ (PyVal.getitem "Mounts" info = Ok (PList []) →
         Container.user c = PStr "unknown")
    ∧ ∃ s, Container.user c = PStr s.
Proof.
  intros Hres Hget. unfold get_container_info in Hres.
  rewrite res_bind in Hres.
  destruct (res (safe_subprocess_run _ w)) as [out|]; [|done].
  assert (Hempty : ∀ cid c, dict_get cid [] = Some c →
                             ∃ info, inspected_as c info) by (by intros).
  destruct (collect_containers_records _ _ _ _ Hempty Hres cid c Hget)
    as [info Hinfo].
  exists info. split; [done|].
  destruct Hinfo as [_ Hrec]. apply container_record_user in Hrec.
  repeat split.
  - intros m0 rest Hm. by eapply owner_user_mounts.
  - intros Hm. by eapply owner_user_no_mounts.
  - by eapply owner_user_is_str.
Qed.

End Containers.

Lemma owner_user_rule_witness :
  res (get_container_info docker_world)
  = Ok [("c1", carol_container); ("c0", bare_container)]
  ∧ dict_get "c1" [("c1", carol_container); ("c0", bare_container)]
    = Some carol_container
  ∧ ∃ info, inspected_as (World := Sim.world docker_table)
              carol_container info
      ∧ (∀ m0 rest, PyVal.getitem "Mounts" info = Ok (PList (m0 :: rest)) →
           ∃ src seg, PyVal.getitem "Source" m0 = Ok (PStr src)
                      ∧ PyStr.split "/" src !! 2%nat = Some seg
                      ∧ Container.user carol_container = PStr seg)
      ∧ (PyVal.getitem "Mounts" info = Ok (PList []) →
           Container.user carol_container = PStr "unknown")
      ∧ ∃ s, Container.user carol_container = PStr s.
Proof.
  split; [reflexivity|]. split; [reflexivity|].
  apply (owner_user_rule docker_world
           [("c1", carol_container); ("c0", bare_container)] "c1"
           carol_container); reflexivity.
Defined.

(** ** The scheduler table *)

Lemma parse_range_raise part e : parse_range part = Raise e → e = ValueError.
Proof.
  unfold parse_range.
  destruct (PyStr.to_int <$> PyStr.split "-" part) as [|[a|] [|[b|] [|? ?]]];
    simpl; congruence.
Qed.

(** One malformed range spoils the whole specification. *)
Lemma parse_parts_malformed parts :
  ∀ acc, existsb malformed_range parts = true →
         parse_parts parts acc = Raise ValueError.
Proof.
  induction parts as [|part parts IH]; intros acc H; simpl in *; [done|].
  unfold malformed_range in H at 1.
  destruct (PyStr.contains "-" part); simpl in H.
  - destruct (parse_range part) as [r|e] eqn:Hr; simpl in *.
    + by apply IH.
    + by rewrite (parse_range_raise _ _ Hr).
  - destruct (PyStr.to_int part); by apply IH.
Qed.

Section Scheduler.
Context {World : Type} `{!Platform World}.

(** A job whose index specification holds a malformed range is not
entered in the table: reading it fails, the failure is printed, the
table is left as it was, and the remaining jobs are read from there on. *)
Lemma malformed_range_drops_job w job rest slurm_jobs
    job_id user name state nodes out spec :
  PyStr.split_ws job = [job_id; user; name; state; nodes] →
  res (safe_subprocess_run (scontrol_cmd job_id) w) = Ok out →
  PyStr.contains "IDX:" out = true →
  idx_part out = Ok spec →
  has_malformed_range spec = true →
  res (process_job job slurm_jobs w) = Ok slurm_jobs
  ∧ EvPrint ("Error processing job " +:+ job +:+ ": " +:+ str_exc ValueError)
    ∈ events (process_job job slurm_jobs w)
  ∧ res (collect_jobs (job :: rest) slurm_jobs w)
    = res (collect_jobs rest slurm_jobs
             (world (process_job job slurm_jobs w))).
Proof.
  intros Hjob Hout Hidx Hspec Hbad.
  assert (Hread : res (read_job job slurm_jobs w) = Raise ValueError).
  { unfold read_job. rewrite Hjob, res_bind, Hout, res_bind.
    unfold lift at 1. simpl.
    unfold parse_gpu_indices. rewrite Hidx, Hspec. simpl.
    by rewrite (parse_parts_malformed _ [] Hbad). }
  assert (Hres : res (process_job job slurm_jobs w) = Ok slurm_jobs).
  { unfold process_job. by rewrite res_try_except, Hread, res_bind. }
  split; [done|]. split.
  - unfold process_job. rewrite events_try_except, Hread, events_bind.
    apply elem_of_app. right. simpl. apply list_elem_of_here.
  - simpl. by rewrite res_bind, Hres.
Qed.

End Scheduler.

Lemma parse_parts_skip pre :
  ∀ part post acc,
    PyStr.contains "-" part = false →
    PyStr.to_int part = None →
    parse_parts (pre ++ part :: post) acc = parse_parts (pre ++ post) acc.
Proof.
  induction pre as [|p pre IH]; intros part post acc Hdash Hint; simpl.
  - by rewrite Hdash, Hint.
  - destruct (PyStr.contains "-" p).
    + destruct (parse_range p); simpl; [by apply IH | done].
    + destruct (PyStr.to_int p); by apply IH.
Qed.

Section Collection.
Context {World : Type} `{!Platform World}.

(** A job that is read enters the table under the first field of its
    line. *)
Lemma read_job_entry job d d' w :
  res (read_job job d w) = Ok d' →
  ∃ job_id job_info,
    PyStr.split_ws job !! 0%nat = Some job_id
    ∧ d' = dict_set job_id job_info d.
Proof.
  unfold read_job.
  destruct (PyStr.split_ws job) as [|job_id [|? [|? [|? [|? [|? ?]]]]]];
    try done.
  rewrite res_bind.
  destruct (res (safe_subprocess_run _ w)) as [out|]; [|done].
  rewrite res_bind. unfold lift at 1. cbn [res world].
  destruct (parse_gpu_indices out); [|done].
  rewrite res_bind. unfold lift at 1. cbn [res world].
  destruct (parse_workdir out); [|done].
  rewrite res_bind. unfold lift at 1. cbn [res world].
  destruct (parse_runtime out); [|done].
  intros [= <-]. by eexists _, _.
Qed.

(** Without a malformed range, the parts are read one after the other
    and the parts that are no integers are left out. *)
Lemma parse_parts_indices parts :
  ∀ acc, existsb malformed_range parts = false →
         parse_parts parts acc = Ok (acc ++ concat (part_indices <$> parts)).
Proof.
  induction parts as [|part parts IH]; intros acc H; simpl in *.
  - by rewrite app_nil_r.
  - apply orb_false_iff in H as [Hpart Hparts].
    unfold malformed_range in Hpart. unfold part_indices at 1.
    destruct (PyStr.contains "-" part); simpl in Hpart.
    + destruct (parse_range part) as [r|e]; [|done]. simpl.
      rewrite IH by done. by rewrite app_assoc.
    + destruct (PyStr.to_int part) as [n|].
      * rewrite IH by done. by rewrite app_assoc.
      * by rewrite IH.
Qed.

(** C3, as the code has it.  Take a job whose description holds an index
    specification.  When a part of the specification holds a dash but is
    not two integers around one dash, the job gets no entry: reading it
    fails, the error is printed and the table is left as it was.
    Otherwise, when its working directory and running time can be read,
    the job gets its entry, whose index list holds, in order, the indices
    of the parts that are integers or ranges: a part without a dash that
    is not an integer is skipped.  In both cases the collection is not
    aborted: the entries of the other jobs are as before and the
    remaining jobs are read from there on. *)
Theorem malformed_part_skipped job slurm_jobs (w : World)
    job_id user job_name state node_list scontrol_out spec :
  PyStr.split_ws job = [job_id; user; job_name; state; node_list] →
  res (safe_subprocess_run (scontrol_cmd job_id) w) = Ok scontrol_out →
  PyStr.contains "IDX:" scontrol_out = true →
  idx_part scontrol_out = Ok spec →
  (has_malformed_range spec = true →
     res (process_job job slurm_jobs w) = Ok slurm_jobs
     ∧ EvPrint ("Error processing job " +:+ job +:+ ": "
                +:+ str_exc ValueError)
       ∈ events (process_job job slurm_jobs w))
  ∧ (has_malformed_range spec = false →
     ∀ workdir runtime,
       parse_workdir scontrol_out = Ok workdir →
       parse_runtime scontrol_out = Ok runtime →
       res (process_job job slurm_jobs w)
       = Ok (dict_set job_id
               (Job.Make user job_name state node_list (spec_indices spec)
                  workdir runtime)
               slurm_jobs))
  ∧ (∀ pre part post,
       PyStr.contains "-" part = false →
       PyStr.to_int part = None →
       concat (part_indices <$> pre ++ part :: post)
       = concat (part_indices <$> pre ++ post))
  ∧ ∃ slurm_jobs',
      res (process_job job slurm_jobs w) = Ok slurm_jobs'
      ∧ (∀ other, other ≠ job_id →
                  dict_get other slurm_jobs' = dict_get other slurm_jobs)
      ∧ ∀ rest,
          res (collect_jobs (job :: rest) slurm_jobs w)
          = res (collect_jobs rest slurm_jobs'
                   (world (process_job job slurm_jobs w))).
Proof.
  intros Hjob Hout Hidx Hspec.
  split; [|split; [|split]].
  - intros Hbad.
    destruct (malformed_range_drops_job w job [] slurm_jobs job_id user
                job_name state node_list scontrol_out spec
                Hjob Hout Hidx Hspec Hbad) as (Hres & Hev & _).
    by split.
  - intros Hgood workdir runtime Hw Hr.
    unfold process_job, read_job.
    rewrite res_try_except, Hjob, res_bind, Hout, res_bind.
    unfold lift at 1. cbn [res world].
    unfold parse_gpu_indices. rewrite Hidx, Hspec. cbn [rbind].
    rewrite (parse_parts_indices _ [] Hgood). cbn [app].
    rewrite res_bind. unfold lift at 1. cbn [res world]. rewrite Hw.
    rewrite res_bind. unfold lift at 1. cbn [res world]. by rewrite Hr.
  - intros pre part post Hdash Hint.
    rewrite !fmap_app, !fmap_cons, !concat_app. cbn [concat].
    unfold part_indices at 2. by rewrite Hdash, Hint.
  - assert (Hstep : ∀ d', res (process_job job slurm_jobs w) = Ok d' →
      ∀ rest, res (collect_jobs (job :: rest) slurm_jobs w)
              = res (collect_jobs rest d'
                       (world (process_job job slurm_jobs w)))).
    { intros d' Hd' rest. simpl. by rewrite res_bind, Hd'. }
    destruct (res (read_job job slurm_jobs w)) as [d1|e] eqn:Hread.
    + assert (Hres : res (process_job job slurm_jobs w) = Ok d1).
      { unfold process_job. by rewrite res_try_except, Hread. }
      exists d1. split; [done|]. split; [|by apply Hstep].
      intros other Hother.
      apply read_job_entry in Hread as (job_id' & job_info & Hid & ->).
      rewrite Hjob in Hid. injection Hid as <-.
      rewrite dict_get_set. destruct (String.eqb job_id other) eqn:E; [|done].
      by apply String.eqb_eq in E.
    + assert (Hres : res (process_job job slurm_jobs w) = Ok slurm_jobs).
      { unfold process_job. by rewrite res_try_except, Hread, res_bind. }
      exists slurm_jobs. split; [done|]. split; [done | by apply Hstep].
Qed.

End Collection.

Lemma malformed_part_skipped_witness :
  res (process_job "1 alice train RUNNING dgx1" [] skipped_world)
  = Ok [("1", Job.Make "alice" "train" "RUNNING" "dgx1" [0] "" "")]
  ∧ res (process_job "1 alice train RUNNING dgx1" [] malformed_world)
    = Ok [].
Proof.
  split.
  - destruct (malformed_part_skipped "1 alice train RUNNING dgx1" []
                skipped_world "1" "alice" "train" "RUNNING" "dgx1"
                "JobId=1 GRES=gpu:2(IDX:0,abc) " "0,abc")
      as (_ & Hkept & _); [reflexivity..|].
    apply (Hkept eq_refl "" "" eq_refl eq_refl).
  - destruct (malformed_part_skipped "1 alice train RUNNING dgx1" []
                malformed_world "1" "alice" "train" "RUNNING" "dgx1"
                "JobId=1 GRES=gpu:2(IDX:0,abc-4) " "0,abc-4")
      as (Hdropped & _); [reflexivity..|].
    apply (Hdropped eq_refl).
Defined.

(** C3 fails as stated: with specification [0,abc] job 1 has an entry
    whose indices are [0], not an empty set; with specification [0,abc-4]
    it has no entry at all.  Job 2 is read as usual in both cases. *)
Lemma malformed_spec_counterexample :
  res (get_slurm_jobs skipped_world)
  = Ok [("1", Job.Make "alice" "train" "RUNNING" "dgx1" [0] "" "");
        ("2", Job.Make "bob" "fit" "RUNNING" "dgx1" [1] "" "")]
  ∧ res (get_slurm_jobs malformed_world)
    = Ok [("2", Job.Make "bob" "fit" "RUNNING" "dgx1" [1] "" "")].
Proof. split; vm_compute; reflexivity. Qed.

(** ** Exit status *)

Section Exit.
Context {World : Type} `{!Platform World}.

Lemma guarded_total (body : M World unit) : total (guarded body).
Proof.
  apply total_try_except. intros e.
  apply total_bind; [apply total_emit | intros _; apply total_emit].
Qed.

Lemma run_script_status (f : M World unit) w :
  res (run_script f w)
  = Ok (match res (f w) with Ok _ => 0 | Raise _ => 1 end).
Proof.
  unfold run_script. rewrite res_try_except, res_bind.
  destruct (res (f w)); [done|]. by rewrite !res_bind.
Qed.

(** Whatever its body does, [analyze_gpu_usage] returns normally, and
the script around it exits with status 0. *)
Lemma guarded_exit (body : M World unit) w :
  res (run_script (guarded body) w) = Ok 0.
Proof.
  rewrite run_script_status. by destruct (guarded_total body w) as [[] ->].
Qed.

End Exit.


(** ** Container membership *)

Section Membership.
Context {World : Type} `{!Platform World}.
Variable listing : string → string.

(** With listings that do not change during the search, the container
    found is the first one whose listing holds the digits of the pid. *)
Lemma find_container_first pid :
  (∀ cid w, res (safe_subprocess_run (top_cmd cid) w) = Ok (listing cid)) →
  ∀ containers w,
    res (find_container pid containers w)
    = Ok (snd <$> List.find (claims listing pid) containers).
Proof.
  intros Hlist containers.
  induction containers as [|[cid info] rest IH]; intros w; simpl; [done|].
  rewrite res_bind, Hlist. unfold claims at 1. simpl.
  destruct (PyStr.contains (PyStr.of_int pid) (listing cid)); [done|].
  apply IH.
Qed.

Lemma top_run cid w :
  (os_run (top_cmd cid) w).1 = Exited 0 (listing cid) "" →
  res (safe_subprocess_run (top_cmd cid) w) = Ok (listing cid)
  ∧ events (safe_subprocess_run (top_cmd cid) w)
    = [EvExec (top_cmd cid) (Exited 0 (listing cid) "")].
Proof.
  unfold safe_subprocess_run, bind, exec_cmd.
  destruct (os_run (top_cmd cid) w) as [r w']. simpl. by intros ->.
Qed.

(** C4, as the code has it.  When the first container to claim a pid is
    followed by any others, claiming it or not, the process is attributed
    to that first container; the search runs [docker top] for the
    containers up to and including it and does nothing else: the later
    containers are not queried and nothing is reported. *)
Theorem first_claimant_wins pid pre cid info post w :
  Forall (λ c, ∀ w', (os_run (top_cmd c.1) w').1
                     = Exited 0 (listing c.1) "")
    (pre ++ [(cid, info)]) →
  forallb (λ c, negb (claims listing pid c)) pre = true →
  claims listing pid (cid, info) = true →
  res (find_container pid (pre ++ (cid, info) :: post) w) = Ok (Some info)
  ∧ events (find_container pid (pre ++ (cid, info) :: post) w)
    = top_event listing <$> (pre ++ [(cid, info)]).
Proof.
  intros Htop Hpre Hcid. revert w.
  induction pre as [|[c0 i0] pre IH]; intros w; simpl in *.
  - apply Forall_cons_1 in Htop as [Htop _].
    destruct (top_run cid w (Htop w)) as [Hr He].
    rewrite res_bind, events_bind, Hr, He.
    unfold claims in Hcid. simpl in Hcid. by rewrite Hcid.
  - apply andb_true_iff in Hpre as [H0 Hpre].
    apply Forall_cons_1 in Htop as [Htop0 Htop].
    destruct (top_run c0 w (Htop0 w)) as [Hr He].
    rewrite res_bind, events_bind, Hr, He.
    unfold claims in H0. simpl in H0.
    apply negb_true_iff in H0. rewrite H0.
    destruct (IH Htop Hpre (world (safe_subprocess_run (top_cmd c0) w)))
      as [IHr IHe].
    by rewrite IHr, IHe.
Qed.

End Membership.

Lemma sim_top_listing table cid (w : Sim.world table) :
  res (safe_subprocess_run (top_cmd cid) w)
  = Ok (Sim.stdout table (top_cmd cid)).
Proof.
  unfold safe_subprocess_run, bind, exec_cmd, Sim.stdout. simpl.
  destruct (Sim.answer table (top_cmd cid)) as [code out err|]; simpl;
    [|done].
  by destruct (code =? 0).
Qed.

Lemma first_claimant_wins_witness :
  res (find_container 7000
         [("c1", carol_container); ("c2", dave_container)] claim_world)
  = Ok (Some carol_container)
  ∧ events (find_container 7000
              [("c1", carol_container); ("c2", dave_container)] claim_world)
    = [EvExec (top_cmd "c1")
         (Exited 0 ("UID PID PPID" +:+ nl +:+ "root 7000 1") "")].
Proof.
  apply (first_claimant_wins
           (λ _, "UID PID PPID" +:+ nl +:+ "root 7000 1")
           7000 [] "c1" carol_container [("c2", dave_container)] claim_world);
    [|reflexivity..].
  repeat constructor.
Defined.

(** C4 fails as stated: pid 7000 is listed by both containers, yet it is
    attributed to the first, whose owner is then used, and the trace of
    the search holds one command and no report. *)
Lemma double_claim_counterexample :
  PyStr.contains "7000" (Sim.stdout claim_table (top_cmd "c1")) = true
  ∧ PyStr.contains "7000" (Sim.stdout claim_table (top_cmd "c2")) = true
  ∧ res (find_container 7000
           [("c1", carol_container); ("c2", dave_container)] claim_world)
    = Ok (Some carol_container)
  ∧ events (find_container 7000
              [("c1", carol_container); ("c2", dave_container)] claim_world)
    = [EvExec (Argv ["docker"; "top"; "c1"])
         (Exited 0 ("UID PID PPID" +:+ nl +:+ "root 7000 1") "")].
Proof. repeat split; vm_compute; reflexivity. Qed.

(** C10.  Membership is a substring test: with listings that stay the
    same during the search, the container of a process is the first one,
    in the order of the table, whose [docker top] output holds the decimal
    digits of the pid anywhere.  So a pid can be attributed to a container
    that lists another pid only: pid 12 goes to the container whose single
    process is 5123. *)
Theorem membership_by_substring :
  (∀ World (P : Platform World) (listing : string → string) pid
     containers w,
     (∀ cid w', res (safe_subprocess_run (top_cmd cid) w') = Ok (listing cid)) →
     res (find_container pid containers w)
     = Ok (snd <$> List.find
                     (λ c, PyStr.contains (PyStr.of_int pid) (listing c.1))
                     containers))
  ∧ (Sim.stdout digits_table (top_cmd "c1")
       = "UID PID PPID" +:+ nl +:+ "root 5123 1"
     ∧ res (find_container 12 [("c1", carol_container)] digits_world)
       = Ok (Some carol_container)).
Proof.
  split.
  - intros World P listing pid containers w Hlist.
    by apply find_container_first.
  - split; vm_compute; reflexivity.
Qed.

Lemma membership_by_substring_witness :
  res (find_container 12 [("c1", carol_container)] digits_world)
  = Ok (snd <$> List.find
                  (λ c, PyStr.contains (PyStr.of_int 12)
                          (Sim.stdout digits_table (top_cmd c.1)))
                  [("c1", carol_container)]).
Proof.
  apply (proj1 membership_by_substring (Sim.world digits_table) _
           (λ cid, Sim.stdout digits_table (top_cmd cid)) 12
           [("c1", carol_container)] digits_world).
  intros cid w'. apply sim_top_listing.
Defined.

(** ** Traces *)

Section Traces.
Context {W : Type}.

Lemma emits_ret {A} P (a : A) : emits P (@ret W A a).
Proof. intros w. constructor. Qed.

Lemma emits_raise {A} P e : emits P (@raise W A e).
Proof. intros w. constructor. Qed.

Lemma emits_lift {A} P (r : Res A) : emits P (@lift W A r).
Proof. intros w. constructor. Qed.

Lemma emits_emit P ev : P ev → emits P (@emit W ev).
Proof. intros H w. by repeat constructor. Qed.

Lemma emits_bind {A B} P (m : M W A) (k : A → M W B) :
  emits P m → (∀ a, emits P (k a)) → emits P (bind m k).
Proof.
  intros Hm Hk w. rewrite events_bind. apply Forall_app. split; [apply Hm|].
  destruct (res (m w)); [apply Hk | constructor].
Qed.

Lemma emits_try_except {A} P (m : M W A) h :
  emits P m → (∀ e, emits P (h e)) → emits P (try_except m h).
Proof.
  intros Hm Hh w. rewrite events_try_except. apply Forall_app.
  split; [apply Hm|]. destruct (res (m w)); [constructor | apply Hh].
Qed.

Lemma emits_for_each {A} P (l : list A) (body : A → M W unit) :
  (∀ x, emits P (body x)) → emits P (for_each l body).
Proof.
  intros Hb. induction l as [|x l IH]; simpl.
  - apply emits_ret.
  - apply emits_bind; [apply Hb | intros _; apply IH].
Qed.

(** An event of a loop is an event of one of its rounds. *)
Lemma for_each_event {A} (l : list A) (body : A → M W unit) w ev :
  ev ∈ events (for_each l body w) →
  ∃ x w', x ∈ l ∧ ev ∈ events (body x w').
Proof.
  revert w. induction l as [|x l IH]; intros w; simpl.
  - by intros ?%elem_of_nil.
  - rewrite events_bind. intros [Hin|Hin]%elem_of_app.
    + exists x, w. split; [apply list_elem_of_here | done].
    + destruct (res (body x w)); [|by apply elem_of_nil in Hin].
      destruct (IH _ Hin) as (y & w' & Hy & Hev).
      exists y, w'. split; [by apply list_elem_of_further | done].
Qed.

End Traces.

Section Quiet.
Context {World : Type} `{!Platform World}.

Lemma emits_print P line : P (EvPrint line) → emits P (@print World line).
Proof. apply emits_emit. Qed.

Lemma emits_exec P c : (∀ r, P (EvExec c r)) → emits P (exec_cmd c).
Proof.
  intros H w. unfold exec_cmd. destruct (os_run c w) as [r w'].
  by repeat constructor.
Qed.

Lemma emits_safe_run P c :
  (∀ r, P (EvExec c r)) → (∀ line, P (EvPrint line)) →
  emits P (safe_subprocess_run c).
Proof.
  intros Hc Hp. unfold safe_subprocess_run.
  apply emits_bind; [by apply emits_exec|]. intros [code out err|].
  - destruct (code =? 0); [apply emits_ret|].
    apply emits_bind; [by apply emits_print|]. intros _.
    apply emits_bind; [by apply emits_print | intros _; apply emits_ret].
  - apply emits_bind; [by apply emits_print | intros _; apply emits_ret].
Qed.

Lemma user_cmd_ps pid : ∃ rest, user_cmd pid = Argv ("ps" :: rest).
Proof.
  unfold user_cmd. generalize (PyStr.of_int pid) as s. intros s.
  eexists. unfold PyStr.split_ws. cbv [String.append]. simpl. reflexivity.
Qed.

Lemma quiet_user_cmd pid r : quiet (EvExec (user_cmd pid) r).
Proof. destruct (user_cmd_ps pid) as [rest ->]. reflexivity. Qed.

Ltac quiet_step :=
  first
    [ apply emits_ret
    | apply emits_raise
    | apply emits_lift
    | apply emits_print; reflexivity
    | apply emits_emit; reflexivity
    | apply emits_safe_run; [intros; reflexivity | intros; reflexivity]
    | apply emits_exec; intros; reflexivity
    | apply emits_bind; [|intros ?]
    | apply emits_try_except; [|intros ?]
    | apply emits_for_each; intros ? ].

Lemma quiet_get_process_user pid : emits quiet (get_process_user pid).
Proof.
  unfold get_process_user. apply emits_bind; [|intros ?; apply emits_ret].
  apply emits_exec. apply quiet_user_cmd.
Qed.

Lemma quiet_check pid jobid :
  emits quiet (check_pid_belongs_to_slurm_job pid jobid).
Proof. unfold check_pid_belongs_to_slurm_job. repeat quiet_step. Qed.

Lemma quiet_find_container pid containers :
  emits quiet (find_container pid containers).
Proof.
  induction containers as [|[cid info] rest IH]; simpl; [apply emits_ret|].
  apply emits_bind; [repeat quiet_step|]. intros top.
  destruct (PyStr.contains _ top); [apply emits_ret | apply IH].
Qed.

Lemma quiet_find_job pid container_info jobs :
  emits quiet (find_job pid container_info jobs).
Proof.
  induction jobs as [|[job_id job_info] rest IH]; simpl; [apply emits_ret|].
  apply emits_bind; [apply quiet_check|]. intros [|]; [|apply IH].
  apply emits_bind.
  - unfold user_matches. destruct container_info; [apply emits_ret|].
    apply emits_bind; [apply quiet_get_process_user|].
    intros ?; apply emits_ret.
  - intros [|]; [apply emits_ret | apply IH].
Qed.

Lemma quiet_classify pid containers jobs :
  emits quiet (classify pid containers jobs).
Proof.
  unfold classify. apply emits_bind; [apply quiet_find_container|].
  intros ci. apply emits_bind; [apply quiet_find_job|].
  intros ?; apply emits_ret.
Qed.

Lemma quiet_process_info pid memory container_info cmd :
  emits quiet (process_info pid memory container_info cmd).
Proof.
  unfold process_info. destruct container_info as [c|].
  - apply emits_bind; [|intros ?; apply emits_ret].
    destruct (PyVal.truthy _); [apply emits_lift | apply emits_ret].
  - apply emits_bind; [apply quiet_get_process_user|].
    intros ?; apply emits_ret.
Qed.

Lemma quiet_print_owner pid container_info :
  emits quiet (print_owner pid container_info).
Proof.
  unfold print_owner. destruct container_info as [c|].
  - do 3 (apply emits_bind; [by apply emits_print|]; intros _).
    destruct (PyVal.truthy _); repeat quiet_step.
  - apply emits_bind; [apply quiet_get_process_user|].
    intros ?. by apply emits_print.
Qed.

Lemma quiet_print_job item : emits quiet (print_job item).
Proof. unfold print_job, get_slurm_pid_hierarchy. repeat quiet_step. Qed.

Lemma quiet_get_slurm_jobs : emits quiet get_slurm_jobs.
Proof.
  unfold get_slurm_jobs. apply emits_bind; [repeat quiet_step|]. intros out.
  generalize (lines_of out) as jobs. generalize (@nil (string * Job.t)).
  intros d jobs. revert d.
  induction jobs as [|job jobs IH]; intros d; simpl; [apply emits_ret|].
  apply emits_bind; [|intros ?; apply IH].
  unfold process_job, read_job. apply emits_try_except; [|intros e; repeat quiet_step].
  destruct (PyStr.split_ws job) as [|? [|? [|? [|? [|? [|? ?]]]]]];
    repeat quiet_step.
Qed.

Lemma quiet_get_container_info : emits quiet get_container_info.
Proof.
  unfold get_container_info. apply emits_bind; [repeat quiet_step|].
  intros out. generalize (lines_of out) as ids.
  generalize (@nil (string * Container.t)). intros d ids. revert d.
  induction ids as [|cid ids IH]; intros d; simpl; [apply emits_ret|].
  destruct (PyStr.truthy cid); [|apply IH].
  apply emits_bind; [|intros ?; apply IH].
  unfold inspect_container. repeat quiet_step.
Qed.

Lemma quiet_get_gpu_processes : emits quiet get_gpu_processes.
Proof.
  unfold get_gpu_processes.
  apply emits_bind; [repeat quiet_step|]. intros smi_output.
  apply emits_bind; [repeat quiet_step|]. intros listing.
  generalize (lines_of listing) as gpu_info.
  generalize (lines_of smi_output) as lines.
  generalize (∅ : gmap Z (list (Z * string))).
  intros d lines gpu_info. revert d.
  induction lines as [|line lines IH]; intros d; simpl; [apply emits_ret|].
  destruct (add_gpu_line _ _ _) as [d' [[]|e]];
    [apply IH | repeat quiet_step].
Qed.
Lemma emits_impl {A} (P Q : Event → Prop) (m : M World A) :
  (∀ ev, P ev → Q ev) → emits P m → emits Q m.
Proof. intros HPQ Hm w. eapply Forall_impl; [apply Hm | exact HPQ]. Qed.

Lemma quiet_event {A} (m : M World A) w ev :
  emits quiet m → ev ∈ events (m w) → is_signal ev = true → False.
Proof.
  intros Hm Hin Hsig. specialize (Hm w).
  rewrite Forall_forall in Hm. specialize (Hm ev Hin).
  unfold quiet in Hm. congruence.
Qed.

(** Reclaiming a process signals that process and no other. *)
Lemma kill_signals pid info :
  emits (λ ev, is_signal ev = true → signals pid ev)
    (kill_non_slurm_process pid info).
Proof.
  intros w.
  assert (Herr : ∀ e r evs, error_end pid e r evs →
            Forall (λ ev, is_signal ev = true → signals pid ev) evs).
  { intros e r evs []; repeat first [apply Forall_nil_2 | apply Forall_cons_2];
      intros Hsig; discriminate Hsig. }
  assert (Hrec : ∀ stamp forced r evs,
            record_end stamp pid info forced r evs →
            Forall (λ ev, is_signal ev = true → signals pid ev) evs).
  { intros stamp forced r evs [|r' evs' Hend]; [|by eapply Herr].
    repeat first [apply Forall_nil_2 | apply Forall_cons_2];
      intros Hsig; discriminate Hsig. }
  destruct (kill_trace pid info w);
    repeat first [ by eapply Herr | by eapply Hrec | apply Forall_cons_2 ];
    intros Hsig; first [discriminate Hsig | eexists; eauto].
Qed.

(** Every signal sent while an entry is processed goes to the pid of the
    entry, which was classified an orphan at the start. *)
Lemma entry_signals containers jobs pid memory w :
  Forall (λ ev, is_signal ev = true →
                signals pid ev ∧ orphan_at pid containers jobs w)
    (events (report_process containers jobs (pid, memory) w)).
Proof.
  set (P := λ ev, is_signal ev = true →
                  signals pid ev ∧ orphan_at pid containers jobs w).
  assert (Hq : ∀ A (m : M World A), emits quiet m → emits P m).
  { intros A m. apply emits_impl. unfold quiet, P. congruence. }
  unfold report_process. rewrite events_try_except. apply Forall_app. split.
  2:{ destruct (res (examine_process _ _ _ _ _)); [constructor|].
      apply Hq. by apply emits_print. }
  cbn [fst snd]. unfold examine_process. rewrite events_bind.
  apply Forall_app. split; [apply Hq, quiet_classify|].
  destruct (res (classify pid containers jobs w)) as [verdict|] eqn:Hv;
    [|constructor].
  apply emits_bind; [apply Hq; repeat quiet_step|]. intros cmd.
  apply emits_bind.
  - destruct (String.eqb (slurm_status verdict.2) "Non-SLURM") eqn:Hs;
      [|apply emits_ret].
    apply emits_bind; [apply Hq, quiet_process_info|]. intros info.
    eapply emits_impl; [|apply kill_signals].
    intros ev Hev Hsig. split; [by apply Hev|].
    exists verdict. split; [done|]. unfold classification. by rewrite Hs.
  - intros _. do 4 (apply emits_bind; [apply Hq; by apply emits_print|];
                    intros _).
    apply emits_bind; [apply Hq, quiet_print_owner|]. intros _.
    apply emits_bind; [apply Hq; repeat quiet_step|]. intros cmd'.
    apply emits_bind; [|intros _; apply Hq; by apply emits_print].
    apply Hq. unfold print_command.
    destruct (PyStr.truthy _); by apply emits_print.
Qed.

(** C2, as the code has it.  In a cycle, every termination signal is sent
    while some entry of the GPU process table, a pid under a device index,
    is being processed; it goes to the pid of that entry, and the entry
    was classified an orphan against the jobs scheduled on that device.
    While an entry classified as owned by a job is processed, no signal
    is sent. *)
Theorem signals_only_for_orphans w slurm_info containers gpu_processes :
  res (get_slurm_jobs w) = Ok slurm_info →
  res (get_container_info (world (get_slurm_jobs w))) = Ok containers →
  res (get_gpu_processes
         (world (get_container_info (world (get_slurm_jobs w)))))
  = Ok gpu_processes →
  (∀ ev, ev ∈ events (analyze_gpu_usage w) → is_signal ev = true →
     ∃ gpu_id entries pid memory w',
       gpu_processes !! gpu_id = Some entries
       ∧ (pid, memory) ∈ entries
       ∧ ev ∈ events (report_process containers
                        (gpu_specific_jobs gpu_id slurm_info)
                        (pid, memory) w')
       ∧ signals pid ev
       ∧ ∃ verdict,
           res (classify pid containers
                  (gpu_specific_jobs gpu_id slurm_info) w') = Ok verdict
           ∧ classification verdict = ORPHAN)
  ∧ (∀ jobs pid memory w' verdict,
       res (classify pid containers jobs w') = Ok verdict →
       classification verdict ≠ ORPHAN →
       Forall quiet
         (events (report_process containers jobs (pid, memory) w'))).
Proof.
  intros Hjobs Hcont Hgpu. split.
  - intros ev Hin Hsig.
    unfold analyze_gpu_usage, guarded in Hin.
    rewrite events_try_except in Hin. apply elem_of_app in Hin as [Hin|Hin].
    2:{ destruct (res (analyze_body w)); [by apply elem_of_nil in Hin|].
        exfalso. eapply (quiet_event (bind _ _)); [|done..].
        unfold print_exc. repeat quiet_step. }
    unfold analyze_body in Hin.
    rewrite events_bind in Hin. apply elem_of_app in Hin as [Hin|Hin].
    { exfalso. by eapply (quiet_event (print _)); [apply emits_print|..]. }
    cbn [print emit res world] in Hin.
    rewrite events_bind in Hin. apply elem_of_app in Hin as [Hin|Hin].
    { exfalso. eapply (quiet_event _ _ _ quiet_get_slurm_jobs Hin Hsig). }
    rewrite Hjobs in Hin.
    rewrite events_bind in Hin. apply elem_of_app in Hin as [Hin|Hin].
    { exfalso. eapply (quiet_event _ _ _ quiet_get_container_info Hin Hsig). }
    rewrite Hcont in Hin.
    rewrite events_bind in Hin. apply elem_of_app in Hin as [Hin|Hin].
    { exfalso. eapply (quiet_event _ _ _ quiet_get_gpu_processes Hin Hsig). }
    rewrite Hgpu in Hin.
    rewrite events_bind in Hin. apply elem_of_app in Hin as [Hin|Hin].
    { exfalso. by eapply (quiet_event (print _)); [apply emits_print|..]. }
    cbn [print emit res world] in Hin.
    rewrite events_bind in Hin. apply elem_of_app in Hin as [Hin|Hin].
    { exfalso. by eapply (quiet_event (print _)); [apply emits_print|..]. }
    cbn [print emit res world] in Hin.
    rewrite events_bind in Hin. apply elem_of_app in Hin as [Hin|Hin].
    { exfalso. eapply (quiet_event (safe_subprocess_run _)); [|done..].
      repeat quiet_step. }
    destruct (res (safe_subprocess_run smi_list_cmd _)) as [listing|];
      [|by apply elem_of_nil in Hin].
    apply for_each_event in Hin as (gpu_id & w1 & _ & Hin).
    unfold report_gpu in Hin.
    rewrite events_bind in Hin. apply elem_of_app in Hin as [Hin|Hin].
    { exfalso. by eapply (quiet_event (print _)); [apply emits_print|..]. }
    cbn [print emit res world] in Hin.
    rewrite events_bind in Hin. apply elem_of_app in Hin as [Hin|Hin].
    { exfalso. by eapply (quiet_event (print _)); [apply emits_print|..]. }
    cbn [print emit res world] in Hin.
    rewrite events_bind in Hin. apply elem_of_app in Hin as [Hin|Hin].
    2:{ match type of Hin with
        | _ ∈ match ?r with _ => _ end => destruct r
        end; [|by apply elem_of_nil in Hin].
        exfalso. eapply (quiet_event (for_each _ _)); [|done..].
        apply emits_for_each. apply quiet_print_job. }
    destruct (gpu_processes !! gpu_id) as [entries|] eqn:Hentries.
    2:{ by apply elem_of_nil in Hin. }
    apply for_each_event in Hin as ([pid memory] & w2 & Hentry & Hin).
    pose proof (entry_signals containers
                  (gpu_specific_jobs gpu_id slurm_info) pid memory w2) as Hall.
    rewrite Forall_forall in Hall.
    destruct (Hall ev Hin Hsig) as [Hto Horphan].
    exists gpu_id, entries, pid, memory, w2. by repeat split.
  - intros jobs pid memory w' verdict Hv Hne.
    eapply Forall_impl; [apply entry_signals|].
    intros ev Hev. unfold quiet. cbv beta in Hev.
    destruct (is_signal ev) eqn:Hsig; [|done].
    destruct (Hev eq_refl) as [_ (verdict' & Hv' & Ho)].
    rewrite Hv in Hv'. injection Hv' as <-. done.
Qed.

End Quiet.

(** ** Attribution to jobs *)

Lemma find_first {A} (f : A → bool) (l : list A) :
  match List.find f l with
  | Some x => ∃ pre post, l = pre ++ x :: post
                          ∧ forallb (λ y, negb (f y)) pre = true
                          ∧ f x = true
  | None => forallb (λ y, negb (f y)) l = true
  end.
Proof.
  induction l as [|a l IH]; simpl; [done|].
  destruct (f a) eqn:Ha; simpl.
  - by exists [], l.
  - destruct (List.find f l) as [x|]; [|done].
    destruct IH as (pre & post & -> & Hpre & Hx).
    exists (a :: pre), post. simpl. by rewrite Ha.
Qed.

Lemma split_ws_go_truthy s :
  ∀ cur, Forall (λ x, PyStr.truthy x = true) (PyStr.split_ws_go cur s).
Proof.
  induction s as [|c s IH]; intros cur; simpl.
  - destruct cur; by repeat constructor.
  - destruct (PyStr.is_space c); [|apply IH].
    apply Forall_app. split; [|apply IH].
    destruct cur; by repeat constructor.
Qed.

Lemma dict_set_keys {V} (k : string) (v : V) (d : dict V) :
  ((dict_set k v d).*1 = d.*1)
  ∨ ((k ∉ d.*1) ∧ (dict_set k v d).*1 = d.*1 ++ [k]).
Proof.
  induction d as [|[k0 v0] d IH].
  - right. split; [apply not_elem_of_nil | done].
  - cbn [dict_set]. destruct (String.eqb k0 k) eqn:E.
    + apply String.eqb_eq in E as ->. by left.
    + apply String.eqb_neq in E. rewrite !fmap_cons. cbn [fst].
      destruct IH as [->|[Hk ->]]; [by left|]. right. split; [|done].
      apply not_elem_of_cons. split; [congruence | done].
Qed.

Lemma dict_set_well_keyed {V} (k : string) (v : V) (d : dict V) :
  PyStr.truthy k = true → well_keyed d → well_keyed (dict_set k v d).
Proof.
  intros Hk [Hnd Hall]. split.
  - destruct (dict_set_keys k v d) as [->|[Hnew ->]]; [done|].
    apply NoDup_app. split; [done|]. split; [|apply NoDup_singleton].
    intros x Hx ->%list_elem_of_singleton. done.
  - clear Hnd. induction d as [|[k0 v0] d IH]; simpl.
    + by repeat constructor.
    + apply Forall_cons in Hall as [H0 Hall].
      destruct (String.eqb k0 k); constructor; auto.
Qed.

Lemma dict_get_member {V} (k : string) (v : V) (d : dict V) :
  NoDup d.*1 → (k, v) ∈ d → dict_get k d = Some v.
Proof.
  induction d as [|[k0 v0] d IH]; simpl; intros Hnd Hin.
  - by apply elem_of_nil in Hin.
  - apply NoDup_cons in Hnd as [Hk0 Hnd].
    apply elem_of_cons in Hin as [[= -> ->]|Hin].
    + by rewrite String.eqb_refl.
    + destruct (String.eqb k0 k) eqn:E; [|by apply IH].
      apply String.eqb_eq in E as ->. exfalso. apply Hk0.
      apply list_elem_of_fmap. by exists (k, v).
Qed.

Lemma classification_none container_info :
  classification (container_info, None) = ORPHAN.
Proof. reflexivity. Qed.

Lemma classification_some container_info job_id :
  PyStr.truthy job_id = true →
  classification (container_info, Some job_id)
  = match container_info with
    | Some _ => CONTAINER_SCHEDULER_OWNED
    | None => SCHEDULER_OWNED
    end.
Proof.
  intros H. unfold classification, slurm_status. simpl. by rewrite H.
Qed.

(** The command of the process tree test determines the job it is for. *)
Lemma check_cmd_inj pid j1 j2 : check_cmd pid j1 = check_cmd pid j2 → j1 = j2.
Proof.
  unfold check_cmd. intros [= H].
  do 3 apply String.app_inj in H.
  by apply str_app_inj_r in H.
Qed.

Section Jobs.
Context {World : Type} `{!Platform World}.

Lemma read_job_well_keyed job d d' w :
  well_keyed d → res (read_job job d w) = Ok d' → well_keyed d'.
Proof.
  intros Hd. unfold read_job.
  pose proof (split_ws_go_truthy job "") as Hws. fold (PyStr.split_ws job) in Hws.
  destruct (PyStr.split_ws job) as [|job_id [|? [|? [|? [|? [|? ?]]]]]];
    try done.
  apply Forall_cons in Hws as [Hid _].
  rewrite res_bind.
  destruct (res (safe_subprocess_run _ w)) as [out|]; [|done].
  rewrite res_bind. unfold lift at 1. cbn [res world].
  destruct (parse_gpu_indices out); [|done].
  rewrite res_bind. unfold lift at 1. cbn [res world].
  destruct (parse_workdir out); [|done].
  rewrite res_bind. unfold lift at 1. cbn [res world].
  destruct (parse_runtime out); [|done].
  intros [= <-]. by apply dict_set_well_keyed.
Qed.

Lemma collect_jobs_well_keyed jobs :
  ∀ d d' w, well_keyed d → res (collect_jobs jobs d w) = Ok d' → well_keyed d'.
Proof.
  induction jobs as [|job jobs IH]; intros d d' w Hd; simpl.
  - by intros [= <-].
  - rewrite res_bind. unfold process_job at 1. rewrite res_try_except.
    destruct (res (read_job job d w)) as [d1|e] eqn:Hread.
    + apply IH. by eapply read_job_well_keyed.
    + rewrite res_bind. cbn [print emit res world]. apply IH. done.
Qed.

Lemma get_slurm_jobs_well_keyed w slurm_info :
  res (get_slurm_jobs w) = Ok slurm_info → well_keyed slurm_info.
Proof.
  unfold get_slurm_jobs. rewrite res_bind.
  destruct (res (safe_subprocess_run _ w)); [|done].
  apply collect_jobs_well_keyed. split; [apply NoDup_nil_2 | constructor].
Qed.

Lemma gpu_specific_jobs_member gpu_id slurm_info job_id job_info :
  (job_id, job_info) ∈ gpu_specific_jobs gpu_id slurm_info ↔
  gpu_id ∈ Job.gpu_indices job_info ∧ (job_id, job_info) ∈ slurm_info.
Proof. unfold gpu_specific_jobs. by rewrite list_elem_of_filter. Qed.

Lemma res_check pid job_id w :
  ∃ b, res (check_pid_belongs_to_slurm_job pid job_id w) = Ok b.
Proof.
  unfold check_pid_belongs_to_slurm_job, bind, exec_cmd, ret.
  destruct (os_run _ w) as [r w']. by eexists.
Qed.

Lemma res_user_matches pid container_info job_info w :
  ∃ b, res (user_matches pid container_info job_info w) = Ok b.
Proof.
  unfold user_matches, get_process_user, bind, exec_cmd, ret.
  destruct container_info; [by eexists|].
  destruct (os_run _ w) as [r w']. by eexists.
Qed.

(** A job found is one of the candidates. *)
Lemma find_job_member pid container_info jobs :
  ∀ w job_id, res (find_job pid container_info jobs w) = Ok (Some job_id) →
              ∃ job_info, (job_id, job_info) ∈ jobs.
Proof.
  induction jobs as [|[j info] rest IH]; intros w job_id; simpl; [done|].
  assert (Hrest : ∀ w', res (find_job pid container_info rest w')
                        = Ok (Some job_id) →
                        ∃ job_info, (job_id, job_info) ∈ (j, info) :: rest).
  { intros w' H. destruct (IH _ _ H) as [i Hi].
    exists i. by apply list_elem_of_further. }
  rewrite res_bind. destruct (res_check pid j w) as [[|] ->]; [|apply Hrest].
  rewrite res_bind.
  destruct (res_user_matches pid container_info info
              (world (check_pid_belongs_to_slurm_job pid j w))) as [[|] ->];
    [|apply Hrest].
  intros [= <-]. exists info. apply list_elem_of_here.
Qed.

(** The process tree tests run by the search are those of candidates. *)
Lemma find_job_tests pid container_info jobs :
  emits (λ ev, ∀ job_id r, ev = EvExec (check_cmd pid job_id) r →
                           ∃ job_info, (job_id, job_info) ∈ jobs)
    (find_job pid container_info jobs).
Proof.
  induction jobs as [|[j info] rest IH]; simpl; [apply emits_ret|].
  assert (Hrest : emits (λ ev, ∀ job_id r,
                           ev = EvExec (check_cmd pid job_id) r →
                           ∃ job_info, (job_id, job_info) ∈ (j, info) :: rest)
                    (find_job pid container_info rest)).
  { eapply emits_impl; [|exact IH]. intros ev Hev job_id r Heq.
    destruct (Hev _ _ Heq) as [i Hi]. exists i.
    by apply list_elem_of_further. }
  apply emits_bind.
  - unfold check_pid_belongs_to_slurm_job.
    apply emits_bind; [|intros ?; apply emits_ret].
    apply emits_exec. intros r job_id r' Heq.
    assert (Hcmd : check_cmd pid j = check_cmd pid job_id) by congruence.
    apply check_cmd_inj in Hcmd as <-. exists info. apply list_elem_of_here.
  - intros [|]; [|exact Hrest].
    apply emits_bind; [|intros [|]; [apply emits_ret | exact Hrest]].
    unfold user_matches. destruct container_info; [apply emits_ret|].
    apply emits_bind; [|intros ?; apply emits_ret].
    unfold get_process_user.
    apply emits_bind; [|intros ?; apply emits_ret].
    apply emits_exec. intros r job_id r' Heq. exfalso.
    destruct (user_cmd_ps pid) as [rest' Hps]. rewrite Hps in Heq.
    discriminate Heq.
Qed.

Lemma find_container_tests pid containers :
  emits (λ ev, ∀ c r, ev = EvExec (Shell c) r → False)
    (find_container pid containers).
Proof.
  induction containers as [|[cid info] rest IH]; simpl; [apply emits_ret|].
  apply emits_bind.
  - apply emits_safe_run; intros; discriminate.
  - intros top. destruct (PyStr.contains _ top); [apply emits_ret | apply IH].
Qed.

Section Snapshot.
Variable pid : Z.
Variable tree : string → bool.
Variable owner : option string.
Hypothesis tree_stable :
  ∀ job_id w, res (check_pid_belongs_to_slurm_job pid job_id w)
              = Ok (tree job_id).
Hypothesis owner_stable : ∀ w, res (get_process_user pid w) = Ok owner.

(** On a machine whose answers about the process do not change, the
    search returns the first accepted candidate. *)
Lemma find_job_first container_info jobs :
  ∀ w, res (find_job pid container_info jobs w)
       = Ok (fst <$> List.find (accepted tree container_info owner) jobs).
Proof.
  induction jobs as [|[j info] rest IH]; intros w; simpl; [done|].
  rewrite res_bind, tree_stable. unfold accepted at 1. cbn [fst snd].
  destruct (tree j); cbn [andb]; [|apply IH].
  rewrite res_bind.
  assert (Hm : res (user_matches pid container_info info
                      (world (check_pid_belongs_to_slurm_job pid j w)))
               = Ok (identity_ok container_info owner info)).
  { unfold user_matches, identity_ok. destruct container_info; [done|].
    by rewrite res_bind, owner_stable. }
  rewrite Hm. destruct (identity_ok container_info owner info); [done|].
  apply IH.
Qed.

End Snapshot.

(** The comparisons of the identity test are equalities. *)
Lemma eq_str_spec v s : eq_str v s = true ↔ v = PStr s.
Proof.
  destruct v; simpl; try by (split; intros [=]).
  rewrite String.eqb_eq. split; [by intros -> | by intros [=]].
Qed.

Lemma opt_eq_str_spec o s : opt_eq_str o s = true ↔ o = Some s.
Proof.
  destruct o; simpl; [|split; intros [=]].
  rewrite String.eqb_eq. split; [by intros -> | by intros [=]].
Qed.

(** The test the search applies to a candidate is the one the
    specification asks for. *)
Lemma accepted_accepts tree container_info owner item :
  accepted tree container_info owner item = true
  ↔ accepts tree container_info owner item.
Proof.
  unfold accepted, accepts, identity_ok, identity_matches.
  rewrite andb_true_iff.
  destruct container_info;
    [by rewrite eq_str_spec | by rewrite opt_eq_str_spec].
Qed.

Lemma rejected_all tree container_info owner (jobs : dict Job.t) :
  Forall (λ x, ¬ accepts tree container_info owner x) jobs
  ↔ forallb (λ x, negb (accepted tree container_info owner x)) jobs = true.
Proof.
  induction jobs as [|item jobs IH]; simpl.
  - split; [done | intros _; apply Forall_nil_2].
  - rewrite Forall_cons, andb_true_iff, negb_true_iff, IH,
      <- accepted_accepts.
    by destruct (accepted _ _ _ item); intuition.
Qed.

Lemma find_app_first {A} (f : A → bool) pre x post :
  forallb (λ y, negb (f y)) pre = true → f x = true →
  List.find f (pre ++ x :: post) = Some x.
Proof.
  intros Hpre Hx. induction pre as [|a pre IH]; simpl in *.
  - by rewrite Hx.
  - apply andb_true_iff in Hpre as [Ha Hpre].
    apply negb_true_iff in Ha. rewrite Ha. by apply IH.
Qed.

Lemma res_safe_run c w : ∃ out, res (safe_subprocess_run c w) = Ok out.
Proof.
  unfold safe_subprocess_run, bind, exec_cmd, print, emit, ret.
  destruct (os_run c w) as [[code out err|] w']; cbn [res world events].
  - destruct (code =? 0); by eexists.
  - by eexists.
Qed.

Lemma res_find_container pid containers :
  ∀ w, ∃ found, res (find_container pid containers w) = Ok found.
Proof.
  induction containers as [|[cid info] rest IH]; intros w; simpl.
  - by eexists.
  - rewrite res_bind. destruct (res_safe_run (top_cmd cid) w) as [top ->].
    destruct (PyStr.contains _ top); [by eexists | apply IH].
Qed.

(** C5.  On a machine whose answers about the process do not change
    while it is classified, the candidates are tried in the order of the
    scheduler table and the first one that satisfies both conditions of
    the specification wins: the process tree test passes, and the user
    of the job is the owner of the container the process was found in
    or, for a process in no container, the owner of the process.  That
    job is the verdict, with the classification of an owned process; the
    process is an orphan when no candidate satisfies both; and a job is
    the verdict only in this way. *)
Theorem first_matching_job_wins (w0 : World) slurm_info gpu_id pid
    containers tree owner w :
  res (get_slurm_jobs w0) = Ok slurm_info →
  (∀ job_id w', res (check_pid_belongs_to_slurm_job pid job_id w')
                = Ok (tree job_id)) →
  (∀ w', res (get_process_user pid w') = Ok owner) →
  ∃ verdict,
    res (classify pid containers (gpu_specific_jobs gpu_id slurm_info) w)
    = Ok verdict
    ∧ res (find_container pid containers w) = Ok verdict.1
    ∧ (∀ pre item post,
         gpu_specific_jobs gpu_id slurm_info = pre ++ item :: post →
         Forall (λ x, ¬ accepts tree verdict.1 owner x) pre →
         accepts tree verdict.1 owner item →
         verdict.2 = Some item.1
         ∧ classification verdict
           = match verdict.1 with
             | Some _ => CONTAINER_SCHEDULER_OWNED
             | None => SCHEDULER_OWNED
             end)
    ∧ (Forall (λ x, ¬ accepts tree verdict.1 owner x)
         (gpu_specific_jobs gpu_id slurm_info) →
       verdict.2 = None ∧ classification verdict = ORPHAN)
    ∧ (∀ job_id,
         verdict.2 = Some job_id →
         ∃ pre item post,
           gpu_specific_jobs gpu_id slurm_info = pre ++ item :: post
           ∧ Forall (λ x, ¬ accepts tree verdict.1 owner x) pre
           ∧ accepts tree verdict.1 owner item
           ∧ item.1 = job_id).
Proof.
  intros Hjobs Htree Howner.
  destruct (res_find_container pid containers w) as [ci Hci].
  pose proof (find_job_first pid tree owner Htree Howner ci
                (gpu_specific_jobs gpu_id slurm_info)
                (world (find_container pid containers w))) as Hfind.
  set (jobs := gpu_specific_jobs gpu_id slurm_info) in *.
  exists (ci, fst <$> List.find (accepted tree ci owner) jobs).
  cbn [fst snd].
  split. { unfold classify. by rewrite res_bind, Hci, res_bind, Hfind. }
  split; [done|].
  assert (Hkeys : ∀ item, item ∈ jobs → PyStr.truthy item.1 = true).
  { intros item Hin.
    apply get_slurm_jobs_well_keyed in Hjobs as [_ Hkeys].
    rewrite Forall_forall in Hkeys. apply Hkeys.
    unfold jobs, gpu_specific_jobs in Hin.
    by apply list_elem_of_filter in Hin as [_ ?]. }
  split; [|split].
  - intros pre item post Hsplit Hpre Hitem.
    rewrite Hsplit, (find_app_first (accepted tree ci owner) pre item post).
    + split; [done|]. cbn [fmap option_fmap option_map].
      apply classification_some, Hkeys.
      rewrite Hsplit. apply elem_of_app. right. apply list_elem_of_here.
    + by apply rejected_all.
    + by apply accepted_accepts.
  - intros Hnone. apply rejected_all in Hnone.
    pose proof (find_first (accepted tree ci owner) jobs) as Hfirst.
    destruct (List.find _ jobs) as [item|]; [|done].
    destruct Hfirst as (pre & post & Hsplit & _ & Hitem).
    rewrite Hsplit, forallb_app in Hnone. simpl in Hnone.
    rewrite Hitem in Hnone. simpl in Hnone.
    by rewrite andb_false_r in Hnone.
  - intros job_id Hv.
    pose proof (find_first (accepted tree ci owner) jobs) as Hfirst.
    destruct (List.find _ jobs) as [item|]; [|done].
    destruct Hfirst as (pre & post & Hsplit & Hpre & Hitem).
    injection Hv as <-.
    exists pre, item, post. repeat split; try done.
    + by apply rejected_all.
    + by apply accepted_accepts in Hitem as [? _].
    + by apply accepted_accepts in Hitem as [_ ?].
Qed.

(** C6.  A process classified as owned by a job is attributed to a job
    of the scheduler table whose index list holds the device of the
    process; and while a process on a device is classified, the process
    tree test is never run for a job whose index list lacks the device. *)
Theorem attribution_respects_device (w0 : World) slurm_info gpu_id pid
    containers w verdict :
  res (get_slurm_jobs w0) = Ok slurm_info →
  res (classify pid containers (gpu_specific_jobs gpu_id slurm_info) w)
  = Ok verdict →
  (classification verdict ≠ ORPHAN →
     ∃ job_id job_info,
       verdict.2 = Some job_id
       ∧ dict_get job_id slurm_info = Some job_info
       ∧ gpu_id ∈ Job.gpu_indices job_info)
  ∧ (∀ job_id job_info r,
       dict_get job_id slurm_info = Some job_info →
       gpu_id ∉ Job.gpu_indices job_info →
       EvExec (check_cmd pid job_id) r
       ∉ events (classify pid containers
                   (gpu_specific_jobs gpu_id slurm_info) w)).
Proof.
  intros Hjobs Hv.
  apply get_slurm_jobs_well_keyed in Hjobs as [Hnd _].
  split.
  - intros Hne. unfold classify in Hv. rewrite res_bind in Hv.
    destruct (res (find_container pid containers w)) as [ci|]; [|done].
    rewrite res_bind in Hv.
    destruct (res (find_job pid ci _ _)) as [[job_id|]|] eqn:Hfound;
      [| |done].
    + injection Hv as <-.
      apply find_job_member in Hfound as [job_info Hin].
      apply gpu_specific_jobs_member in Hin as [Hgpu Hin].
      exists job_id, job_info. repeat split; [|done].
      by apply dict_get_member.
    + injection Hv as <-. by destruct Hne.
  - intros job_id job_info r Hget Hgpu Hin.
    unfold classify in Hin. rewrite events_bind in Hin.
    apply elem_of_app in Hin as [Hin|Hin].
    { pose proof (find_container_tests pid containers w) as Hall.
      rewrite Forall_forall in Hall. by eapply (Hall _ Hin). }
    destruct (res (find_container pid containers w)) as [ci|];
      [|by apply elem_of_nil in Hin].
    rewrite events_bind in Hin. apply elem_of_app in Hin as [Hin|Hin].
    2:{ destruct (res (find_job _ _ _ _)); by apply elem_of_nil in Hin. }
    pose proof (find_job_tests pid ci (gpu_specific_jobs gpu_id slurm_info)
                  (world (find_container pid containers w))) as Hall.
    rewrite Forall_forall in Hall.
    destruct (Hall _ Hin job_id r eq_refl) as [job_info' Hmem].
    apply gpu_specific_jobs_member in Hmem as [Hgpu' Hmem].
    apply (dict_get_member _ _ _ Hnd) in Hmem.
    rewrite Hget in Hmem. injection Hmem as <-. done.
Qed.

End Jobs.

Lemma signals_only_for_orphans_witness :
  (∀ ev, ev ∈ events (analyze_gpu_usage two_gpu_world) →
     is_signal ev = true →
     ∃ gpu_id entries pid memory (w' : Sim.world two_gpu_table),
       two_gpu_processes !! gpu_id = Some entries
       ∧ (pid, memory) ∈ entries
       ∧ ev ∈ events (report_process []
                        (gpu_specific_jobs gpu_id [("123", job_123)])
                        (pid, memory) w')
       ∧ signals pid ev
       ∧ ∃ verdict,
           res (classify pid []
                  (gpu_specific_jobs gpu_id [("123", job_123)]) w')
           = Ok verdict
           ∧ classification verdict = ORPHAN)
  ∧ (∀ jobs pid memory (w' : Sim.world two_gpu_table) verdict,
       res (classify pid [] jobs w') = Ok verdict →
       classification verdict ≠ ORPHAN →
       Forall quiet (events (report_process [] jobs (pid, memory) w'))).
Proof.
  apply (signals_only_for_orphans two_gpu_world [("123", job_123)] []
           two_gpu_processes); vm_compute; reflexivity.
Defined.

(** C2 fails as stated: process 5000 is reported under device 0 as
    belonging to job 123, and under device 1, which the job does not
    hold, as an orphan; the cycle sends it the graceful signal. *)
Lemma multi_device_counterexample :
  res (classify 5000 [] (gpu_specific_jobs 0 [("123", job_123)])
         two_gpu_world)
  = Ok (None, Some "123")
  ∧ classification (None, Some "123") = SCHEDULER_OWNED
  ∧ verdict_lines (events (analyze_gpu_usage two_gpu_world))
    = [EvPrint "PID 5000 (Live GPU Memory: 100 MiB):";
       EvPrint "  - Resource Management: SLURM & belongs to Jobid 123";
       EvPrint "PID 5000 (Live GPU Memory: 100 MiB):";
       EvPrint "  - Resource Management: Non-SLURM"]
  ∧ signals_sent (events (analyze_gpu_usage two_gpu_world))
    = [EvExec (Argv ["sudo"; "kill"; "5000"]) (Exited 0 "" "")].
Proof. repeat split; vm_compute; reflexivity. Qed.

Lemma first_matching_job_wins_witness :
  res (classify 7000 [("c1", carol_container)]
         (gpu_specific_jobs 1 scenario_jobs) rival_world)
  = Ok (Some carol_container, Some "456")
  ∧ classification (Some carol_container, Some "456")
    = CONTAINER_SCHEDULER_OWNED.
Proof.
  destruct (first_matching_job_wins rival_world scenario_jobs 1 7000
              [("c1", carol_container)] rival_tree None rival_world)
    as ([ci job] & Hv & Hc & Hfirst & _).
  - vm_compute. reflexivity.
  - intros job_id w'. reflexivity.
  - intros w'. reflexivity.
  - cbn [fst snd] in *.
    assert (ci = Some carol_container) as ->.
    { vm_compute in Hc. by injection Hc. }
    destruct (Hfirst [("123", Job.Make "alice" "train" "RUNNING" "dgx1"
                                [0; 1] "/home/alice/x"
                                "1 days, 02 hours, 03 minutes, 04 seconds")]
                ("456", Job.Make "carol" "fit" "RUNNING" "dgx1" [1]
                          "/home/carol" "02 hours, 03 minutes, 04 seconds")
                []) as [Hjob Hclass].
    + vm_compute. reflexivity.
    + apply Forall_cons_2; [|apply Forall_nil_2].
      intros [_ Hid]. discriminate Hid.
    + split; reflexivity.
    + cbn [fst] in Hjob. subst job. by split.
Defined.

Lemma attribution_respects_device_witness :
  (classification (None, Some "123") ≠ ORPHAN →
     ∃ job_id job_info,
       (None : option Container.t, Some "123").2 = Some job_id
       ∧ dict_get job_id [("123", job_123)] = Some job_info
       ∧ 0 ∈ Job.gpu_indices job_info)
  ∧ (∀ job_id job_info r,
       dict_get job_id [("123", job_123)] = Some job_info →
       0 ∉ Job.gpu_indices job_info →
       EvExec (check_cmd 5000 job_id) r
       ∉ events (classify 5000 []
                   (gpu_specific_jobs 0 [("123", job_123)]) two_gpu_world)).
Proof.
  apply (attribution_respects_device two_gpu_world [("123", job_123)] 0 5000
           [] two_gpu_world (None, Some "123")); vm_compute; reflexivity.
Defined.

(** ** Nothing escapes the handlers *)

Section Totality.
Context {World : Type} `{!Platform World}.

Lemma total_print line : total (@print World line).
Proof. apply total_emit. Qed.

Lemma total_safe_run c : total (safe_subprocess_run c).
Proof.
  intros w. unfold safe_subprocess_run, bind, exec_cmd, print, emit, ret.
  destruct (os_run c w) as [[code out err|] w']; cbn [res world events].
  - destruct (code =? 0); by eexists.
  - by eexists.
Qed.

(** A command that fails, or prints nothing, gives the empty string. *)
Lemma safe_run_nothing c w :
  gave_nothing (os_run c w).1 → res (safe_subprocess_run c w) = Ok "".
Proof.
  unfold safe_subprocess_run, bind, exec_cmd, print, emit, ret.
  destruct (os_run c w) as [[code out err|] w']; cbn [fst res world events];
    intros [Hfail|[err' Heq]]; try done.
  - cbn [succeeded] in Hfail. by rewrite Hfail.
  - by injection Heq as -> -> _.
Qed.

Lemma total_process_job job d : total (process_job job d).
Proof.
  apply total_try_except. intros e.
  apply total_bind; [apply total_print | intros _; apply total_ret].
Qed.

Lemma total_collect_jobs jobs : ∀ d, total (collect_jobs jobs d).
Proof.
  induction jobs as [|job jobs IH]; intros d; simpl.
  - apply total_ret.
  - apply total_bind; [apply total_process_job | intros d'; apply IH].
Qed.

Lemma total_get_slurm_jobs : total get_slurm_jobs.
Proof.
  apply total_bind; [apply total_safe_run|].
  intros out. apply total_collect_jobs.
Qed.

Lemma total_collect_containers ids : ∀ d, total (collect_containers ids d).
Proof.
  induction ids as [|cid ids IH]; intros d; simpl.
  - apply total_ret.
  - destruct (PyStr.truthy cid); [|apply IH].
    apply total_bind; [|intros d'; apply IH].
    apply total_try_except. intros e.
    apply total_bind; [apply total_print | intros _; apply total_ret].
Qed.

Lemma total_get_container_info : total get_container_info.
Proof.
  apply total_bind; [apply total_safe_run|].
  intros out. apply total_collect_containers.
Qed.

Lemma total_collect_gpu_lines gpu_info lines :
  ∀ t, total (collect_gpu_lines gpu_info lines t).
Proof.
  induction lines as [|line lines IH]; intros t; simpl.
  - apply total_ret.
  - destruct (add_gpu_line gpu_info line t) as [t' [[]|e]]; [apply IH|].
    apply total_bind; [apply total_print | intros _; apply total_ret].
Qed.

Lemma total_get_gpu_processes : total get_gpu_processes.
Proof.
  apply total_bind; [apply total_safe_run|]. intros smi_output.
  apply total_bind; [apply total_safe_run|]. intros gpu_info.
  apply total_collect_gpu_lines.
Qed.

Lemma total_report_process containers jobs entry :
  total (report_process containers jobs entry).
Proof. apply total_try_except. intros e. apply total_print. Qed.

Lemma total_print_job item : total (print_job item).
Proof.
  unfold print_job.
  do 8 (apply total_bind; [apply total_print | intros _]).
  apply total_bind; [apply total_safe_run | intros hierarchy].
  apply total_for_each. intros line. apply total_print.
Qed.

Lemma total_report_gpu slurm_info containers gpu_processes gpu_id :
  total (report_gpu slurm_info containers gpu_processes gpu_id).
Proof.
  unfold report_gpu.
  do 2 (apply total_bind; [apply total_print | intros _]).
  apply total_bind.
  - destruct (gpu_processes !! gpu_id) as [entries|]; [|apply total_ret].
    apply total_for_each. intros entry. apply total_report_process.
  - intros _. apply total_for_each. intros item. apply total_print_job.
Qed.


(** X1.  The three collectors never raise: whatever the commands answer,
    each of them returns a table, so a failure inside a collector never
    reaches the analysis that called it. *)
Theorem collectors_never_raise :
  total get_slurm_jobs ∧ total get_container_info ∧ total get_gpu_processes.
Proof.
  split; [apply total_get_slurm_jobs|].
  split; [apply total_get_container_info | apply total_get_gpu_processes].
Qed.

End Totality.

(** ** The shape of the report *)

Lemma split_go_nonempty sep s :
  ∀ skip cur, PyStr.split_go sep skip cur s ≠ [].
Proof.
  induction s as [|c s IH]; intros skip cur; cbn [PyStr.split_go]; [done|].
  destruct skip; [|apply IH].
  destruct (String.prefix sep (String c s)); [done | apply IH].
Qed.

(** [s.strip().split('\n')] always holds at least one line. *)
Lemma lines_of_nonempty out : (1 ≤ length (lines_of out))%nat.
Proof.
  unfold lines_of, PyStr.split.
  pose proof (split_go_nonempty nl (PyStr.strip out) 0 "") as H.
  destruct (PyStr.split_go _ _ _ _); [done | simpl; lia].
Qed.

Section Report.
Context {World : Type} `{!Platform World}.

Lemma bind_event_l {A B} (m : M World A) (k : A → M World B) w ev :
  ev ∈ events (m w) → ev ∈ events (bind m k w).
Proof. intros H. rewrite events_bind. apply elem_of_app. by left. Qed.

Lemma bind_event_r {A B} (m : M World A) (k : A → M World B) w a ev :
  res (m w) = Ok a → ev ∈ events (k a (world (m w))) →
  ev ∈ events (bind m k w).
Proof.
  intros Hm H. rewrite events_bind, Hm. apply elem_of_app. by right.
Qed.

(** A loop whose rounds never raise runs every round. *)
Lemma for_each_visits {A} (l : list A) (body : A → M World unit) x :
  (∀ y, total (body y)) → x ∈ l →
  ∀ w, ∃ w', ∀ ev, ev ∈ events (body x w') →
                   ev ∈ events (for_each l body w).
Proof.
  intros Hb. induction l as [|y l IH]; intros Hx w.
  - by apply elem_of_nil in Hx.
  - simpl. apply elem_of_cons in Hx as [->|Hx].
    + exists w. intros ev Hev. by apply bind_event_l.
    + destruct (Hb y w) as [[] Hy].
      destruct (IH Hx (world (body y w))) as [w' Hw'].
      exists w'. intros ev Hev. eapply bind_event_r; [exact Hy|]. by apply Hw'.
Qed.

Lemma report_gpu_header slurm_info containers gpu_processes gpu_id w :
  EvPrint (nl +:+ "GPU " +:+ PyStr.of_int gpu_id +:+ ":")
  ∈ events (report_gpu slurm_info containers gpu_processes gpu_id w).
Proof. unfold report_gpu. apply bind_event_l. apply list_elem_of_here. Qed.

(** X3.  The report has one section for each index below the number of
    lines of the device listing, and that number is at least one: a
    section for device 0 is printed even when the listing is empty or
    cannot be obtained. *)
Theorem every_device_has_a_section w listing :
  res (safe_subprocess_run smi_list_cmd (counting_state w)) = Ok listing →
  EvPrint (nl +:+ "GPU 0:") ∈ events (analyze_gpu_usage w)
  ∧ ∀ gpu_id, 0 ≤ gpu_id < Z.of_nat (length (lines_of listing)) →
      EvPrint (nl +:+ "GPU " +:+ PyStr.of_int gpu_id +:+ ":")
      ∈ events (analyze_gpu_usage w).
Proof.
  intros Hlist.
  assert (Hall : ∀ gpu_id, 0 ≤ gpu_id < Z.of_nat (length (lines_of listing)) →
            EvPrint (nl +:+ "GPU " +:+ PyStr.of_int gpu_id +:+ ":")
            ∈ events (analyze_gpu_usage w)).
  { intros gpu_id Hrange.
    unfold analyze_gpu_usage, guarded. rewrite events_try_except.
    apply elem_of_app. left. unfold analyze_body.
    eapply bind_event_r; [reflexivity|]. cbn [print emit world].
    destruct (total_get_slurm_jobs w) as [slurm_info Hj].
    eapply bind_event_r; [exact Hj|].
    destruct (total_get_container_info (world (get_slurm_jobs w)))
      as [containers Hc].
    eapply bind_event_r; [exact Hc|].
    destruct (total_get_gpu_processes
                (world (get_container_info (world (get_slurm_jobs w)))))
      as [gpu_processes Hg].
    eapply bind_event_r; [exact Hg|].
    eapply bind_event_r; [reflexivity|]. cbn [print emit world].
    eapply bind_event_r; [reflexivity|]. cbn [print emit world].
    fold (counting_state w).
    eapply bind_event_r; [exact Hlist|].
    destruct (for_each_visits (seqZ 0 (Z.of_nat (length (lines_of listing))))
                (report_gpu slurm_info containers gpu_processes) gpu_id
                (total_report_gpu slurm_info containers gpu_processes)) 
      with (w := world (safe_subprocess_run smi_list_cmd (counting_state w)))
      as [w' Hw'].
    { apply elem_of_seqZ. lia. }
    apply Hw'. apply report_gpu_header. }
  split; [|exact Hall].
  apply (Hall 0). pose proof (lines_of_nonempty listing). lia.
Qed.

Lemma print_job_header item w :
  EvPrint (nl +:+ "SLURM Job ID: " +:+ item.1) ∈ events (print_job item w).
Proof. unfold print_job. apply bind_event_l. apply list_elem_of_here. Qed.

(** X4.  Under the section of a device, every job of the scheduler table
    whose index list holds the device is listed, whatever happened while
    the processes of the device were examined. *)
Theorem jobs_listed_under_their_devices slurm_info containers gpu_processes
    gpu_id job_id job_info w :
  (job_id, job_info) ∈ slurm_info →
  gpu_id ∈ Job.gpu_indices job_info →
  EvPrint (nl +:+ "SLURM Job ID: " +:+ job_id)
  ∈ events (report_gpu slurm_info containers gpu_processes gpu_id w).
Proof.
  intros Hin Hgpu. unfold report_gpu.
  eapply bind_event_r; [reflexivity|]. cbn [print emit world].
  eapply bind_event_r; [reflexivity|]. cbn [print emit world].
  set (loop := match gpu_processes !! gpu_id with
               | Some entries => _
               | None => _
               end).
  assert (Hloop : total loop).
  { subst loop. destruct (gpu_processes !! gpu_id); [|apply total_ret].
    apply total_for_each. intros entry. apply total_report_process. }
  destruct (Hloop w) as [[] Hl].
  eapply bind_event_r; [exact Hl|].
  destruct (for_each_visits (gpu_specific_jobs gpu_id slurm_info) print_job
              (job_id, job_info) total_print_job) with (w := world (loop w))
    as [w' Hw'].
  { by apply gpu_specific_jobs_member. }
  apply Hw'. apply (print_job_header (job_id, job_info)).
Qed.

End Report.

Lemma every_device_has_a_section_witness :
  EvPrint (nl +:+ "GPU 0:") ∈ events (analyze_gpu_usage scenario_world)
  ∧ ∀ gpu_id,
      0 ≤ gpu_id
      < Z.of_nat (length (lines_of (Sim.stdout scenario_table smi_list_cmd))) →
      EvPrint (nl +:+ "GPU " +:+ PyStr.of_int gpu_id +:+ ":")
      ∈ events (analyze_gpu_usage scenario_world).
Proof.
  apply (every_device_has_a_section scenario_world).
  vm_compute. reflexivity.
Defined.

Lemma jobs_listed_under_their_devices_witness :
  EvPrint (nl +:+ "SLURM Job ID: 456")
  ∈ events (report_gpu scenario_jobs [] ∅ 1 scenario_world).
Proof.
  apply (jobs_listed_under_their_devices scenario_jobs [] ∅ 1 "456"
           (Job.Make "carol" "fit" "RUNNING" "dgx1" [1] "/home/carol"
              "02 hours, 03 minutes, 04 seconds")).
  - apply list_elem_of_further, list_elem_of_here.
  - apply list_elem_of_here.
Defined.

(** ** Edge cases of the collectors *)

Section Edges.
Context {World : Type} `{!Platform World}.

(** X5.  A line of the queue listing that does not split into exactly
    five fields (a job name with a space in it, a blank line) gives no
    entry: the table is unchanged, the only effect is one error line, and
    the scheduler is not asked about the job. *)
Theorem line_without_five_fields_skipped job slurm_jobs w :
  length (PyStr.split_ws job) ≠ 5%nat →
  res (process_job job slurm_jobs w) = Ok slurm_jobs
  ∧ world (process_job job slurm_jobs w) = w
  ∧ events (process_job job slurm_jobs w)
    = [EvPrint ("Error processing job " +:+ job +:+ ": "
                +:+ str_exc ValueError)].
Proof.
  intros Hlen. unfold process_job, read_job.
  destruct (PyStr.split_ws job) as [|? [|? [|? [|? [|? [|? ?]]]]]];
    try done.
Qed.

(** X6.  When the queue listing is blank (no job is queued, or [squeue]
    failed), the scheduler collector still reads one empty line: it
    returns an empty table and prints one error line for a job without a
    name. *)
Theorem empty_queue_reports_error w out :
  res (safe_subprocess_run squeue_cmd w) = Ok out →
  PyStr.strip out = "" →
  res (get_slurm_jobs w) = Ok []
  ∧ events (get_slurm_jobs w)
    = events (safe_subprocess_run squeue_cmd w)
      ++ [EvPrint ("Error processing job : " +:+ str_exc ValueError)].
Proof.
  intros Hout Hblank. unfold get_slurm_jobs.
  rewrite res_bind, events_bind, Hout. unfold lines_of. rewrite Hblank.
  done.
Qed.

(** X7.  A blank container listing is no error: the container collector
    returns an empty table without inspecting anything and prints nothing
    of its own. *)
Theorem blank_container_listing w out :
  res (safe_subprocess_run
         (Argv ["docker"; "container"; "ls"; "--format"; "{{.ID}}"]) w)
  = Ok out →
  PyStr.strip out = "" →
  res (get_container_info w) = Ok []
  ∧ events (get_container_info w)
    = events (safe_subprocess_run
                (Argv ["docker"; "container"; "ls"; "--format"; "{{.ID}}"])
                w).
Proof.
  intros Hout Hblank. unfold get_container_info.
  rewrite res_bind, events_bind, Hout. unfold lines_of. rewrite Hblank.
  cbn. by rewrite app_nil_r.
Qed.

(** X8.  A blank process query is no error either: the GPU collector
    returns an empty table after its two queries and prints nothing of
    its own. *)
Theorem blank_process_query w smi_output :
  res (safe_subprocess_run smi_apps_cmd w) = Ok smi_output →
  PyStr.strip smi_output = "" →
  res (get_gpu_processes w) = Ok ∅
  ∧ events (get_gpu_processes w)
    = events (safe_subprocess_run smi_apps_cmd w)
      ++ events (safe_subprocess_run smi_list_cmd
                   (world (safe_subprocess_run smi_apps_cmd w))).
Proof.
  intros Hout Hblank. unfold get_gpu_processes.
  rewrite res_bind, events_bind, Hout, res_bind, events_bind.
  destruct (total_safe_run smi_list_cmd
              (world (safe_subprocess_run smi_apps_cmd w))) as [listing ->].
  unfold lines_of at 2 4. rewrite Hblank.
  cbn. by rewrite app_nil_r.
Qed.

End Edges.

Lemma line_without_five_fields_skipped_witness :
  res (process_job "7 alice my job RUNNING dgx1" [] spaced_world) = Ok []
  ∧ world (process_job "7 alice my job RUNNING dgx1" [] spaced_world)
    = spaced_world
  ∧ events (process_job "7 alice my job RUNNING dgx1" [] spaced_world)
    = [EvPrint ("Error processing job 7 alice my job RUNNING dgx1: "
                +:+ str_exc (World := Sim.world spaced_table) ValueError)].
Proof.
  apply (line_without_five_fields_skipped "7 alice my job RUNNING dgx1" []
           spaced_world).
  vm_compute. discriminate.
Defined.

Lemma empty_queue_reports_error_witness :
  res (get_slurm_jobs idle_world) = Ok []
  ∧ events (get_slurm_jobs idle_world)
    = events (safe_subprocess_run squeue_cmd idle_world)
      ++ [EvPrint ("Error processing job : "
                   +:+ str_exc (World := Sim.world idle_table) ValueError)].
Proof.
  apply (empty_queue_reports_error idle_world ""); reflexivity.
Defined.

Lemma blank_container_listing_witness :
  res (get_container_info idle_world) = Ok []
  ∧ events (get_container_info idle_world)
    = events (safe_subprocess_run
                (Argv ["docker"; "container"; "ls"; "--format"; "{{.ID}}"])
                idle_world).
Proof.
  apply (blank_container_listing idle_world nl); reflexivity.
Defined.

Lemma blank_process_query_witness :
  res (get_gpu_processes idle_world) = Ok ∅
  ∧ events (get_gpu_processes idle_world)
    = events (safe_subprocess_run smi_apps_cmd idle_world)
      ++ events (safe_subprocess_run smi_list_cmd
                   (world (safe_subprocess_run smi_apps_cmd idle_world))).
Proof.
  apply (blank_process_query idle_world ""); reflexivity.
Defined.

(** ** The GPU process table *)

Lemma find_gpu_range gpu_uuid gpu_info :
  ∀ idx gpu_id, find_gpu gpu_uuid idx gpu_info = Some gpu_id →
                idx ≤ gpu_id < idx + Z.of_nat (length gpu_info).
Proof.
  induction gpu_info as [|info rest IH]; intros idx gpu_id; simpl; [done|].
  destruct (PyStr.contains gpu_uuid info).
  - intros [= <-]. lia.
  - intros H%IH. lia.
Qed.

Lemma touch_lookup idx (t : gmap Z (list (Z * string))) :
  touch idx t !! idx = Some (default [] (t !! idx)).
Proof.
  unfold touch. destruct (t !! idx) as [old|] eqn:Hold; [done|].
  by rewrite lookup_insert_eq.
Qed.

Lemma touch_lookup_ne idx k (t : gmap Z (list (Z * string))) :
  k ≠ idx → touch idx t !! k = t !! k.
Proof.
  intros Hne. unfold touch. destruct (t !! idx); [done|].
  by rewrite lookup_insert_ne.
Qed.

(** A line is refused with [ValueError]: it has not three fields, and the
    table is as before, or its pid is not an integer, and the device it
    names has been entered in the table. *)
Lemma add_gpu_line_raise gpu_info line t t' e :
  add_gpu_line gpu_info line t = (t', Raise e) →
  e = ValueError
  ∧ (t' = t
     ∨ ∃ gpu_uuid pid memory gpu_id,
         PyStr.split ", " line = [gpu_uuid; pid; memory]
         ∧ PyStr.to_int pid = None
         ∧ find_gpu gpu_uuid 0 gpu_info = Some gpu_id
         ∧ t' = touch gpu_id t).
Proof.
  unfold add_gpu_line. destruct (PyStr.truthy line); [|done].
  destruct (PyStr.split ", " line) as [|gpu_uuid [|pid [|memory [|? ?]]]];
    try (intros [= <- <-]; by auto).
  destruct (find_gpu _ _ _) as [gpu_id|] eqn:Hfind; [|done].
  destruct (PyStr.to_int pid) eqn:Hpid; [done|].
  intros [= <- <-]. split; [done|]. right.
  by exists gpu_uuid, pid, memory, gpu_id.
Qed.

(** Reading one more line keeps every list of the table non-empty and
    its entries traceable to lines of the query. *)
Lemma add_gpu_line_entries gpu_info lines line t t' :
  line ∈ lines →
  (∀ gpu_id entries, t !! gpu_id = Some entries →
     entries ≠ [] ∧ Forall (gpu_entry_from gpu_info lines gpu_id) entries) →
  add_gpu_line gpu_info line t = (t', Ok tt) →
  ∀ gpu_id entries, t' !! gpu_id = Some entries →
    entries ≠ [] ∧ Forall (gpu_entry_from gpu_info lines gpu_id) entries.
Proof.
  intros Hline Ht. unfold add_gpu_line.
  destruct (PyStr.truthy line); [|by intros [= <-]].
  destruct (PyStr.split ", " line) as [|gpu_uuid [|pid [|memory [|? ?]]]]
    eqn:Hsplit; try done.
  destruct (find_gpu gpu_uuid 0 gpu_info) as [idx|] eqn:Hidx;
    [|by intros [= <-]].
  destruct (PyStr.to_int pid) as [p|] eqn:Hpid; [|done].
  intros [= <-] gpu_id entries.
  destruct (decide (gpu_id = idx)) as [->|Hne].
  - rewrite lookup_insert_eq, touch_lookup. intros [= <-]. split.
    + by destruct (default [] (t !! idx)).
    + apply Forall_app. split.
      * destruct (t !! idx) as [old|] eqn:Hold; simpl; [|constructor].
        by apply (Ht idx).
      * apply Forall_cons_2; [|apply Forall_nil_2].
        by exists line, gpu_uuid, pid.
  - rewrite lookup_insert_ne, touch_lookup_ne by done. apply Ht.
Qed.

Section GpuTable.
Context {World : Type} `{!Platform World}.

(** What holds of the table the loop returns: an empty list can only be
    that of the device named by a line whose pid is not an integer. *)
Lemma collect_gpu_lines_entries gpu_info lines rest :
  ∀ t t' w,
    rest ⊆ lines →
    (∀ gpu_id entries, t !! gpu_id = Some entries →
       entries ≠ [] ∧ Forall (gpu_entry_from gpu_info lines gpu_id) entries) →
    res (collect_gpu_lines gpu_info rest t w) = Ok t' →
    ∀ gpu_id entries, t' !! gpu_id = Some entries →
      Forall (gpu_entry_from gpu_info lines gpu_id) entries
      ∧ (entries = [] → gpu_line_unread gpu_info lines gpu_id).
Proof.
  induction rest as [|line rest IH]; intros t t' w Hsub Ht; simpl.
  - intros [= <-] gpu_id entries Hk. destruct (Ht _ _ Hk). by split.
  - assert (Hline : line ∈ lines) by (apply Hsub, list_elem_of_here).
    destruct (add_gpu_line gpu_info line t) as [t1 [[]|e]] eqn:Hadd.
    + apply IH.
      * intros x Hx. apply Hsub. by apply list_elem_of_further.
      * by eapply add_gpu_line_entries.
    + rewrite res_bind. cbn [print emit res world ret]. intros [= <-].
      apply add_gpu_line_raise in Hadd as [_ [->|Hbad]].
      { intros gpu_id entries Hk. destruct (Ht _ _ Hk). by split. }
      destruct Hbad as (gpu_uuid & pid & memory & idx & Hsplit & Hpid
                        & Hfind & ->).
      intros gpu_id entries.
      destruct (decide (gpu_id = idx)) as [->|Hne].
      * rewrite touch_lookup. intros [= <-].
        destruct (t !! idx) as [old|] eqn:Hold; simpl.
        -- destruct (Ht _ _ Hold). by split.
        -- split; [constructor|]. intros _.
           by exists line, gpu_uuid, pid, memory.
      * rewrite touch_lookup_ne by done. intros Hk.
        destruct (Ht _ _ Hk). by split.
Qed.

(** The keys of the table are indices of device lines. *)
Lemma collect_gpu_lines_keys gpu_info lines t w :
  res (collect_gpu_lines gpu_info lines ∅ w) = Ok t →
  ∀ gpu_id entries, t !! gpu_id = Some entries →
    0 ≤ gpu_id < Z.of_nat (length gpu_info).
Proof.
  intros Ht gpu_id entries Hk.
  destruct (collect_gpu_lines_entries gpu_info lines lines ∅ t w
              (λ x Hx, Hx) ltac:(intros ? ?; by rewrite lookup_empty)
              Ht gpu_id entries Hk) as [Hall Hempty].
  destruct entries as [|entry entries].
  - destruct (Hempty eq_refl) as (line & gpu_uuid & pid & memory & _ & _ & _
                                  & Hfind).
    apply find_gpu_range in Hfind. lia.
  - apply Forall_cons in Hall
      as [(line & gpu_uuid & pid & _ & _ & _ & Hfind) _].
    apply find_gpu_range in Hfind. lia.
Qed.

(** X9.  Every entry of the GPU process table comes from a line of the
    process query: a line of three fields whose second field is the pid
    as an integer and whose third is the memory, filed under the index of
    the first device line that holds the identifier.  Every key is an
    index below the number of device lines, and a key has an empty list
    only when a line of the query names its device with a pid that is
    not an integer. *)
Theorem gpu_table_provenance w smi_output listing t :
  res (safe_subprocess_run smi_apps_cmd w) = Ok smi_output →
  res (safe_subprocess_run smi_list_cmd
         (world (safe_subprocess_run smi_apps_cmd w))) = Ok listing →
  res (get_gpu_processes w) = Ok t →
  ∀ gpu_id entries, t !! gpu_id = Some entries →
    0 ≤ gpu_id < Z.of_nat (length (lines_of listing))
    ∧ Forall (gpu_entry_from (lines_of listing) (lines_of smi_output) gpu_id)
        entries
    ∧ (entries = [] →
       gpu_line_unread (lines_of listing) (lines_of smi_output) gpu_id).
Proof.
  intros Hout Hlist. unfold get_gpu_processes.
  rewrite res_bind, Hout, res_bind, Hlist. intros Ht gpu_id entries Hk.
  split; [by eapply collect_gpu_lines_keys|].
  eapply collect_gpu_lines_entries; [| |exact Ht|exact Hk].
  - by intros x Hx.
  - intros k' es. by rewrite lookup_empty.
Qed.

(** X10.  The first line of the process query that cannot be read ends
    the collection: one error line is printed and the lines after it are
    not looked at.  The table holds what the lines before it gave and,
    when the line names a device with a pid that is not an integer, the
    key of that device, with an empty list if the key is new. *)
Theorem malformed_gpu_line_truncates gpu_info pre line post t0 t t' e w :
  res (collect_gpu_lines gpu_info pre t0 w) = Ok t →
  events (collect_gpu_lines gpu_info pre t0 w) = [] →
  add_gpu_line gpu_info line t = (t', Raise e) →
  e = ValueError
  ∧ res (collect_gpu_lines gpu_info (pre ++ line :: post) t0 w) = Ok t'
  ∧ events (collect_gpu_lines gpu_info (pre ++ line :: post) t0 w)
    = [EvPrint ("Error getting GPU process information: "
                +:+ str_exc ValueError)]
  ∧ (t' = t
     ∨ ∃ gpu_uuid pid memory gpu_id,
         PyStr.split ", " line = [gpu_uuid; pid; memory]
         ∧ PyStr.to_int pid = None
         ∧ find_gpu gpu_uuid 0 gpu_info = Some gpu_id
         ∧ t' = touch gpu_id t).
Proof.
  intros Hpre Hquiet Hbad.
  pose proof (add_gpu_line_raise _ _ _ _ _ Hbad) as [-> Hshape].
  split; [done|].
  assert (Hrun :
    res (collect_gpu_lines gpu_info (pre ++ line :: post) t0 w) = Ok t'
    ∧ events (collect_gpu_lines gpu_info (pre ++ line :: post) t0 w)
      = [EvPrint ("Error getting GPU process information: "
                  +:+ str_exc ValueError)]).
  { clear Hshape. revert t0 Hpre Hquiet.
    induction pre as [|l pre IH]; intros t0; simpl.
    - intros [= ->] _. by rewrite Hbad.
    - destruct (add_gpu_line gpu_info l t0) as [t1 [[]|e1]]; [apply IH|].
      rewrite events_bind. done. }
  destruct Hrun as [Hres Hev]. do 2 (split; [done|]). exact Hshape.
Qed.

End GpuTable.

Lemma gpu_table_provenance_witness :
  res (get_gpu_processes unread_world) = Ok (<[1 := []]> one_process)
  ∧ 0 ≤ 1 < Z.of_nat (length (lines_of (Sim.stdout unread_table smi_list_cmd)))
  ∧ gpu_line_unread (lines_of (Sim.stdout unread_table smi_list_cmd))
      (lines_of (Sim.stdout unread_table smi_apps_cmd)) 1.
Proof.
  assert (Hkey :
    0 ≤ 1 < Z.of_nat (length (lines_of (Sim.stdout unread_table smi_list_cmd)))
    ∧ Forall (gpu_entry_from
                (lines_of (Sim.stdout unread_table smi_list_cmd))
                (lines_of (Sim.stdout unread_table smi_apps_cmd)) 1) []
    ∧ (@nil (Z * string) = [] →
       gpu_line_unread (lines_of (Sim.stdout unread_table smi_list_cmd))
         (lines_of (Sim.stdout unread_table smi_apps_cmd)) 1)).
  { apply (gpu_table_provenance unread_world
             (Sim.stdout unread_table smi_apps_cmd)
             (Sim.stdout unread_table smi_list_cmd)
             (<[1 := []]> one_process));
      vm_compute; reflexivity. }
  destruct Hkey as (Hrange & _ & Hunread).
  split; [vm_compute; reflexivity|]. split; [exact Hrange|].
  by apply Hunread.
Defined.

Lemma malformed_gpu_line_truncates_witness :
  ValueError = ValueError
  ∧ res (collect_gpu_lines two_devices
           (["GPU-aaa, 5000, 100"] ++ "GPU-bbb, n/a, 7"
              :: ["GPU-aaa, 5002, 300"]) ∅ dead_world)
    = Ok (<[1 := []]> one_process)
  ∧ events (collect_gpu_lines two_devices
              (["GPU-aaa, 5000, 100"] ++ "GPU-bbb, n/a, 7"
                 :: ["GPU-aaa, 5002, 300"]) ∅ dead_world)
    = [EvPrint ("Error getting GPU process information: "
                +:+ str_exc (World := Sim.world []) ValueError)]
  ∧ (<[1 := []]> one_process = one_process
     ∨ ∃ gpu_uuid pid memory gpu_id,
         PyStr.split ", " "GPU-bbb, n/a, 7" = [gpu_uuid; pid; memory]
         ∧ PyStr.to_int pid = None
         ∧ find_gpu gpu_uuid 0 two_devices = Some gpu_id
         ∧ <[1 := []]> one_process = touch gpu_id one_process).
Proof.
  apply (malformed_gpu_line_truncates two_devices
           ["GPU-aaa, 5000, 100"] "GPU-bbb, n/a, 7" ["GPU-aaa, 5002, 300"]
           ∅ one_process (<[1 := []]> one_process) ValueError dead_world);
    vm_compute; reflexivity.
Defined.

(** ** Examining one process *)

Lemma join_raise sep v e : PyVal.join sep v = Raise e → e = TypeError.
Proof.
  destruct v as [| | | | |l|]; simpl; try congruence.
  destruct (PyVal.strings l); simpl; congruence.
Qed.

Lemma unjoinable_false c :
  unjoinable c = false →
  PyVal.truthy (Container.binds c) = false
  ∨ ∃ s, PyVal.join ", " (Container.binds c) = Ok s.
Proof.
  unfold unjoinable. destruct (PyVal.truthy _); [|by left].
  destruct (PyVal.join _ _) as [s|]; [|done]. right. by exists s.
Qed.

Lemma unjoinable_true c :
  unjoinable c = true →
  PyVal.truthy (Container.binds c) = true
  ∧ PyVal.join ", " (Container.binds c) = Raise TypeError.
Proof.
  unfold unjoinable. destruct (PyVal.truthy _); [|done].
  destruct (PyVal.join _ _) as [s|e] eqn:Hj; [done|].
  by rewrite (join_raise _ _ _ Hj).
Qed.

Section Examination.
Context {World : Type} `{!Platform World}.

Lemma total_get_process_user pid : total (get_process_user pid).
Proof.
  intros w. unfold get_process_user, bind, exec_cmd, ret.
  destruct (os_run _ w) as [r w']. by eexists.
Qed.

Lemma total_find_container pid containers :
  total (find_container pid containers).
Proof.
  induction containers as [|[cid info] rest IH]; simpl; [apply total_ret|].
  apply total_bind; [apply total_safe_run|]. intros top.
  destruct (PyStr.contains _ top); [apply total_ret | apply IH].
Qed.

Lemma total_find_job pid container_info jobs :
  total (find_job pid container_info jobs).
Proof.
  induction jobs as [|[job_id job_info] rest IH]; simpl; [apply total_ret|].
  apply total_bind.
  { intros w. apply res_check. }
  intros [|]; [|apply IH].
  apply total_bind.
  { intros w. apply res_user_matches. }
  intros [|]; [apply total_ret | apply IH].
Qed.

Lemma total_classify pid containers jobs :
  total (classify pid containers jobs).
Proof.
  unfold classify.
  apply total_bind; [apply total_find_container | intros ci].
  apply total_bind; [apply total_find_job | intros j; apply total_ret].
Qed.

(** An attempt returns normally or fails on the log. *)
Lemma res_kill pid info w :
  res (kill_non_slurm_process pid info w) = Ok tt
  ∨ res (kill_non_slurm_process pid info w) = Raise OSError.
Proof.
  assert (Herr : ∀ e r evs, error_end pid e r evs →
                            r = Ok tt ∨ r = Raise OSError).
  { intros e r evs []; auto. }
  assert (Hrec : ∀ stamp forced r evs,
            record_end stamp pid info forced r evs →
            r = Ok tt ∨ r = Raise OSError).
  { intros stamp forced r evs [|r' evs' Hend]; [auto | by eapply Herr]. }
  destruct (kill_trace pid info w); eauto.
Qed.

Lemma total_print_command cmd : total (@print_command World cmd).
Proof. unfold print_command. destruct (PyStr.truthy cmd); apply total_print. Qed.

Lemma res_process_info pid memory container_info cmd w :
  match container_info with
  | Some c =>
      if unjoinable c
      then res (process_info pid memory container_info cmd w) = Raise TypeError
      else ∃ info, res (process_info pid memory container_info cmd w) = Ok info
  | None => ∃ info, res (process_info pid memory container_info cmd w) = Ok info
  end.
Proof.
  destruct container_info as [c|]; unfold process_info.
  - destruct (unjoinable c) eqn:Hu.
    + apply unjoinable_true in Hu as [Ht Hj].
      by rewrite res_bind, Ht, Hj.
    + apply unjoinable_false in Hu as [Ht|[s Hj]]; rewrite res_bind.
      * rewrite Ht. by eexists.
      * destruct (PyVal.truthy _); [rewrite Hj|]; by eexists.
  - rewrite res_bind. destruct (total_get_process_user pid w) as [u ->].
    by eexists.
Qed.

Lemma res_print_owner pid container_info w :
  res (print_owner pid container_info w)
  = match container_info with
    | Some c => if unjoinable c then Raise TypeError else Ok tt
    | None => Ok tt
    end.
Proof.
  destruct container_info as [c|]; unfold print_owner.
  - rewrite !res_bind. cbn [print emit res world].
    destruct (unjoinable c) eqn:Hu.
    + apply unjoinable_true in Hu as [Ht Hj]. by rewrite Ht, res_bind, Hj.
    + apply unjoinable_false in Hu as [Ht|[s Hj]].
      * by rewrite Ht.
      * destruct (PyVal.truthy _); [|done]. by rewrite res_bind, Hj.
  - rewrite res_bind. by destruct (total_get_process_user pid w) as [u ->].
Qed.

(** What is left of the examination once the process is classified: it
    fails on the binds of the container, or it ends as the reclamation
    does when the process is to be reclaimed, and normally otherwise. *)
Lemma res_examine_process pid memory containers jobs w verdict :
  res (classify pid containers jobs w) = Ok verdict →
  ((∃ c, verdict.1 = Some c ∧ unjoinable c = true)
   ∧ res (examine_process pid memory containers jobs w) = Raise TypeError)
  ∨ ((∀ c, verdict.1 = Some c → unjoinable c = false)
     ∧ if String.eqb (slurm_status verdict.2) "Non-SLURM"
       then ∃ info w',
              res (examine_process pid memory containers jobs w)
              = res (kill_non_slurm_process pid info w')
       else res (examine_process pid memory containers jobs w) = Ok tt).
Proof.
  intros Hv. unfold examine_process. rewrite res_bind, Hv.
  set (w1 := world (classify pid containers jobs w)).
  rewrite res_bind. destruct (total_safe_run (cmd_of pid) w1) as [cmd Hcmd].
  rewrite Hcmd. set (w2 := world (safe_subprocess_run (cmd_of pid) w1)).
  rewrite res_bind.
  assert (Hrest : ∀ w3,
    res ((print (pid_line pid memory) ;;
          print ("  - Execution Type: " +:+ process_type verdict.1) ;;
          print ("  - Resource Management: " +:+ slurm_status verdict.2) ;;
          print ("  - Live GPU Memory Usage: " +:+ memory +:+ " MiB") ;;
          print_owner pid verdict.1 ;;
          cmd' <- safe_subprocess_run (cmd_of pid) ;;
          print_command (PyStr.strip cmd') ;;
          print "") w3)
    = res (print_owner pid verdict.1 w3)).
  { intros w3. rewrite !res_bind. cbn [print emit res world].
    destruct (res (print_owner pid verdict.1 w3)) as [[]|]; [|done].
    destruct (total_safe_run (cmd_of pid)
                (world (print_owner pid verdict.1 w3))) as [cmd' ->].
    rewrite res_bind.
    destruct (total_print_command (PyStr.strip cmd')
                (world (safe_subprocess_run (cmd_of pid)
                          (world (print_owner pid verdict.1 w3)))))
      as [[] ->].
    done. }
  unfold pid_line in Hrest.
  assert (Hcases : (∃ c, verdict.1 = Some c ∧ unjoinable c = true)
                   ∨ (∀ c, verdict.1 = Some c → unjoinable c = false)).
  { destruct verdict.1 as [c|]; [|by right].
    destruct (unjoinable c) eqn:Hu; [left; by exists c|].
    right. by intros c' [= <-]. }
  destruct Hcases as [(c & Hc & Hu)|Hjoin].
  - left. split; [by exists c|].
    destruct (String.eqb (slurm_status verdict.2) "Non-SLURM").
    + rewrite res_bind.
      pose proof (res_process_info pid memory verdict.1 (PyStr.strip cmd) w2)
        as Hinfo.
      rewrite Hc in Hinfo. cbv beta iota in Hinfo. rewrite Hu in Hinfo.
      rewrite Hc. by rewrite Hinfo.
    + cbn [ret res world]. rewrite Hrest, res_print_owner, Hc. by rewrite Hu.
  - right. split; [done|].
    assert (Howner : ∀ w3, res (print_owner pid verdict.1 w3) = Ok tt).
    { intros w3. rewrite res_print_owner.
      destruct verdict.1 as [c|]; [|done]. by rewrite (Hjoin c). }
    destruct (String.eqb (slurm_status verdict.2) "Non-SLURM").
    + rewrite res_bind.
      pose proof (res_process_info pid memory verdict.1 (PyStr.strip cmd) w2)
        as Hinfo.
      assert (∃ info, res (process_info pid memory verdict.1 (PyStr.strip cmd)
                             w2) = Ok info) as [info Hi].
      { destruct verdict.1 as [c|]; [|done]. by rewrite (Hjoin c) in Hinfo. }
      rewrite Hi.
      exists info,
        (world (process_info pid memory verdict.1 (PyStr.strip cmd) w2)).
      destruct (res_kill pid info
                  (world (process_info pid memory verdict.1 (PyStr.strip cmd)
                            w2))) as [Hk|Hk]; rewrite Hk; [|done].
      by rewrite Hrest, Howner.
    + cbn [ret res world]. by rewrite Hrest, Howner.
Qed.

(** X11.  Examining a process can fail in two ways only: with a type
    error, when the process is in a container whose binds are set but
    cannot be joined; or with the error of the log file, when the process
    was classified an orphan and its reclamation could not write the
    log.  A process in a container with such binds always fails the
    first way. *)
Theorem examination_failures pid memory containers jobs w :
  ∃ verdict,
    res (classify pid containers jobs w) = Ok verdict
    ∧ (∀ c, verdict.1 = Some c → unjoinable c = true →
            res (examine_process pid memory containers jobs w)
            = Raise TypeError)
    ∧ (∀ e, res (examine_process pid memory containers jobs w) = Raise e →
            (e = TypeError ∧ ∃ c, verdict.1 = Some c ∧ unjoinable c = true)
            ∨ (e = OSError
               ∧ classification verdict = ORPHAN
               ∧ ∃ info w',
                   res (kill_non_slurm_process pid info w')
                   = Raise OSError)).
Proof.
  destruct (total_classify pid containers jobs w) as [verdict Hv].
  exists verdict. split; [done|].
  destruct (res_examine_process pid memory containers jobs w verdict Hv)
    as [[(c & Hc & Hu) Hres]|[Hjoin Hres]].
  - split; [done|]. intros e He. left.
    rewrite Hres in He. injection He as <-. split; [done | by exists c].
  - split.
    { intros c Hc Hu. rewrite (Hjoin c Hc) in Hu. done. }
    intros e He. right. unfold classification.
    destruct (String.eqb (slurm_status verdict.2) "Non-SLURM");
      [|by rewrite Hres in He].
    destruct Hres as (info & w' & Hres). rewrite Hres in He.
    destruct (res_kill pid info w') as [Hk|Hk]; rewrite Hk in He; [done|].
    injection He as <-. split; [done|]. split; [done|]. by exists info, w'.
Qed.

Ltac hush :=
  first
    [ apply emits_ret
    | apply emits_print; reflexivity
    | apply emits_safe_run; [intros; reflexivity | intros; reflexivity]
    | apply quiet_print_owner
    | apply emits_bind; [|intros ?] ].

(** X12.  A process whose examination fails on the binds of its
    container was not sent any signal: that failure comes before the
    reclamation, or the process was not to be reclaimed at all. *)
Theorem failed_entry_not_signalled pid memory containers jobs w :
  res (examine_process pid memory containers jobs w) = Raise TypeError →
  Forall quiet (events (report_process containers jobs (pid, memory) w)).
Proof.
  intros Hraise.
  destruct (total_classify pid containers jobs w) as [verdict Hv].
  assert (Hbinds : ∃ c, verdict.1 = Some c ∧ unjoinable c = true).
  { destruct (res_examine_process pid memory containers jobs w verdict Hv)
      as [[Hc _]|[_ Hres]]; [done|].
    destruct (String.eqb (slurm_status verdict.2) "Non-SLURM");
      [|by rewrite Hres in Hraise].
    destruct Hres as (info & w' & Hres). rewrite Hres in Hraise.
    by destruct (res_kill pid info w') as [Hk|Hk]; rewrite Hk in Hraise. }
  destruct Hbinds as (c & Hc & Hu).
  destruct verdict as [ci job]. cbn [fst] in Hc. subst ci.
  unfold report_process. cbn [fst snd]. rewrite events_try_except.
  apply Forall_app. split.
  2:{ destruct (res (examine_process _ _ _ _ _)); [constructor|].
      by apply emits_print. }
  unfold examine_process. rewrite events_bind. apply Forall_app.
  split; [apply quiet_classify|]. rewrite Hv. cbn [fst snd].
  apply emits_bind; [hush|]. intros cmd. apply emits_bind.
  - destruct (String.eqb (slurm_status job) "Non-SLURM"); [|apply emits_ret].
    intros w'. rewrite events_bind.
    pose proof (res_process_info pid memory (Some c) (PyStr.strip cmd) w')
      as Hinfo.
    cbv beta iota in Hinfo. rewrite Hu in Hinfo. rewrite Hinfo, app_nil_r.
    apply quiet_process_info.
  - intros _. repeat hush.
    unfold print_command. destruct (PyStr.truthy _); by apply emits_print.
Qed.

(** Reporting on an entry prints the line that opens the report on the
    process or, when the examination failed, the line that names the
    process and the error. *)
Lemma report_process_outcome containers jobs pid memory w :
  match res (examine_process pid memory containers jobs w) with
  | Ok _ =>
      EvPrint (pid_line pid memory)
      ∈ events (report_process containers jobs (pid, memory) w)
  | Raise e =>
      (e = TypeError ∨ e = OSError ∧ log_refused (World := World))
      ∧ last (events (report_process containers jobs (pid, memory) w))
        = Some (EvPrint (pid_error_line pid e))
  end.
Proof.
  destruct (total_classify pid containers jobs w) as [verdict Hv].
  pose proof (res_examine_process pid memory containers jobs w verdict Hv)
    as Hres.
  unfold report_process. cbn [fst snd]. rewrite events_try_except.
  destruct (res (examine_process pid memory containers jobs w)) as [[]|e]
    eqn:Hex.
  - rewrite app_nil_r. clear Hres. revert Hex. unfold examine_process.
    rewrite res_bind, Hv. intros Hex.
    eapply bind_event_r; [exact Hv|].
    set (w1 := world (classify pid containers jobs w)) in *.
    destruct (total_safe_run (cmd_of pid) w1) as [cmd Hcmd].
    rewrite res_bind, Hcmd in Hex.
    eapply bind_event_r; [exact Hcmd|].
    set (w2 := world (safe_subprocess_run (cmd_of pid) w1)) in *.
    rewrite res_bind in Hex.
    match type of Hex with
    | match res (?m w2) with _ => _ end = _ =>
        destruct (res (m w2)) as [[]|] eqn:Hm; [|done]
    end.
    eapply bind_event_r; [exact Hm|].
    apply bind_event_l. apply list_elem_of_here.
  - split.
    + destruct Hres as [[_ [= ->]]|[_ Hres]]; [by left|].
      destruct (String.eqb (slurm_status verdict.2) "Non-SLURM"); [|done].
      destruct Hres as (info & w' & Hres).
      destruct (res_kill pid info w') as [Hk|Hk]; rewrite Hk in Hres;
        [done|]. injection Hres as ->. right. split; [done|].
      destruct (kill_raises pid info w' OSError Hk)
        as (_ & text & w'' & Hfail).
      by exists text, w''.
    + cbn [print emit events]. by rewrite last_snoc.
Qed.

Lemma report_process_line containers jobs pid memory w :
  EvPrint (pid_line pid memory)
  ∈ events (report_process containers jobs (pid, memory) w)
  ∨ EvPrint (pid_error_line pid TypeError)
    ∈ events (report_process containers jobs (pid, memory) w)
  ∨ (log_refused (World := World)
     ∧ EvPrint (pid_error_line pid OSError)
       ∈ events (report_process containers jobs (pid, memory) w)).
Proof.
  pose proof (report_process_outcome containers jobs pid memory w) as H.
  destruct (res (examine_process pid memory containers jobs w)) as [[]|e].
  - by left.
  - right. destruct H as [He H].
    assert (Hin : EvPrint (pid_error_line pid e)
                  ∈ events (report_process containers jobs (pid, memory) w)).
    { destruct (events (report_process containers jobs (pid, memory) w))
        as [|ev evs] using rev_ind; [done|].
      rewrite last_snoc in H. injection H as ->.
      apply elem_of_app. right. apply list_elem_of_here. }
    destruct He as [->|[-> Hlog]]; [by left | by right].
Qed.

(** X13.  No entry of the GPU process table is dropped without a word:
    reporting on an entry never raises, and it prints the line that opens
    the report on the process or, when the examination failed, ends with
    the line that names the process and the error: the type error of
    the binds, or the error of a log that refused an entry. *)
Theorem no_entry_dropped_silently containers jobs pid memory w :
  res (report_process containers jobs (pid, memory) w) = Ok tt
  ∧ match res (examine_process pid memory containers jobs w) with
    | Ok _ =>
        EvPrint (pid_line pid memory)
        ∈ events (report_process containers jobs (pid, memory) w)
    | Raise e =>
        (e = TypeError ∨ e = OSError ∧ log_refused (World := World))
        ∧ last (events (report_process containers jobs (pid, memory) w))
          = Some (EvPrint (pid_error_line pid e))
    end.
Proof.
  split; [|apply report_process_outcome].
  by destruct (total_report_process containers jobs (pid, memory) w)
    as [[] ->].
Qed.

(** The log entries of an attempt, by the way it ends. *)
Lemma kill_log_entries pid info w :
  (res (kill_non_slurm_process pid info w) = Ok tt
   ∧ length (List.filter is_log_entry
               (events (kill_non_slurm_process pid info w))) = 1%nat)
  ∨ (res (kill_non_slurm_process pid info w) = Raise OSError
     ∧ List.filter is_log_entry
         (events (kill_non_slurm_process pid info w)) = []).
Proof.
  assert (Herr : ∀ e r evs, error_end pid e r evs →
            (r = Ok tt ∧ length (List.filter is_log_entry evs) = 1%nat)
            ∨ (r = Raise OSError ∧ List.filter is_log_entry evs = [])).
  { intros e r evs []; [left | right]; done. }
  assert (Hrec : ∀ stamp forced r evs,
            record_end stamp pid info forced r evs →
            (r = Ok tt ∧ length (List.filter is_log_entry evs) = 1%nat)
            ∨ (r = Raise OSError ∧ List.filter is_log_entry evs = [])).
  { intros stamp forced r evs [|r' evs' Hend]; [by left | by eapply Herr]. }
  destruct (kill_trace pid info w) as [? ? ? ? ? Hend|? ? ? ? ? Hend
                                      |? ? ? ? ? ? ? Hend|? ? ? ? ? ? ? Hend];
    first [apply Herr in Hend | apply Hrec in Hend]; exact Hend.
Qed.

(** X14.  An attempt to reclaim a process fails only on the log file:
    it returns normally, having entered exactly one entry in the log (the
    record of the kill or an error), or it raises the error of the log
    file, having entered none. *)
Theorem reclamation_logged_once pid info w :
  (res (kill_non_slurm_process pid info w) = Ok tt
   ∧ length (List.filter is_log_entry
               (events (kill_non_slurm_process pid info w))) = 1%nat)
  ∨ (res (kill_non_slurm_process pid info w) = Raise OSError
     ∧ List.filter is_log_entry
         (events (kill_non_slurm_process pid info w)) = []
     ∧ ∃ text w', (os_log_append text w').1 = false).
Proof.
  destruct (kill_log_entries pid info w) as [H|[Hres Hnone]]; [by left|].
  right. split; [done|]. split; [done|].
  by destruct (kill_raises pid info w OSError Hres) as [_ Hfail].
Qed.

End Examination.

Lemma failed_entry_not_signalled_witness :
  Forall quiet
    (events (report_process [("c1", odd_container)] [] (7000, "200")
               claim_world)).
Proof.
  apply (failed_entry_not_signalled 7000 "200" [("c1", odd_container)] []
           claim_world).
  vm_compute. reflexivity.
Defined.

(** ** Exit status of the script *)

Section Status.
Context {World : Type} `{!Platform World}.


End Status.


(** An orphan on a machine whose log cannot be written: the signal is
    sent, the attempt fails on the log, and so does the examination. *)
Example unlogged_reclamation :
  res (examine_process 6000 "300" [] [] (Sim.readonly scenario_world))
  = Raise OSError
  ∧ signals_sent
      (events (examine_process 6000 "300" [] []
                 (Sim.readonly scenario_world)))
    = [EvExec (kill_cmd 6000) (Exited 0 "" "")]
  ∧ List.filter is_log_entry
      (events (examine_process 6000 "300" [] []
                 (Sim.readonly scenario_world))) = [].
Proof. repeat split; vm_compute; reflexivity. Qed.

(** ** Device indices are never negative *)

Lemma contains_dash_here s : PyStr.contains "-" (String "-" s) = true.
Proof.
  cbn [PyStr.contains String.prefix].
  destruct (ascii_dec "-" "-"); [by destruct s | done].
Qed.

Lemma contains_dash_skip c s :
  c ≠ "-"%char → PyStr.contains "-" (String c s) = PyStr.contains "-" s.
Proof.
  intros Hc. cbn [PyStr.contains String.prefix].
  destruct (ascii_dec "-" c) as [<-|_]; [done|]. by destruct s.
Qed.

Lemma contains_dash_cons c s :
  PyStr.contains "-" (String c s) = false →
  c ≠ "-"%char ∧ PyStr.contains "-" s = false.
Proof.
  intros H. destruct (ascii_dec c "-") as [->|Hc].
  - by rewrite contains_dash_here in H.
  - by rewrite contains_dash_skip in H.
Qed.

Lemma contains_dash_app s t :
  PyStr.contains "-" s = false → PyStr.contains "-" t = false →
  PyStr.contains "-" (s +:+ t) = false.
Proof.
  induction s as [|c s IH]; intros Hs Ht; [done|].
  apply contains_dash_cons in Hs as [Hc Hs].
  rewrite str_app_cons, contains_dash_skip by done. by apply IH.
Qed.

Lemma contains_dash_lstrip p s :
  PyStr.contains "-" s = false →
  PyStr.contains "-" (PyStr.lstrip_by p s) = false.
Proof.
  induction s as [|c s IH]; intros Hs; [done|]. cbn [PyStr.lstrip_by].
  destruct (p c); [|done]. apply IH. by apply contains_dash_cons in Hs as [_ ?].
Qed.

Lemma contains_dash_rev_app s :
  ∀ t, PyStr.contains "-" s = false → PyStr.contains "-" t = false →
       PyStr.contains "-" (String.rev_app s t) = false.
Proof.
  induction s as [|c s IH]; intros t Hs Ht; [done|]. cbn [String.rev_app].
  apply contains_dash_cons in Hs as [Hc Hs].
  apply IH; [done|]. by rewrite contains_dash_skip.
Qed.

Lemma contains_dash_strip p s :
  PyStr.contains "-" s = false →
  PyStr.contains "-" (PyStr.strip_by p s) = false.
Proof.
  intros Hs. unfold PyStr.strip_by, String.rev.
  apply contains_dash_rev_app; [|done]. apply contains_dash_lstrip.
  apply contains_dash_rev_app; [|done]. by apply contains_dash_lstrip.
Qed.

(** The pieces between dashes hold no dash. *)
Lemma split_dash_pieces s :
  ∀ cur, PyStr.contains "-" cur = false →
         Forall (λ x, PyStr.contains "-" x = false)
           (PyStr.split_go "-" 0 cur s).
Proof.
  induction s as [|c s IH]; intros cur Hcur; cbn [PyStr.split_go].
  - by repeat constructor.
  - destruct (String.prefix "-" (String c s)) eqn:Hp.
    + apply Forall_cons_2; [done|]. by apply IH.
    + apply IH. apply contains_dash_app; [done|].
      destruct (ascii_dec c "-") as [->|Hc].
      * cbn [String.prefix] in Hp.
        destruct (ascii_dec "-" "-"); [by destruct s | done].
      * by rewrite contains_dash_skip.
Qed.

Lemma digit_nonneg c d : PyStr.digit c = Some d → 0 ≤ d.
Proof.
  unfold PyStr.digit.
  destruct (Nat.leb 48 (nat_of_ascii c)) eqn:H; [|done].
  destruct (Nat.leb (nat_of_ascii c) 57); [|done].
  apply Nat.leb_le in H. intros [= <-]. lia.
Qed.

Lemma digits_go_nonneg s :
  ∀ acc prev v, 0 ≤ acc → PyStr.digits_go acc prev s = Some v → 0 ≤ v.
Proof.
  induction s as [|c s IH]; intros acc prev v Hacc; cbn [PyStr.digits_go].
  - destruct prev; [|done]. by intros [= <-].
  - destruct (PyStr.digit c) as [d|] eqn:Hd.
    + apply IH. apply digit_nonneg in Hd. lia.
    + destruct (Ascii.eqb c "_" && prev); [|done].
      destruct s as [|c' s']; [done|].
      destruct (PyStr.digit c'); [|done]. by apply IH.
Qed.

(** [int] of a text without a dash is not negative. *)
Lemma to_int_nonneg s v :
  PyStr.contains "-" s = false → PyStr.to_int s = Some v → 0 ≤ v.
Proof.
  intros Hs. apply (contains_dash_strip PyStr.is_blank) in Hs.
  unfold PyStr.to_int.
  destruct (PyStr.strip_by PyStr.is_blank s) as [|c r].
  { apply digits_go_nonneg. lia. }
  apply contains_dash_cons in Hs as [Hc _].
  destruct c as [[] [] [] [] [] [] [] []]; try done;
    apply digits_go_nonneg; lia.
Qed.

Lemma parse_range_nonneg part r :
  parse_range part = Ok r → Forall (Z.le 0) r.
Proof.
  unfold parse_range, PyStr.split.
  pose proof (split_dash_pieces part "" eq_refl) as Hpieces.
  destruct (PyStr.split_go "-" 0 "" part) as [|x [|y [|? ?]]];
    simpl; try done.
  - by destruct (PyStr.to_int x).
  - apply Forall_cons in Hpieces as [Hx Hpieces].
    destruct (PyStr.to_int x) as [a|] eqn:Ha; [|done].
    destruct (PyStr.to_int y) as [b|]; [|done].
    intros [= <-]. apply Forall_forall. intros k Hk%elem_of_seqZ.
    apply (to_int_nonneg _ _ Hx) in Ha. lia.
  - destruct (PyStr.to_int x); [|done].
    by destruct (PyStr.to_int y).
Qed.

Lemma parse_parts_nonneg parts :
  ∀ acc l, Forall (Z.le 0) acc → parse_parts parts acc = Ok l →
           Forall (Z.le 0) l.
Proof.
  induction parts as [|part parts IH]; intros acc l Hacc; simpl.
  - by intros [= <-].
  - destruct (PyStr.contains "-" part) eqn:Hdash.
    + destruct (parse_range part) as [r|] eqn:Hr; simpl; [|done].
      apply IH. apply Forall_app. split; [done|].
      by apply parse_range_nonneg in Hr.
    + destruct (PyStr.to_int part) as [n|] eqn:Hn; apply IH; [|done].
      apply Forall_app. split; [done|].
      apply Forall_cons_2; [|apply Forall_nil_2].
      by apply (to_int_nonneg part).
Qed.

Lemma parse_gpu_indices_nonneg out l :
  parse_gpu_indices out = Ok l → Forall (Z.le 0) l.
Proof.
  unfold parse_gpu_indices.
  destruct (PyStr.contains "IDX:" out); [|by intros [= <-]].
  destruct (idx_part out) as [p|]; simpl; [|done].
  by apply parse_parts_nonneg.
Qed.

(** ** Where the scheduler table comes from *)

Lemma dict_set_Forall {V} (P : string * V → Prop) k v (d : dict V) :
  Forall P d → P (k, v) → Forall P (dict_set k v d).
Proof.
  intros Hd Hkv. induction d as [|[k0 v0] d IH]; cbn [dict_set].
  - by repeat constructor.
  - apply Forall_cons in Hd as [H0 Hd].
    destruct (String.eqb k0 k); constructor; auto.
Qed.

Section JobTable.
Context {World : Type} `{!Platform World}.

Lemma read_job_from lines job d d' w :
  job ∈ lines →
  Forall (job_entry_from lines) d →
  res (read_job job d w) = Ok d' →
  Forall (job_entry_from lines) d'.
Proof.
  intros Hjob Hd. unfold read_job.
  destruct (PyStr.split_ws job) as [|job_id [|u [|n [|s [|nodes [|? ?]]]]]]
    eqn:Hsplit; try done.
  rewrite res_bind.
  destruct (res (safe_subprocess_run _ w)) as [out|] eqn:Hout; [|done].
  rewrite res_bind. unfold lift at 1. cbn [res world].
  destruct (parse_gpu_indices out) as [indices|] eqn:Hi; [|done].
  rewrite res_bind. unfold lift at 1. cbn [res world].
  destruct (parse_workdir out) as [workdir|] eqn:Hw; [|done].
  rewrite res_bind. unfold lift at 1. cbn [res world].
  destruct (parse_runtime out) as [runtime|] eqn:Hr; [|done].
  intros [= <-]. apply dict_set_Forall; [done|].
  by exists job, w, out.
Qed.

Lemma collect_jobs_from lines rest :
  ∀ d d' w,
    rest ⊆ lines →
    Forall (job_entry_from lines) d →
    res (collect_jobs rest d w) = Ok d' →
    Forall (job_entry_from lines) d'.
Proof.
  induction rest as [|job rest IH]; intros d d' w Hsub Hd; simpl.
  - by intros [= <-].
  - assert (Hrest : rest ⊆ lines).
    { intros x Hx. apply Hsub. by apply list_elem_of_further. }
    rewrite res_bind. unfold process_job at 1. rewrite res_try_except.
    destruct (res (read_job job d w)) as [d1|e] eqn:Hread.
    + apply IH; [done|]. eapply read_job_from; [|exact Hd|exact Hread].
      apply Hsub. apply list_elem_of_here.
    + rewrite res_bind. cbn [print emit res world]. by apply IH.
Qed.

(** X15.  Every entry of the scheduler table comes from a line of the
    queue listing that splits into exactly five fields: its key is the
    first field, its user, name, state and node list are the other four,
    and its indices, working directory and running time are read from
    the scheduler's description of that job. *)
Theorem job_table_provenance w out slurm_info :
  res (safe_subprocess_run squeue_cmd w) = Ok out →
  res (get_slurm_jobs w) = Ok slurm_info →
  Forall (job_entry_from (lines_of out)) slurm_info.
Proof.
  intros Hout. unfold get_slurm_jobs. rewrite res_bind, Hout.
  by apply collect_jobs_from.
Qed.

(** X16.  No job of the scheduler table holds a negative device index,
    whatever the scheduler printed: an index specification from which a
    negative number would be read makes the job fail to be read. *)
Theorem device_indices_not_negative w slurm_info job_id job_info :
  res (get_slurm_jobs w) = Ok slurm_info →
  (job_id, job_info) ∈ slurm_info →
  Forall (Z.le 0) (Job.gpu_indices job_info).
Proof.
  intros Hjobs Hin.
  destruct (total_safe_run squeue_cmd w) as [out Hout].
  unfold get_slurm_jobs in Hjobs. rewrite res_bind, Hout in Hjobs.
  pose proof (collect_jobs_from (lines_of out) (lines_of out) [] slurm_info
                _ (λ x Hx, Hx) (Forall_nil_2 _) Hjobs) as Hall.
  rewrite Forall_forall in Hall.
  destruct (Hall _ Hin) as (line & w' & sout & _ & _ & _ & Hidx & _).
  by apply parse_gpu_indices_nonneg in Hidx.
Qed.

(** X17.  When the scheduler gives no description of a queued job (the
    command fails or prints nothing), the job still enters the table,
    with no device, no working directory and no running time; it is then
    a candidate on no device. *)
Theorem undescribed_job_holds_no_device job slurm_jobs w
    job_id user job_name state node_list :
  PyStr.split_ws job = [job_id; user; job_name; state; node_list] →
  gave_nothing (os_run (scontrol_cmd job_id) w).1 →
  res (process_job job slurm_jobs w)
  = Ok (dict_set job_id (Job.Make user job_name state node_list [] "" "")
          slurm_jobs)
  ∧ ∀ gpu_id slurm_info,
      (job_id, Job.Make user job_name state node_list [] "" "")
      ∉ gpu_specific_jobs gpu_id slurm_info.
Proof.
  intros Hsplit Hout%safe_run_nothing. split.
  - unfold process_job, read_job. rewrite res_try_except, Hsplit.
    by rewrite res_bind, Hout.
  - intros gpu_id slurm_info [Hgpu _]%gpu_specific_jobs_member.
    by apply elem_of_nil in Hgpu.
Qed.

End JobTable.

Lemma job_table_provenance_witness :
  Forall (job_entry_from (World := Sim.world scenario_table)
            (lines_of (Sim.stdout scenario_table squeue_cmd)))
    scenario_jobs.
Proof.
  apply (job_table_provenance scenario_world); vm_compute; reflexivity.
Defined.

Lemma device_indices_not_negative_witness :
  Forall (Z.le 0)
    (Job.gpu_indices
       (Job.Make "carol" "fit" "RUNNING" "dgx1" [1] "/home/carol"
          "02 hours, 03 minutes, 04 seconds")).
Proof.
  apply (device_indices_not_negative scenario_world scenario_jobs "456").
  - vm_compute. reflexivity.
  - apply list_elem_of_further, list_elem_of_here.
Defined.

Lemma undescribed_job_holds_no_device_witness :
  res (process_job "9 erin sim RUNNING dgx1" [] undescribed_world)
  = Ok (dict_set "9" (Job.Make "erin" "sim" "RUNNING" "dgx1" [] "" "") [])
  ∧ ∀ gpu_id slurm_info,
      ("9", Job.Make "erin" "sim" "RUNNING" "dgx1" [] "" "")
      ∉ gpu_specific_jobs gpu_id slurm_info.
Proof.
  apply (undescribed_job_holds_no_device "9 erin sim RUNNING dgx1" []
           undescribed_world "9" "erin" "sim" "RUNNING" "dgx1");
    [reflexivity | left; reflexivity].
Defined.

(** ** Containers that list nothing *)

Lemma of_int_nonempty n : PyStr.of_int n ≠ "".
Proof.
  unfold PyStr.of_int.
  assert (Hu : ∀ p, NilEmpty.string_of_uint (Pos.to_uint p) ≠ "").
  { intros p. pose proof (DecimalPos.Unsigned.to_uint_nonnil p) as Hp.
    by destruct (Pos.to_uint p). }
  destruct n as [|p|p]; simpl; [done | apply Hu | done].
Qed.

Lemma contains_in_empty sub : sub ≠ "" → PyStr.contains sub "" = false.
Proof. by destruct sub. Qed.

Section Unlisted.
Context {World : Type} `{!Platform World}.

(** X18.  A container whose process listing cannot be obtained, or is
    empty, claims no process.  When that holds for every container of
    the table, no process is found in a container: each one counts as
    bare metal. *)
Theorem no_listing_no_container pid containers :
  (∀ cid w, cid ∈ containers.*1 → gave_nothing (os_run (top_cmd cid) w).1) →
  ∀ w, res (find_container pid containers w) = Ok None.
Proof.
  induction containers as [|[cid info] rest IH]; intros Htop w; simpl;
    [done|].
  rewrite res_bind, safe_run_nothing
    by (apply Htop; rewrite fmap_cons; apply list_elem_of_here).
  rewrite contains_in_empty by apply of_int_nonempty.
  apply IH. intros cid' w' Hin. apply Htop.
  rewrite fmap_cons. by apply list_elem_of_further.
Qed.

End Unlisted.

Lemma no_listing_no_container_witness :
  res (find_container 7000 [("c1", carol_container)] stopped_world) = Ok None.
Proof.
  apply (no_listing_no_container 7000 [("c1", carol_container)]).
  intros cid w Hin. left.
  apply list_elem_of_singleton in Hin as ->. reflexivity.
Defined.

(** ** Processes without a known owner *)

Section Ownerless.
Context {World : Type} `{!Platform World}.

Lemma get_process_user_failed pid w :
  succeeded (os_run (user_cmd pid) w).1 = false →
  res (get_process_user pid w) = Ok None.
Proof.
  unfold get_process_user, bind, exec_cmd, ret.
  destruct (os_run (user_cmd pid) w) as [[code out err|] w'];
    cbn [fst succeeded res]; [|done].
  by intros ->.
Qed.

(** X19.  A bare-metal process whose owner cannot be determined (the
    owner query fails) is attributed to no job, whatever the process
    tree tests answer: it is classified as an orphan. *)
Theorem unknown_owner_is_orphan pid jobs :
  (∀ w, succeeded (os_run (user_cmd pid) w).1 = false) →
  ∀ w, res (find_job pid None jobs w) = Ok None
       ∧ classification (None, None) = ORPHAN.
Proof.
  intros Hfail w. split; [|reflexivity]. revert w.
  induction jobs as [|[job_id job_info] rest IH]; intros w; simpl; [done|].
  rewrite res_bind. destruct (res_check pid job_id w) as [[|] ->]; [|apply IH].
  rewrite res_bind. unfold user_matches.
  rewrite res_bind, get_process_user_failed by apply Hfail.
  cbn [ret res world opt_eq_str]. apply IH.
Qed.

End Ownerless.

Lemma unknown_owner_is_orphan_witness :
  (res (find_job 5000 None [("123", job_123)] ownerless_world) = Ok None
   ∧ classification (None, None) = ORPHAN)
  ∧ events (find_job 5000 None [("123", job_123)] ownerless_world)
    = [EvExec (check_cmd 5000 "123")
         (Exited 0 "PID 5000 belongs to job 123?: TRUE" "");
       EvExec (user_cmd 5000) NotStarted].
Proof.
  split; [|vm_compute; reflexivity].
  apply (unknown_owner_is_orphan 5000 [("123", job_123)]).
  intros w. vm_compute. reflexivity.
Defined.

(** ** No process is overlooked *)

Section Coverage.
Context {World : Type} `{!Platform World}.

(** X20.  When the device listing does not get shorter between the GPU
    collector and the count of the devices, every process of the GPU
    process table is reported: the cycle prints the line that opens its
    report, or the line that names it and the error: the type error of
    the binds, or the error of a log that refused an entry. *)
Theorem every_gpu_process_reported w gpu_processes listing listing' :
  res (get_gpu_processes (gpu_query_state w)) = Ok gpu_processes →
  res (safe_subprocess_run smi_list_cmd
         (world (safe_subprocess_run smi_apps_cmd (gpu_query_state w))))
  = Ok listing →
  res (safe_subprocess_run smi_list_cmd (counting_state w)) = Ok listing' →
  (length (lines_of listing) ≤ length (lines_of listing'))%nat →
  ∀ gpu_id entries pid memory,
    gpu_processes !! gpu_id = Some entries →
    (pid, memory) ∈ entries →
    EvPrint (pid_line pid memory) ∈ events (analyze_gpu_usage w)
    ∨ EvPrint (pid_error_line pid TypeError) ∈ events (analyze_gpu_usage w)
    ∨ (log_refused (World := World)
       ∧ EvPrint (pid_error_line pid OSError)
         ∈ events (analyze_gpu_usage w)).
Proof.
  intros Hg Hlist Hlist' Hlen gpu_id entries pid memory Hk Hin.
  assert (Hrange : 0 ≤ gpu_id < Z.of_nat (length (lines_of listing))).
  { destruct (total_safe_run smi_apps_cmd (gpu_query_state w))
      as [smi_output Hout].
    pose proof Hg as Ht. unfold get_gpu_processes in Ht.
    rewrite res_bind, Hout, res_bind, Hlist in Ht.
    by eapply collect_gpu_lines_keys. }
  destruct (total_get_slurm_jobs w) as [slurm_info Hj].
  destruct (total_get_container_info (world (get_slurm_jobs w)))
    as [containers Hc].
  destruct (for_each_visits (seqZ 0 (Z.of_nat (length (lines_of listing'))))
              (report_gpu slurm_info containers gpu_processes) gpu_id
              (total_report_gpu slurm_info containers gpu_processes))
    with (w := world (safe_subprocess_run smi_list_cmd (counting_state w)))
    as [w1 Hw1].
  { apply elem_of_seqZ. lia. }
  destruct (for_each_visits entries
              (report_process containers
                 (gpu_specific_jobs gpu_id slurm_info))
              (pid, memory)
              (total_report_process containers
                 (gpu_specific_jobs gpu_id slurm_info)) Hin w1)
    as [w2 Hw2].
  assert (Hsub : ∀ ev,
            ev ∈ events (report_process containers
                           (gpu_specific_jobs gpu_id slurm_info)
                           (pid, memory) w2) →
            ev ∈ events (analyze_gpu_usage w)).
  { intros ev Hev.
    unfold analyze_gpu_usage, guarded. rewrite events_try_except.
    apply elem_of_app. left. unfold analyze_body.
    eapply bind_event_r; [reflexivity|]. cbn [print emit world].
    eapply bind_event_r; [exact Hj|].
    eapply bind_event_r; [exact Hc|].
    eapply bind_event_r; [exact Hg|].
    eapply bind_event_r; [reflexivity|]. cbn [print emit world].
    eapply bind_event_r; [reflexivity|]. cbn [print emit world].
    eapply bind_event_r; [exact Hlist'|].
    apply Hw1. unfold report_gpu.
    eapply bind_event_r; [reflexivity|]. cbn [print emit world].
    eapply bind_event_r; [reflexivity|]. cbn [print emit world].
    apply bind_event_l. rewrite Hk. by apply Hw2. }
  destruct (report_process_line containers
              (gpu_specific_jobs gpu_id slurm_info) pid memory w2)
    as [H|[H|[Hlog H]]];
    [left | right; left | right; right; split; [done|]]; by apply Hsub.
Qed.

End Coverage.

Lemma every_gpu_process_reported_witness :
  EvPrint (pid_line 6000 "300") ∈ events (analyze_gpu_usage scenario_world).
Proof.
  assert (Hline :
    EvPrint (pid_line 6000 "300") ∈ events (analyze_gpu_usage scenario_world)
    ∨ EvPrint (pid_error_line (World := Sim.world scenario_table) 6000
                 TypeError)
      ∈ events (analyze_gpu_usage scenario_world)
    ∨ (log_refused (World := Sim.world scenario_table)
       ∧ EvPrint (pid_error_line (World := Sim.world scenario_table) 6000
                    OSError)
         ∈ events (analyze_gpu_usage scenario_world))).
  { apply (every_gpu_process_reported scenario_world
             (<[2 := [(6000, "300")]]>
                (<[1 := [(7000, "200")]]> (<[0 := [(5000, "100")]]> ∅)))
             (Sim.stdout scenario_table smi_list_cmd)
             (Sim.stdout scenario_table smi_list_cmd))
      with (gpu_id := 2) (entries := [(6000, "300")]).
    - vm_compute. reflexivity.
    - vm_compute. reflexivity.
    - vm_compute. reflexivity.
    - vm_compute. lia.
    - vm_compute. reflexivity.
    - apply list_elem_of_here. }
  destruct Hline as [Hline|[Herr|[_ Herr]]]; [exact Hline| |]; exfalso;
    vm_compute in Herr;
    repeat (apply elem_of_cons in Herr as [Herr|Herr]; [discriminate Herr|]);
    by apply elem_of_nil in Herr.
Defined.

(** ** Signals leave a trace *)

Section Audit.
Context {World : Type} `{!Platform World}.

Ltac still :=
  first
    [ apply emits_ret
    | apply emits_print; reflexivity
    | apply emits_safe_run; [intros; reflexivity | intros; reflexivity]
    | apply quiet_print_owner
    | apply emits_bind; [|intros ?] ].

(** An attempt that returns has entered something in the log; one that
    raises has printed its error. *)
Lemma kill_outcome pid info w :
  (res (kill_non_slurm_process pid info w) = Ok tt
   ∧ ∃ text, EvLogAppend text ∈ events (kill_non_slurm_process pid info w))
  ∨ (res (kill_non_slurm_process pid info w) = Raise OSError
     ∧ ∃ e, EvPrint (error_msg pid e)
            ∈ events (kill_non_slurm_process pid info w)).
Proof.
  assert (Herr : ∀ e r evs pre, error_end pid e r evs →
            (r = Ok tt ∧ ∃ text, EvLogAppend text ∈ pre ++ evs)
            ∨ (r = Raise OSError
               ∧ ∃ e', EvPrint (error_msg pid e') ∈ pre ++ evs)).
  { intros e r evs pre []; [left | right]; (split; [done|]); eexists;
      apply elem_of_app; right;
      repeat first [apply list_elem_of_here | apply list_elem_of_further]. }
  assert (Hrec : ∀ stamp forced r evs pre,
            record_end stamp pid info forced r evs →
            (r = Ok tt ∧ ∃ text, EvLogAppend text ∈ pre ++ evs)
            ∨ (r = Raise OSError
               ∧ ∃ e', EvPrint (error_msg pid e') ∈ pre ++ evs)).
  { intros stamp forced r evs pre [|r' evs' Hend]; [|by eapply Herr].
    left. split; [done|]. eexists. apply elem_of_app. right.
    apply list_elem_of_here. }
  destruct (kill_trace pid info w) as [stamp r res evs ? Hend
                                      |stamp r res evs ? Hend
                                      |stamp r r' res evs ? ? Hend
                                      |stamp r r' res evs ? ? Hend].
  - apply (Herr _ _ _ [EvNow stamp; EvExec (kill_cmd pid) r] Hend).
  - apply (Hrec _ _ _ _ [EvNow stamp; EvExec (kill_cmd pid) r; EvSleep 5;
                         EvPidExists pid false] Hend).
  - apply (Hrec _ _ _ _ [EvNow stamp; EvExec (kill_cmd pid) r; EvSleep 5;
                         EvPidExists pid true;
                         EvExec (force_kill_cmd pid) r'] Hend).
  - apply (Herr _ _ _ [EvNow stamp; EvExec (kill_cmd pid) r; EvSleep 5;
                       EvPidExists pid true;
                       EvExec (force_kill_cmd pid) r'] Hend).
Qed.

(** X21.  A signal always leaves a trace.  When a signal is sent while an
    entry of the GPU process table is processed, either something is
    entered in the log and the process is reported, under its pid, as not
    managed by the scheduler; or the log cannot be written, and then the
    error of the attempt is printed and the report on the entry ends with
    the line that names the process and the error of the log file. *)
Theorem signal_leaves_a_trace containers jobs pid memory w ev :
  ev ∈ events (report_process containers jobs (pid, memory) w) →
  is_signal ev = true →
  ((∃ text, EvLogAppend text
            ∈ events (report_process containers jobs (pid, memory) w))
   ∧ EvPrint (pid_line pid memory)
     ∈ events (report_process containers jobs (pid, memory) w)
   ∧ EvPrint "  - Resource Management: Non-SLURM"
     ∈ events (report_process containers jobs (pid, memory) w))
  ∨ (res (examine_process pid memory containers jobs w) = Raise OSError
     ∧ (∃ e, EvPrint (error_msg pid e)
             ∈ events (report_process containers jobs (pid, memory) w))
     ∧ last (events (report_process containers jobs (pid, memory) w))
       = Some (EvPrint (pid_error_line pid OSError))).
Proof.
  intros Hin Hsig.
  assert (Hsub : ∀ ev',
            ev' ∈ events (examine_process pid memory containers jobs w) →
            ev' ∈ events (report_process containers jobs (pid, memory) w)).
  { intros ev' H. unfold report_process. rewrite events_try_except.
    apply elem_of_app. by left. }
  pose proof (report_process_outcome containers jobs pid memory w) as Hout.
  unfold report_process in Hin. cbn [fst snd] in Hin.
  rewrite events_try_except in Hin. apply elem_of_app in Hin as [Hin|Hin].
  2:{ exfalso. destruct (res (examine_process _ _ _ _ _));
        [by apply elem_of_nil in Hin|].
      by eapply (quiet_event (print _)); [apply emits_print|..]. }
  revert Hsub Hout Hin. unfold examine_process.
  destruct (total_classify pid containers jobs w) as [verdict Hv].
  pose (w1 := world (classify pid containers jobs w)).
  destruct (total_safe_run (cmd_of pid) w1) as [cmd Hcmd].
  pose (w2 := world (safe_subprocess_run (cmd_of pid) w1)).
  unfold w1 in Hcmd.
  intros Hsub Hout Hin.
  rewrite events_bind in Hin. apply elem_of_app in Hin as [Hin|Hin].
  { exfalso. by eapply (quiet_event _ _ _ (quiet_classify _ _ _) Hin). }
  rewrite Hv in Hin.
  rewrite events_bind in Hin. apply elem_of_app in Hin as [Hin|Hin].
  { exfalso. eapply (quiet_event (safe_subprocess_run _)); [|done..].
    apply emits_safe_run; intros; reflexivity. }
  rewrite Hcmd in Hin. fold w1 in Hin. fold w2 in Hin.
  rewrite events_bind in Hin. apply elem_of_app in Hin as [Hin|Hin].
  - (* the signal is sent by the reclamation *)
    destruct (String.eqb (slurm_status verdict.2) "Non-SLURM") eqn:Hs;
      [|by apply elem_of_nil in Hin].
    apply String.eqb_eq in Hs.
    rewrite events_bind in Hin. apply elem_of_app in Hin as [Hin|Hin].
    { exfalso. by eapply (quiet_event _ _ _ (quiet_process_info _ _ _ _) Hin). }
    destruct (res (process_info pid memory verdict.1 (PyStr.strip cmd) w2))
      as [info|] eqn:Hinfo; [|by apply elem_of_nil in Hin].
    pose (w3 := world (process_info pid memory verdict.1 (PyStr.strip cmd)
                         w2)).
    assert (Hblock : ∀ r,
      res (kill_non_slurm_process pid info w3) = r →
      res ((info0 <- process_info pid memory verdict.1 (PyStr.strip cmd) ;;
            kill_non_slurm_process pid info0) w2) = r).
    { intros r <-. by rewrite res_bind, Hinfo. }
    destruct (kill_outcome pid info w3) as [[Hk [text Htext]]|[Hk [e He]]].
    + left. split; [|split].
      * exists text. apply Hsub.
        eapply bind_event_r; [exact Hv|]. eapply bind_event_r; [exact Hcmd|].
        apply bind_event_l. rewrite Hs, String.eqb_refl.
        eapply bind_event_r; [exact Hinfo | exact Htext].
      * apply Hsub.
        eapply bind_event_r; [exact Hv|]. eapply bind_event_r; [exact Hcmd|].
        rewrite Hs, String.eqb_refl.
        eapply bind_event_r; [exact (Hblock _ Hk)|].
        apply bind_event_l. apply list_elem_of_here.
      * apply Hsub.
        eapply bind_event_r; [exact Hv|]. eapply bind_event_r; [exact Hcmd|].
        rewrite Hs, String.eqb_refl.
        eapply bind_event_r; [exact (Hblock _ Hk)|].
        eapply bind_event_r; [reflexivity|]. cbn [print emit world].
        eapply bind_event_r; [reflexivity|]. cbn [print emit world].
        apply bind_event_l. apply list_elem_of_here.
    + right.
      assert (Hres :
        res ((verdict0 <- classify pid containers jobs ;;
              cmd0 <- safe_subprocess_run (cmd_of pid) ;;
              (if String.eqb (slurm_status verdict0.2) "Non-SLURM"
               then info0 <- process_info pid memory verdict0.1
                               (PyStr.strip cmd0) ;;
                    kill_non_slurm_process pid info0
               else ret ()) ;;
              print ("PID " +:+ PyStr.of_int pid +:+ " (Live GPU Memory: "
                     +:+ memory +:+ " MiB):") ;;
              print ("  - Execution Type: " +:+ process_type verdict0.1) ;;
              print ("  - Resource Management: "
                     +:+ slurm_status verdict0.2) ;;
              print ("  - Live GPU Memory Usage: " +:+ memory +:+ " MiB") ;;
              print_owner pid verdict0.1 ;;
              cmd' <- safe_subprocess_run (cmd_of pid) ;;
              print_command (PyStr.strip cmd') ;;
              print "") w) = Raise OSError).
      { pose proof (Hblock _ Hk) as Hb. unfold w2, w1 in Hb.
        rewrite res_bind, Hv, res_bind, Hcmd, res_bind.
        rewrite Hs, String.eqb_refl. by rewrite Hb. }
      split; [exact Hres|]. split.
      * exists e. apply Hsub.
        eapply bind_event_r; [exact Hv|]. eapply bind_event_r; [exact Hcmd|].
        apply bind_event_l. rewrite Hs, String.eqb_refl.
        eapply bind_event_r; [exact Hinfo | exact He].
      * rewrite Hres in Hout. by destruct Hout as [_ Hlast].
  - (* nothing after the reclamation sends a signal *)
    exfalso.
    match type of Hin with
    | _ ∈ match ?r with _ => _ end => destruct r; [|by apply elem_of_nil in Hin]
    end.
    revert Hin. generalize (world (
      (if String.eqb (slurm_status verdict.2) "Non-SLURM"
       then info <- process_info pid memory verdict.1 (PyStr.strip cmd) ;;
            kill_non_slurm_process pid info
       else ret ()) w2)).
    intros w4 Hin.
    eapply (quiet_event _ w4 ev); [|exact Hin|exact Hsig].
    repeat still.
    unfold print_command. destruct (PyStr.truthy _); by apply emits_print.
Qed.

End Audit.

Lemma signal_leaves_a_trace_witness :
  res (examine_process 6000 "300" [] [] (Sim.readonly scenario_world))
  = Raise OSError
  ∧ (∃ e, EvPrint (error_msg (World := Sim.world scenario_table) 6000 e)
          ∈ events (report_process [] [] (6000, "300")
                      (Sim.readonly scenario_world)))
  ∧ last (events (report_process [] [] (6000, "300")
                    (Sim.readonly scenario_world)))
    = Some (EvPrint (pid_error_line (World := Sim.world scenario_table)
                       6000 OSError)).
Proof.
  destruct (signal_leaves_a_trace [] [] 6000 "300"
              (Sim.readonly scenario_world)
              (EvExec (kill_cmd 6000) (Exited 0 "" "")))
    as [[[text Hlog] _]|Hunlogged].
  - vm_compute.
    repeat first [apply list_elem_of_here | apply list_elem_of_further].
  - reflexivity.
  - exfalso. vm_compute in Hlog.
    repeat (apply elem_of_cons in Hlog as [Hlog|Hlog]; [discriminate Hlog|]).
    by apply elem_of_nil in Hlog.
  - exact Hunlogged.
Defined.

(** ** The scenarios of the specification, run *)

Example scenario_tables :
  res (get_slurm_jobs scenario_world) = Ok scenario_jobs
  ∧ res (get_container_info scenario_world) = Ok [("c1", carol_container)]
  ∧ res (get_gpu_processes scenario_world)
    = Ok (<[2 := [(6000, "300")]]>
            (<[1 := [(7000, "200")]]> (<[0 := [(5000, "100")]]> ∅))).
Proof. repeat split; vm_compute; reflexivity. Qed.

(** Scenario A: a bare-metal process of the job's owner under the job's
    supervisor. *)
Example scenario_A :
  res (classify 5000 [("c1", carol_container)]
         (gpu_specific_jobs 0 scenario_jobs) scenario_world)
  = Ok (None, Some "123")
  ∧ classification (None, Some "123") = SCHEDULER_OWNED.
Proof. split; vm_compute; reflexivity. Qed.

(** Scenario C: a process in carol's container, under carol's job. *)
Example scenario_C :
  res (classify 7000 [("c1", carol_container)]
         (gpu_specific_jobs 1 scenario_jobs) scenario_world)
  = Ok (Some carol_container, Some "456")
  ∧ classification (Some carol_container, Some "456")
    = CONTAINER_SCHEDULER_OWNED.
Proof. split; vm_compute; reflexivity. Qed.

(** Scenario B: an orphan on a device no job holds; in the whole cycle
    it alone is signalled, once, and exits within the grace window. *)
Example scenario_B :
  res (classify 6000 [("c1", carol_container)]
         (gpu_specific_jobs 2 scenario_jobs) scenario_world)
  = Ok (None, None)
  ∧ signals_sent (events (main scenario_world))
    = [EvExec (kill_cmd 6000) (Exited 0 "" "")]
  ∧ res (main scenario_world) = Ok 0.
Proof. repeat split; vm_compute; reflexivity. Qed.

(** A process that ignores the graceful signal is found alive after the
    wait and receives the forced one; the record carries the marker. *)
Example forced_reclamation :
  events (kill_non_slurm_process 6000 orphan_info stubborn_world)
  = [EvNow "2024-01-01 00:00:00";
     EvExec (kill_cmd 6000) (Exited 0 "" "");
     EvSleep 5;
     EvPidExists 6000 true;
     EvExec (force_kill_cmd 6000) (Exited 0 "" "");
     EvLogAppend (log_message (World := Sim.world [])
                    "2024-01-01 00:00:00" 6000 orphan_info true);
     EvPrint (success_line 6000)].
Proof. vm_compute. reflexivity. Qed.
